(** * mechExperiment_visualization: the two-pass PIV pipeline, in Rocq

    A shallow embedding of

    - [src/lib/open_piv/piv_analysis.py]  ([analyze_and_save_frames]),
    - [src/utils/create_video.py]         ([create_video_from_images]),
    - [src/main.py]                       ([main]),
    - the code that [piv_analysis.py] and [create_video.py] run as
      scripts, and the substitution that strips the comments of the
      configuration,
    - [src/thonny/servo_motor_drive.py]   ([pulse_us_to_u16], [set_speed]),

    followed by the properties of the pipeline.

    Numbers are IEEE-754 binary64 values, taken from the executable
    specification [SpecFloat] of the standard library (53 bits of
    precision, exponent bound 1024), so that rounding, overflow, NaN
    and the infinities behave as they do in NumPy's [float64].
    Python exceptions are values of an error monad; the video
    capture, the console and the files written are explicit state. *)

From Stdlib Require Import ZArith NArith List Bool Arith Lia String Ascii.
From Stdlib Require Import SpecFloat.
From Stdlib Require Import Permutation Sorted Mergesort Orders.
Import ListNotations.

Set Implicit Arguments.

(* ================================================================== *)
(** * Part I.  Python: exceptions, sequences, formatting            *)
(* ================================================================== *)

Module Py.

(** The exception classes that the modelled code can raise. *)
Inductive exn : Type :=
| KeyError
| TypeError
| ValueError
| IndexError
| AttributeError.

(** A computation either returns a value or raises. *)
Inductive result (A : Type) : Type :=
| Ok (a : A)
| Raise (e : exn).

Arguments Ok {A} a.
Arguments Raise {A} e.

Definition bind {A B : Type} (m : result A) (k : A -> result B) : result B :=
  match m with
  | Ok a => k a
  | Raise e => Raise e
  end.

Definition is_ok {A : Type} (m : result A) : bool :=
  match m with Ok _ => true | Raise _ => false end.

(** [l[i]] for a non-negative index. *)
Definition index {A : Type} (l : list A) (i : nat) : result A :=
  match nth_error l i with
  | Some a => Ok a
  | None => Raise IndexError
  end.

(** [l[i : j]] for non-negative bounds: never raises, clips at the end. *)
Definition slice {A : Type} (l : list A) (i j : nat) : list A :=
  firstn (j - i) (skipn i l).

(** [range(n)] for a Python integer [n]: empty when [n <= 0]. *)
Definition range (n : Z) : list nat := seq 0 (Z.to_nat n).

(** Decimal digits of a natural number, most significant first.
    [fuel] bounds the number of digits produced. *)
Definition digit_char (d : nat) : ascii := ascii_of_nat (48 + d).

Fixpoint digits_aux (fuel n : nat) (acc : list ascii) : list ascii :=
  match fuel with
  | 0 => acc
  | S fuel' =>
      let acc' := digit_char (n mod 10) :: acc in
      if n <? 10 then acc' else digits_aux fuel' (n / 10) acc'
  end.

Definition digits (n : nat) : list ascii := digits_aux (S n) n [].

(** [format(n, "0Wd")] for [n >= 0]: the decimal digits, padded on the
    left with ['0'] up to the minimum width [W]; never truncated. *)
Definition format_0d (width n : nat) : list ascii :=
  let ds := digits n in
  repeat "0"%char (width - List.length ds) ++ ds.

(** [os.path.join(a, b)] on POSIX paths. *)
Definition starts_with_slash (s : string) : bool :=
  match s with
  | String c _ => Ascii.eqb c "/"%char
  | EmptyString => false
  end.

Fixpoint ends_with_slash (s : string) : bool :=
  match s with
  | EmptyString => false
  | String c EmptyString => Ascii.eqb c "/"%char
  | String _ s' => ends_with_slash s'
  end.

Definition os_path_join (a b : string) : string :=
  if starts_with_slash b then b
  else if (a =? "")%string || ends_with_slash a then (a ++ b)%string
  else (a ++ "/" ++ b)%string.

(** [sorted] on a list of [str]: ascending in the order of [<=] on
    strings, character code by character code. *)
Module StringOrder <: TotalLeBool.
Definition t : Type := string.
Definition leb : string -> string -> bool := String.leb.
Definition leb_total : forall s1 s2, leb s1 s2 = true \/ leb s2 s1 = true :=
  String.leb_total.
End StringOrder.

Module StringSort := Sort StringOrder.

Definition sorted (l : list string) : list string := StringSort.sort l.

End Py.

Notation "x <- m ;; k" := (Py.bind m (fun x => k))
  (at level 61, m at next level, right associativity).
Notation "' pat <- m ;; k" := (Py.bind m (fun x => match x with pat => k end))
  (at level 61, pat pattern, m at next level, right associativity).

(* ================================================================== *)
(** * Part II.  binary64 arithmetic and the NumPy reductions        *)
(* ================================================================== *)

Module Float64.

Definition prec : Z := 53.
Definition emax : Z := 1024.

Definition float64 : Type := spec_float.

Definition fadd : float64 -> float64 -> float64 := SFadd prec emax.
Definition fmul : float64 -> float64 -> float64 := SFmul prec emax.
Definition fdiv : float64 -> float64 -> float64 := SFdiv prec emax.
Definition fsqrt : float64 -> float64 := SFsqrt prec emax.
Definition fopp : float64 -> float64 := SFopp.
Definition fltb : float64 -> float64 -> bool := SFltb.
Definition fleb : float64 -> float64 -> bool := SFleb.
Definition feqb : float64 -> float64 -> bool := SFeqb.

(** Conversion of a Python [int] to [float]. *)
Definition of_Z (z : Z) : float64 := binary_normalize prec emax z 0 false.
Definition of_nat (n : nat) : float64 := of_Z (Z.of_nat n).

Definition zero : float64 := S754_zero false.
Definition nan : float64 := S754_nan.
Definition pinf : float64 := S754_infinity false.

(** [sys.float_info.max], 0x1.fffffffffffffp+1023. *)
Definition DBL_MAX : float64 := SFmax_float prec emax.

Definition is_nan (x : float64) : bool :=
  match x with S754_nan => true | _ => false end.

Definition is_inf (x : float64) : bool :=
  match x with S754_infinity _ => true | _ => false end.

Definition is_finite (x : float64) : bool :=
  match x with S754_zero _ | S754_finite _ _ _ => true | _ => false end.

(** A well-formed binary64 datum: canonical mantissa, exponent in range. *)
Definition valid (x : float64) : bool := valid_binary prec emax x.

(** The sign bit is clear (NaN has none). *)
Definition nonneg (x : float64) : bool :=
  match x with
  | S754_zero s | S754_infinity s | S754_finite s _ _ => negb s
  | S754_nan => false
  end.

(** 1.0 and 2.0 *)
Definition fone : float64 := S754_finite false 4503599627370496 (-52).
Definition ftwo : float64 := S754_finite false 4503599627370496 (-51).

(** The sign bit of [x] is [s]; NaN, which has none, passes. *)
Definition has_sign (s : bool) (x : float64) : Prop :=
  match x with
  | S754_nan => True
  | S754_zero s' | S754_infinity s' | S754_finite s' _ _ => s' = s
  end.


(** Away from NaN, comparison is the lexicographic order of a key made
    of the class, the exponent and the mantissa, signed. *)
Definition key (x : float64) : Z * Z * Z :=
  match x with
  | S754_infinity true => (-2, 0, 0)%Z
  | S754_finite true m e => (-1, - e, - Z.pos m)%Z
  | S754_zero _ => (0, 0, 0)%Z
  | S754_nan => (0, 0, 0)%Z
  | S754_finite false m e => (1, e, Z.pos m)%Z
  | S754_infinity false => (2, 0, 0)%Z
  end.

Definition lexcmp (k1 k2 : Z * Z * Z) : comparison :=
  let '(a1, b1, c1) := k1 in
  let '(a2, b2, c2) := k2 in
  match (a1 ?= a2)%Z with
  | Eq => match (b1 ?= b2)%Z with Eq => (c1 ?= c2)%Z | r => r end
  | r => r
  end.

Definition lexle (k1 k2 : Z * Z * Z) : Prop :=
  let '(a1, b1, c1) := k1 in
  let '(a2, b2, c2) := k2 in
  (a1 < a2 \/ (a1 = a2 /\ (b1 < b2 \/ (b1 = b2 /\ c1 <= c2))))%Z.

End Float64.

Module Numpy.
Import Float64.

(** A [float64] array, by its cells in row-major order.  Every
    operation of the pipeline is cell-wise or reduces along the window
    axis of a stack, so the two-dimensional shape is the cell count;
    whether that count is one decides how a reduction adds. *)
Definition grid : Type := list float64.

(** [np.nan_to_num], default arguments: NaN becomes 0.0, the infinities
    become the largest and the most negative finite [float64]. *)
Definition nan_to_num1 (x : float64) : float64 :=
  match x with
  | S754_nan => zero
  | S754_infinity false => DBL_MAX
  | S754_infinity true => fopp DBL_MAX
  | _ => x
  end.

Definition nan_to_num (a : grid) : grid := map nan_to_num1 a.

(** [np.fmax]: the larger operand, a NaN losing to a number. *)
Definition fmax (a b : float64) : float64 :=
  if fleb b a || is_nan b then a else b.

(** [np.nanmax] over the whole array; a zero-size array raises. *)
Definition nanmax (a : grid) : Py.result float64 :=
  match a with
  | [] => Py.Raise Py.ValueError
  | x :: xs => Py.Ok (fold_left fmax xs x)
  end.

(** A binary cell-wise operation; operands of different shapes raise
    (broadcasting of unit dimensions is not modelled). *)
Fixpoint map2 (f : float64 -> float64 -> float64) (a b : grid) : Py.result grid :=
  match a, b with
  | [], [] => Py.Ok []
  | x :: a', y :: b' => r <- map2 f a' b' ;; Py.Ok (f x y :: r)
  | _, _ => Py.Raise Py.ValueError
  end.

(** [np.sqrt(u**2 + v**2)], one cell. *)
Definition magnitude1 (u v : float64) : float64 :=
  fsqrt (fadd (fmul u u) (fmul v v)).

Definition magnitude (u v : grid) : Py.result grid := map2 magnitude1 u v.

(** [np.stack]: needs at least one array, all of one shape. *)
Definition same_shape (a b : grid) : bool := List.length a =? List.length b.

Definition stack (arrays : list grid) : Py.result (list grid) :=
  match arrays with
  | [] => Py.Raise Py.ValueError
  | a :: rest =>
      if forallb (same_shape a) rest then Py.Ok arrays else Py.Raise Py.ValueError
  end.

(** Reduction along axis 0 of a stack: cell [j] of the result is [f]
    applied to the [j]-th cells of the stacked arrays, first to last. *)
Definition column (stacked : list grid) (j : nat) : list float64 :=
  map (fun g => nth j g nan) stacked.

Definition reduce_axis0 (f : list float64 -> float64) (stacked : list grid) : grid :=
  match stacked with
  | [] => []
  | a :: _ => map (fun j => f (column stacked j)) (seq 0 (List.length a))
  end.

(** *** Summation

    [np.add.reduce] fills the result with the identity 0.0 and adds
    the elements to it.  Which elements meet in one addition depends on
    the memory layout.  Along axis 0 of a stack of arrays of more than
    one cell the reduced axis is the slow one: the inner loop runs over
    the cells and each cell receives its values one by one, first to
    last.  When the arrays hold a single cell the values of that cell
    are contiguous and the inner loop hands the whole run to NumPy's
    pairwise summation, whose result is added to the 0.0. *)

(** [res = 0.; for (i = 0; i < n; i++) res += a[i]] *)
Definition sum_in_order (xs : list float64) : float64 := fold_left fadd xs zero.

(** The eight running sums of the unrolled loop: [r[k] += a[i + k]]. *)
Definition add8 (r block : list float64) : list float64 :=
  map (fun p => fadd (fst p) (snd p)) (combine r block).

Fixpoint sum_blocks (blocks : nat) (r xs : list float64)
  : list float64 * list float64 :=
  match blocks with
  | 0 => (r, xs)
  | S blocks' => sum_blocks blocks' (add8 r (firstn 8 xs)) (skipn 8 xs)
  end.

(** [((r[0] + r[1]) + (r[2] + r[3])) + ((r[4] + r[5]) + (r[6] + r[7]))] *)
Definition join8 (r : list float64) : float64 :=
  match r with
  | [r0; r1; r2; r3; r4; r5; r6; r7] =>
      fadd (fadd (fadd r0 r1) (fadd r2 r3)) (fadd (fadd r4 r5) (fadd r6 r7))
  | _ => zero
  end.

(** A run of 8 to 128 elements: the first eight start the running
    sums, every further whole block of eight is added to them, the
    sums are joined and the elements left over are added in order. *)
Definition sum_unrolled (xs : list float64) : float64 :=
  let n := List.length xs in
  let '(r, rest) := sum_blocks (n / 8 - 1) (firstn 8 xs) (skipn 8 xs) in
  fold_left fadd rest (join8 r).

(** [pairwise_sum]: a run of more than 128 elements is cut in two at a
    multiple of eight, [n2 = n / 2; n2 -= n2 % 8].  Both parts are
    shorter than the run, so a depth of its length is never used up. *)
Fixpoint pairwise_sum_upto (depth : nat) (xs : list float64) : float64 :=
  let n := List.length xs in
  if n <? 8 then sum_in_order xs
  else if n <=? 128 then sum_unrolled xs
  else
    match depth with
    | 0 => sum_unrolled xs
    | S depth' =>
        let n2 := n / 2 - (n / 2) mod 8 in
        fadd (pairwise_sum_upto depth' (firstn n2 xs))
             (pairwise_sum_upto depth' (skipn n2 xs))
    end.

Definition pairwise_sum (xs : list float64) : float64 :=
  pairwise_sum_upto (List.length xs) xs.

(** [np.sum] of the values of one cell of a stack, [contiguous] when
    the stacked arrays hold that cell alone. *)
Definition sum (contiguous : bool) (xs : list float64) : float64 :=
  if contiguous then fadd zero (pairwise_sum xs) else sum_in_order xs.

(** The arrays of the stack hold one cell each. *)
Definition one_cell (stacked : list grid) : bool :=
  match stacked with
  | [] => false
  | a :: _ => List.length a =? 1
  end.

(** [np.nanmean], one cell: NaNs are replaced by 0.0 in the sum and
    left out of the count; an all-NaN slice gives 0.0/0 = NaN. *)
Definition nanmean1 (contiguous : bool) (xs : list float64) : float64 :=
  let arr := map (fun x => if is_nan x then zero else x) xs in
  let cnt := List.length (filter (fun x => negb (is_nan x)) xs) in
  fdiv (sum contiguous arr) (of_nat cnt).

(** Insertion sort by [<=], as [np.sort] orders NaN-free data. *)
Fixpoint insert (x : float64) (l : list float64) : list float64 :=
  match l with
  | [] => [x]
  | y :: l' => if fleb x y then x :: l else y :: insert x l'
  end.

Fixpoint sort (l : list float64) : list float64 :=
  match l with
  | [] => []
  | x :: l' => insert x (sort l')
  end.

(** *** The median

    [np.nanmedian] along an axis takes one of two routes.  A stack of
    fewer than 600 arrays goes through [np.ma.median]: in each cell the
    values that are not NaN are sorted, the low and the high middle
    value are taken, which are one and the same value when the count
    is odd, and their sum ([np.ma.sum], from 0.0) is halved.  A larger
    stack goes cell by cell through [np.median]: the mean of the one
    middle value for an odd count, of the two for an even count.  A
    cell of NaNs alone gives NaN on both routes. *)

(** [_nanmedian_small], one cell. *)
Definition nanmedian_small (contiguous : bool) (xs : list float64) : float64 :=
  let ys := sort (filter (fun x => negb (is_nan x)) xs) in
  let counts := List.length ys in
  let h := counts / 2 in
  let l := if Nat.odd counts then h else h - 1 in
  if counts =? 0 then nan
  else fdiv (sum contiguous [nth l ys nan; nth h ys nan]) (of_nat 2).

(** [np.mean] of a one-dimensional array. *)
Definition mean1d (xs : list float64) : float64 :=
  fdiv (sum true xs) (of_nat (List.length xs)).

(** [_nanmedian1d], one cell. *)
Definition nanmedian1d (xs : list float64) : float64 :=
  let ys := sort (filter (fun x => negb (is_nan x)) xs) in
  let sz := List.length ys in
  let index := sz / 2 in
  if sz =? 0 then nan
  else if Nat.odd sz then mean1d [nth index ys nan]
  else mean1d [nth (index - 1) ys nan; nth index ys nan].

Definition nanmean_axis0 (stacked : list grid) : grid :=
  reduce_axis0 (nanmean1 (one_cell stacked)) stacked.

Definition nanmedian_axis0 (stacked : list grid) : grid :=
  if List.length stacked <? 600
  then reduce_axis0 (nanmedian_small (one_cell stacked)) stacked
  else reduce_axis0 nanmedian1d stacked.

End Numpy.

(* ================================================================== *)
(** * Part III.  [piv_analysis.py]                                  *)
(* ================================================================== *)

Module PivAnalysis.
Import Float64 Numpy.

(** The external collaborators of the pipeline: OpenCV's colour
    conversion and the OpenPIV estimator, validators, outlier repair
    and scaling.  Their results are opaque; only the shapes of the
    grids they return matter to the code below. *)
Class Collaborators : Type := {
  Frame : Type;
  Gray : Type;
  Coords : Type;
  Mask : Type;
  cvtColor_BGR2GRAY : Frame -> Gray;
  (* process.extended_search_area_piv(a, b, window_size, overlap, dt,
     search_area_size, sig2noise_method) *)
  extended_search_area_piv :
    Gray -> Gray -> Z -> Z -> float64 -> Z -> string -> grid * grid * grid;
  (* process.get_coordinates(image_size, search_area_size, overlap) *)
  get_coordinates : Gray -> Z -> Z -> Coords * Coords;
  sig2noise_val : grid -> float64 -> Mask;
  global_std : grid -> grid -> float64 -> Mask;
  logical_or : Mask -> Mask -> Mask;
  (* filters.replace_outliers(u, v, mask, method, max_iter, kernel_size) *)
  replace_outliers : grid -> grid -> Mask -> string -> Z -> Z -> grid * grid;
  (* scaling.uniform(x, y, u, v, scaling_factor) *)
  scaling_uniform :
    Coords -> Coords -> grid -> grid -> float64 -> Coords * Coords * grid * grid
}.

Section Analysis.
Context {C : Collaborators}.

(** What [cv2.VideoCapture(video_path)] finds. *)
Record Video : Type := {
  isOpened : bool;
  CAP_PROP_FPS : float64;
  footage : list Frame          (* the decodable frames, in order *)
}.

(** The arguments of [analyze_and_save_frames]. *)
Record Args : Type := {
  video_path : Video;
  output_dir : string;
  scaling_factor : float64;
  vmax_override : option float64;
  frame_comparison_step : nat;
  moving_average_window : nat;
  averaging_method : string
}.

(** One entry of [frames_data]. *)
Record FrameResult : Type := {
  d_u : grid;
  d_v : grid;
  d_bg : Frame;
  d_frame_index : nat
}.

(** PIV parameters, fixed in the source. *)
Definition winsize : Z := 32.
Definition searchsize : Z := 64.
Definition overlap : Z := 16.
Definition sn_threshold : float64 := fdiv (of_Z 11) (of_Z 10).   (* 1.1 *)
Definition std_threshold : float64 := of_Z 3.                     (* 3.0 *)

(** Calls on the capture handle, in program order. *)
Inductive CapEvent : Type :=
| CapRead (ret : bool)
| CapRelease.

(** Lines printed on the console. *)
Inductive Message : Type :=
| MsgStarting
| MsgParameters (step window : nat) (method : string)
| ErrCouldNotOpen
| WarnNoFps
| MsgPass1
| ErrNotEnoughFrames
| MsgAnalyzing (frame_index : nat)
| MsgAnalysisComplete (pairs : nat) (max_mag : float64)
| MsgNoFramesAnalyzed
| MsgPass2 (window : nat) (method : string)
| MsgVmaxOverride (vmax : float64)
| MsgSaving (i : nat) (total : Z) (frame_num : nat)
| MsgProcessingComplete (total : Z)
| MsgFinished.

(** The figure title. *)
Inductive Title : Type :=
| VelocityField (frame_from frame_to : nat)
| AggregatedField (method_name : string) (window start_frame : nat).

(** What is handed to matplotlib for one image. *)
Record Plot : Type := {
  imshow_bg : Frame;
  quiver_x : Coords;
  quiver_y : Coords;
  quiver_u : grid;
  quiver_v : grid;
  quiver_c : grid;
  quiver_scale : float64;
  clim_vmin : float64;
  clim_vmax : float64;
  axis_unit : string;
  plot_title : Title
}.

(** f'img{frame_num:003d}.png' *)
Definition image_name (frame_num : nat) : string :=
  ("img" ++ string_of_list_ascii (Py.format_0d 3 frame_num) ++ ".png")%string.

(** ** Pass 1 *)

(** The variables of the first pass that outlive one iteration, with
    the calls made on the capture and the lines printed so far.
    [running_max] is a ghost variable: the value of [overall_max_mag]
    after each pair processed so far, oldest first. *)
Record Pass1 : Type := {
  frames_data : list FrameResult;
  overall_max_mag : float64;
  xy : option (Coords * Coords);
  cap_events : list CapEvent;
  stdout : list Message;
  running_max : list float64
}.

(** The initial reads: [for _ in range(step + 1): ret, frame = cap.read()]. *)
Fixpoint fill_buffer (n : nat) (pending : list Frame) (frame_buffer : list Frame)
  (events : list CapEvent) : list Frame * list Frame * list CapEvent :=
  match n with
  | 0 => (pending, frame_buffer, events)
  | S n' =>
      match pending with
      | [] => fill_buffer n' [] frame_buffer (events ++ [CapRead false])
      | frame :: pending' =>
          fill_buffer n' pending' (frame_buffer ++ [frame]) (events ++ [CapRead true])
      end
  end.

(** Lines 93 to 113 of the loop body: the grey frames, the estimator,
    the coordinate grid (computed for the first pair only), the two
    validation masks and the outlier repair. *)
Definition estimate_filtered (dt : float64) (frame_a_color frame_b_color : Frame)
  (xy : option (Coords * Coords)) : Coords * Coords * grid * grid :=
  let frame_a := cvtColor_BGR2GRAY frame_a_color in
  let frame_b := cvtColor_BGR2GRAY frame_b_color in
  let '(u, v, sig2noise) :=
    extended_search_area_piv frame_a frame_b winsize overlap dt searchsize "peak2peak" in
  let '(x, y) :=
    match xy with
    | None => get_coordinates frame_a searchsize overlap
    | Some c => c
    end in
  let mask_sn := sig2noise_val sig2noise sn_threshold in
  let mask_glob := global_std u v std_threshold in
  let invalid_mask := logical_or mask_sn mask_glob in
  let '(u_filtered, v_filtered) := replace_outliers u v invalid_mask "localmean" 5 3 in
  (x, y, u_filtered, v_filtered).

(** Lines 121 to 123: the magnitudes of one field after scaling, and
    the largest of them after [np.nan_to_num]. *)
Definition scaled_magnitude (a : Args) (x y : Coords) (u v : grid) : Py.result grid :=
  let '(_, _, u_scaled_tmp, v_scaled_tmp) := scaling_uniform x y u v (scaling_factor a) in
  magnitude u_scaled_tmp v_scaled_tmp.

Definition current_max_mag (a : Args) (x y : Coords) (u v : grid) : Py.result float64 :=
  magnitude <- scaled_magnitude a x y u v ;;
  nanmax (nan_to_num magnitude).

(** The body of the [while True] loop up to the update of
    [overall_max_mag] (lines 90 to 125).  When the magnitude
    computation raises, the pair has already been appended to
    [frames_data]. *)
Definition analyze_pair (a : Args) (dt : float64)
  (frame_a_color frame_b_color : Frame) (frame_index : nat) (st : Pass1)
  : Pass1 * Py.result unit :=
  let '(x, y, u_filtered, v_filtered) :=
    estimate_filtered dt frame_a_color frame_b_color (xy st) in
  let frames_data' :=
    frames_data st ++
    [ {| d_u := u_filtered; d_v := v_filtered;
         d_bg := frame_a_color; d_frame_index := frame_index |} ] in
  let out := stdout st ++ [MsgAnalyzing frame_index] in
  match current_max_mag a x y u_filtered v_filtered with
  | Py.Raise e =>
      ({| frames_data := frames_data';
          overall_max_mag := overall_max_mag st;
          xy := Some (x, y);
          cap_events := cap_events st;
          stdout := out;
          running_max := running_max st |}, Py.Raise e)
  | Py.Ok current_max_mag =>
      let overall_max_mag' :=
        if fltb (overall_max_mag st) current_max_mag
        then current_max_mag else overall_max_mag st in
      ({| frames_data := frames_data';
          overall_max_mag := overall_max_mag';
          xy := Some (x, y);
          cap_events := cap_events st;
          stdout := out;
          running_max := running_max st ++ [overall_max_mag'] |}, Py.Ok tt)
  end.

(** [cap.read()] at the end of an iteration, recorded in the state. *)
Definition read_event (ret : bool) (st : Pass1) : Pass1 :=
  {| frames_data := frames_data st;
     overall_max_mag := overall_max_mag st;
     xy := xy st;
     cap_events := cap_events st ++ [CapRead ret];
     stdout := stdout st;
     running_max := running_max st |}.

(** [while True: ...]: one pair per iteration, one more frame read at
    its end; the loop ends when the read fails. *)
Fixpoint pass1_loop (a : Args) (dt : float64) (pending frame_buffer : list Frame)
  (frame_index : nat) (st : Pass1) : Pass1 * Py.result unit :=
  match Py.index frame_buffer 0, Py.index frame_buffer (frame_comparison_step a) with
  | Py.Ok frame_a_color, Py.Ok frame_b_color =>
      let frame_index := S frame_index in
      match analyze_pair a dt frame_a_color frame_b_color frame_index st with
      | (st', Py.Raise e) => (st', Py.Raise e)
      | (st', Py.Ok _) =>
          let frame_buffer := tl frame_buffer in
          match pending with
          | [] => (read_event false st', Py.Ok tt)
          | new_frame :: pending' =>
              pass1_loop a dt pending' (frame_buffer ++ [new_frame]) frame_index
                (read_event true st')
          end
      end
  | Py.Raise e, _ | _, Py.Raise e => (st, Py.Raise e)
  end.

(** ** Pass 2 *)

(** Lines 164 to 169. *)
Definition aggregate (a : Args) (arrays : list grid) : Py.result grid :=
  stacked <- stack arrays ;;
  Py.Ok (if (averaging_method a =? "median")%string
         then nanmedian_axis0 stacked
         else nanmean_axis0 stacked).

(** One iteration of the rendering loop (lines 155 to 209): the file
    name and the figure saved under it. *)
Definition render_window (a : Args) (x y x_scaled y_scaled : Coords)
  (vmax_to_use : float64) (unit_ : string) (window_data : list FrameResult)
  : Py.result (string * Plot) :=
  base_data <- Py.index window_data 0 ;;
  let frame_num := d_frame_index base_data in
  let u_arrays := map d_u window_data in
  let v_arrays := map d_v window_data in
  aggregated_u_raw <- aggregate a u_arrays ;;
  aggregated_v_raw <- aggregate a v_arrays ;;
  let '(_, _, agg_u_scaled, agg_v_scaled) :=
    scaling_uniform x y aggregated_u_raw aggregated_v_raw (scaling_factor a) in
  magnitude <- magnitude agg_u_scaled agg_v_scaled ;;
  let magnitude_nonan := nan_to_num magnitude in
  let agg_u_nonan := nan_to_num agg_u_scaled in
  let agg_v_nonan := nan_to_num agg_v_scaled in
  let plot_scale :=
    if fltb zero vmax_to_use then fmul vmax_to_use (of_Z 20) else of_Z 30 in
  let title :=
    if 1 <? moving_average_window a
    then AggregatedField
           (if (averaging_method a =? "median")%string then "Median" else "Averaged")
           (moving_average_window a) frame_num
    else VelocityField frame_num (frame_num + frame_comparison_step a) in
  Py.Ok (image_name frame_num,
         {| imshow_bg := d_bg base_data;
            quiver_x := x_scaled;
            quiver_y := y_scaled;
            quiver_u := agg_u_nonan;
            quiver_v := map fopp agg_v_nonan;
            quiver_c := magnitude_nonan;
            quiver_scale := plot_scale;
            clim_vmin := of_Z 0;
            clim_vmax := vmax_to_use;
            axis_unit := unit_;
            plot_title := title |}).

(** [for i in range(num_images_to_save)]: the progress line is printed
    once the window's first pair is known, before the window is
    aggregated and drawn; the images saved so far are kept when an
    iteration raises. *)
Fixpoint pass2_loop (a : Args) (x y x_scaled y_scaled : Coords)
  (vmax_to_use : float64) (unit_ : string) (frames_data : list FrameResult)
  (num_images_to_save : Z) (indices : list nat)
  (saved : list (string * Plot)) (out : list Message)
  : list (string * Plot) * list Message * Py.result unit :=
  match indices with
  | [] => (saved, out, Py.Ok tt)
  | i :: indices' =>
      let window_data := Py.slice frames_data i (i + moving_average_window a) in
      match Py.index window_data 0 with
      | Py.Raise e => (saved, out, Py.Raise e)
      | Py.Ok base_data =>
          let out :=
            out ++ [MsgSaving (S i) num_images_to_save (d_frame_index base_data)] in
          match render_window a x y x_scaled y_scaled vmax_to_use unit_ window_data with
          | Py.Raise e => (saved, out, Py.Raise e)
          | Py.Ok (name, plot) =>
              pass2_loop a x y x_scaled y_scaled vmax_to_use unit_ frames_data
                num_images_to_save indices' (saved ++ [(name, plot)]) out
          end
      end
  end.

(** The function from line 136 on, given the results of the first pass. *)
Definition pass2 (a : Args) (frames_data : list FrameResult)
  (overall_max_mag : float64) (xy : option (Coords * Coords))
  : list (string * Plot) * list Message * Py.result unit :=
  match frames_data with
  | [] => ([], [MsgNoFramesAnalyzed], Py.Ok tt)
  | first :: _ =>
      let out := [MsgPass2 (moving_average_window a) (averaging_method a)] in
      let '(vmax_to_use, out) :=
        match vmax_override a with
        | Some vmax => (vmax, out ++ [MsgVmaxOverride vmax])
        | None => (overall_max_mag, out)
        end in
      let unit_ :=
        if feqb (scaling_factor a) (of_Z 1) then "pixels"%string else "mm"%string in
      match xy with
      | None => ([], out, Py.Raise Py.TypeError)
      | Some (x, y) =>
          let '(x_scaled, y_scaled, _, _) :=
            scaling_uniform x y (d_u first) (d_v first) (scaling_factor a) in
          let num_images_to_save :=
            (Z.of_nat (List.length frames_data)
             - Z.of_nat (moving_average_window a) + 1)%Z in
          match pass2_loop a x y x_scaled y_scaled vmax_to_use unit_ frames_data
                  num_images_to_save (Py.range num_images_to_save) [] out with
          | (saved, out', Py.Ok _) =>
              (saved,
               out' ++ [MsgProcessingComplete num_images_to_save; MsgFinished],
               Py.Ok tt)
          | r => r
          end
      end
  end.

(** ** The whole function *)

(** How a call ended, with what it left behind. *)
Record Run : Type := {
  outcome : Py.result unit;          (* [return] (of [None]) or the exception raised *)
  console : list Message;
  capture_log : list CapEvent;
  analyzed : list FrameResult;       (* [frames_data] when the call ended *)
  max_mag : float64;                 (* [overall_max_mag] when the call ended *)
  max_mag_history : list float64;
  grid_xy : option (Coords * Coords);   (* [x, y] when the call ended *)
  images : list (string * Plot)      (* [plt.savefig] calls, in order *)
}.

(** [analyze_and_save_frames]; the creation of the output directory,
    which no property below depends on, is left out. *)
Definition analyze_and_save_frames (a : Args) : Run :=
  let out :=
    [MsgStarting;
     MsgParameters (frame_comparison_step a) (moving_average_window a) (averaging_method a)] in
  let cap := video_path a in
  if negb (isOpened cap) then
    {| outcome := Py.Ok tt; console := out ++ [ErrCouldNotOpen]; capture_log := [];
       analyzed := []; max_mag := zero; max_mag_history := []; grid_xy := None;
       images := [] |}
  else
    let fps := CAP_PROP_FPS cap in
    let '(fps, out) :=
      if feqb fps (of_Z 0) then (of_Z 30, out ++ [WarnNoFps]) else (fps, out) in
    let dt := fdiv (of_nat (frame_comparison_step a)) fps in
    let out := out ++ [MsgPass1] in
    let '(pending, frame_buffer, events) :=
      fill_buffer (frame_comparison_step a + 1) (footage cap) [] [] in
    if List.length frame_buffer <=? frame_comparison_step a then
      {| outcome := Py.Ok tt; console := out ++ [ErrNotEnoughFrames];
         capture_log := events ++ [CapRelease];
         analyzed := []; max_mag := zero; max_mag_history := []; grid_xy := None;
       images := [] |}
    else
      let st0 :=
        {| frames_data := []; overall_max_mag := zero; xy := None;
           cap_events := events; stdout := out; running_max := [] |} in
      match pass1_loop a dt pending frame_buffer 0 st0 with
      | (st, Py.Raise e) =>
          {| outcome := Py.Raise e; console := stdout st; capture_log := cap_events st;
             analyzed := frames_data st; max_mag := overall_max_mag st;
             max_mag_history := running_max st; grid_xy := xy st; images := [] |}
      | (st, Py.Ok _) =>
          let events := cap_events st ++ [CapRelease] in
          let out :=
            stdout st ++
            [MsgAnalysisComplete (List.length (frames_data st)) (overall_max_mag st)] in
          let '(saved, out2, res) :=
            pass2 a (frames_data st) (overall_max_mag st) (xy st) in
          {| outcome := res; console := out ++ out2; capture_log := events;
             analyzed := frames_data st; max_mag := overall_max_mag st;
             max_mag_history := running_max st; grid_xy := xy st; images := saved |}
      end.

End Analysis.
End PivAnalysis.

(* ================================================================== *)
(** * Part IV.  [create_video.py]                                   *)
(* ================================================================== *)

Module CreateVideo.

Section Assembler.

(** A decoded image and its [shape], (height, width, layers). *)
Variable Image : Type.
Variable shape : Image -> nat * nat * nat.

(** The file system as the function sees it: what [glob.glob] returns
    for a pattern (in any order), what [cv2.imread] returns for a path
    ([None] when the file cannot be decoded), and the clock. *)
Record Disk : Type := {
  glob : string -> list string;
  imread : string -> option Image;
  now_strftime : string
}.

(** Calls on the [cv2.VideoWriter] handle, in program order. *)
Inductive WriterEvent : Type :=
| WriterOpen (video_name fourcc : string) (fps : Z) (size : nat * nat)
| WriterWrite (frame : Image)
| WriterRelease.

Inductive Message : Type :=
| ErrNoMatch (image_folder image_pattern : string)
| MsgLoading (count : nat)
| ErrFirstImage (image_file : string)
| MsgVideoSize (width height : nat) (fps : Z)
| MsgProgress (i total : nat)
| WarnSkipped (image_file : string)
| MsgDone (video_name : string).

Record Run : Type := {
  console : list Message;
  writer_log : list WriterEvent
}.

(** [for i, image_file in enumerate(image_files)] (lines 48 to 54). *)
Fixpoint write_frames (disk : Disk) (image_files : list string) (i total : nat)
  (events : list WriterEvent) (out : list Message)
  : list WriterEvent * list Message :=
  match image_files with
  | [] => (events, out)
  | image_file :: rest =>
      match imread disk image_file with
      | Some frame =>
          write_frames disk rest (S i) total
            (events ++ [WriterWrite frame]) (out ++ [MsgProgress (i + 1) total])
      | None =>
          write_frames disk rest (S i) total events (out ++ [WarnSkipped image_file])
      end
  end.

(** [create_video_from_images]; the creation of the output folder is
    left out. *)
Definition create_video_from_images (disk : Disk)
  (image_folder output_folder : string) (fps : Z) (image_pattern : string)
  (output_filename : option string) : Run :=
  let image_files := Py.sorted (glob disk (Py.os_path_join image_folder image_pattern)) in
  match image_files with
  | [] =>
      {| console := [ErrNoMatch image_folder image_pattern]; writer_log := [] |}
  | first :: _ =>
      let out := [MsgLoading (List.length image_files)] in
      match imread disk first with
      | None =>
          (* [frame.shape] on [None]: AttributeError, caught *)
          {| console := out ++ [ErrFirstImage first]; writer_log := [] |}
      | Some frame =>
          let '(height, width, layers) := shape frame in
          let size := (width, height) in
          let out := out ++ [MsgVideoSize width height fps] in
          let video_name :=
            match output_filename with
            | Some name =>
                if (name =? "")%string
                then Py.os_path_join output_folder
                       ("video_" ++ now_strftime disk ++ ".mp4")%string
                else Py.os_path_join output_folder name
            | None =>
                Py.os_path_join output_folder
                  ("video_" ++ now_strftime disk ++ ".mp4")%string
            end in
          let events := [WriterOpen video_name "mp4v" fps size] in
          let '(events, out) :=
            write_frames disk image_files 0 (List.length image_files) events out in
          {| console := out ++ [MsgDone video_name];
             writer_log := events ++ [WriterRelease] |}
      end
  end.

End Assembler.
End CreateVideo.

(* ================================================================== *)
(** * Part V.  [main.py]                                            *)
(* ================================================================== *)

Module Main.
Import Float64.

(** The values [json.loads] produces. *)
#[local] Unset Elimination Schemes.
Inductive json : Type :=
| JNull
| JBool (b : bool)
| JInt (z : Z)
| JFloat (f : float64)
| JStr (s : string)
| JList (l : list json)
| JDict (d : list (string * json)).
#[local] Set Elimination Schemes.

Fixpoint lookup (k : string) (d : list (string * json)) : option json :=
  match d with
  | [] => None
  | (k', v) :: d' => if (k =? k')%string then Some v else lookup k d'
  end.

(** [bool(j)] *)
Definition truthy (j : json) : bool :=
  match j with
  | JNull => false
  | JBool b => b
  | JInt z => negb (z =? 0)%Z
  | JFloat f => negb (feqb f zero)
  | JStr s => negb (s =? "")%string
  | JList l => match l with [] => false | _ => true end
  | JDict d => match d with [] => false | _ => true end
  end.

(** [j[k]]: a dict looks the key up; no other JSON value can be
    subscripted by a string; an unhashable key is a TypeError. *)
Definition getitem (j : json) (k : json) : Py.result json :=
  match j with
  | JDict d =>
      match k with
      | JStr s =>
          match lookup s d with
          | Some v => Py.Ok v
          | None => Py.Raise Py.KeyError
          end
      | JList _ | JDict _ => Py.Raise Py.TypeError
      | _ => Py.Raise Py.KeyError
      end
  | _ => Py.Raise Py.TypeError
  end.

(** [j.get(k, default)]: only a dict has the method. *)
Definition has_get (j : json) : Py.result (list (string * json)) :=
  match j with
  | JDict d => Py.Ok d
  | _ => Py.Raise Py.AttributeError
  end.

Definition get (j : json) (k : string) (default : json) : Py.result json :=
  d <- has_get j ;;
  Py.Ok (match lookup k d with Some v => v | None => default end).

(** [os.path.join(project_root, p)]: [p] has to be a string. *)
Definition join_root (project_root : string) (p : json) : Py.result json :=
  match p with
  | JStr s => Py.Ok (JStr (Py.os_path_join project_root s))
  | _ => Py.Raise Py.TypeError
  end.

(** A function signature: parameter names, with whether each has a default. *)
Definition signature : Type := list (string * bool).

(** def analyze_and_save_frames(video_path, output_dir, scaling_factor,
      vmax_override=None, frame_comparison_step=1,
      moving_average_window=1, averaging_method="mean") *)
Definition analyze_and_save_frames_sig : signature :=
  [("video_path", false); ("output_dir", false); ("scaling_factor", false);
   ("vmax_override", true); ("frame_comparison_step", true);
   ("moving_average_window", true); ("averaging_method", true)]%string.

(** def create_video_from_images(image_folder, output_folder, fps=30,
      image_pattern='img*.png', output_filename=None) *)
Definition create_video_from_images_sig : signature :=
  [("image_folder", false); ("output_folder", false); ("fps", true);
   ("image_pattern", true); ("output_filename", true)]%string.

Definition accepts (sig : signature) (name : string) : bool :=
  existsb (fun p => (fst p =? name)%string) sig.

Definition provided (kwargs : list (string * json)) (name : string) : bool :=
  existsb (fun kw => (fst kw =? name)%string) kwargs.

(** Binding the keyword arguments of a call to the parameters: an
    unexpected keyword or a missing required parameter raises
    TypeError, before the body of the function is entered. *)
Definition bind_kwargs (sig : signature) (kwargs : list (string * json))
  : Py.result (list (string * json)) :=
  if negb (forallb (fun kw => accepts sig (fst kw)) kwargs) then Py.Raise Py.TypeError
  else if negb (forallb (fun p => snd p || provided kwargs (fst p)) sig)
  then Py.Raise Py.TypeError
  else Py.Ok kwargs.

(** A call with keyword arguments; the flag tells whether the body
    was entered. *)
Definition call (sig : signature) (body : list (string * json) -> Py.result unit)
  (kwargs : list (string * json)) : Py.result unit * bool :=
  match bind_kwargs sig kwargs with
  | Py.Raise e => (Py.Raise e, false)
  | Py.Ok bound => (body bound, true)
  end.

(** What reading [execData.jsonc] gave, in the three cases that the
    code provides for: the file is missing ([FileNotFoundError]), its
    text is not JSON ([json.JSONDecodeError]), or it was parsed.  Any
    other exception of [open], [read] or [json.loads] (a directory, a
    file that may not be read, bytes that do not decode) is caught
    nowhere and lies outside these cases. *)
Inductive ConfigFile : Type :=
| FileNotFound
| Malformed
| Parsed (config_data : json).

Inductive Message : Type :=
| ErrConfigNotFound
| ErrConfigDecode
| ErrNoDefaultExecution
| MsgUsingConfiguration (config_key : json)
| ErrKeyNotFound (config_key : json)
| MsgInitiatingPiv
| ErrPivMissingParameter
| ErrPivUnexpected (e : Py.exn)
| MsgSkippingPiv
| MsgInitiatingVideo
| ErrVideoMissingParameter
| ErrVideoUnexpected (e : Py.exn)
| MsgSkippingVideo
| MsgPipelineFinished
| Traceback (e : Py.exn).

(** How the process ended; [piv_entered] and [video_entered] tell
    whether the body of the stage's function was entered at all. *)
Record Run : Type := {
  exit_status : Z;
  console : list Message;
  piv_entered : bool;
  video_entered : bool
}.

Section Pipeline.

Variable project_root : string.

(** What the bodies of the two stage functions do once entered with
    their arguments bound: return, or raise. *)
Variable analyze_body : list (string * json) -> Py.result unit.
Variable create_video_body : list (string * json) -> Py.result unit.

Definition stop (status : Z) (out : list Message) (piv video : bool) : Run :=
  {| exit_status := status; console := out; piv_entered := piv; video_entered := video |}.

(** The keyword arguments of the call at lines 101 to 110. *)
Definition piv_kwargs (video_path output_dir : json) (piv_params : json)
  : Py.result (list (string * json)) :=
  scaling_factor <- get piv_params "scaling_factor" (JFloat (of_Z 1)) ;;
  vmax <- get piv_params "vmax" JNull ;;
  frame_comparison_step <- get piv_params "frame_comparison_step" (JInt 1) ;;
  moving_average_window <- get piv_params "moving_average_window" (JInt 1) ;;
  averaging_method <- get piv_params "averaging_method" (JStr "mean") ;;
  piv_parameters <- get piv_params "piv_parameters" (JDict []) ;;
  Py.Ok [("video_path", video_path); ("output_dir", output_dir);
         ("scaling_factor", scaling_factor); ("vmax_override", vmax);
         ("frame_comparison_step", frame_comparison_step);
         ("moving_average_window", moving_average_window);
         ("averaging_method", averaging_method);
         ("piv_params", piv_parameters)]%string.

(** The [try] block of section 5 (lines 95 to 110); the second
    component tells whether the function body was entered. *)
Definition piv_stage (execution_params : json) : Py.result unit * bool :=
  match
    (piv_params <- getitem execution_params (JStr "piv_analysis") ;;
     v <- getitem piv_params (JStr "video_path") ;;
     video_path <- join_root project_root v ;;
     o <- getitem piv_params (JStr "output_dir") ;;
     output_dir <- join_root project_root o ;;
     piv_kwargs video_path output_dir piv_params)
  with
  | Py.Raise e => (Py.Raise e, false)
  | Py.Ok kwargs => call analyze_and_save_frames_sig analyze_body kwargs
  end.

(** The keyword arguments of the call at lines 131 to 137. *)
Definition video_kwargs (image_folder output_folder : json) (video_params : json)
  : Py.result (list (string * json)) :=
  fps <- get video_params "fps" (JInt 30) ;;
  pattern <- get video_params "pattern" (JStr "img*.png") ;;
  name <- get video_params "name" JNull ;;
  Py.Ok [("image_folder", image_folder); ("output_folder", output_folder);
         ("fps", fps); ("image_pattern", pattern);
         ("output_filename", name)]%string.

(** The [try] block of section 6 (lines 126 to 137). *)
Definition video_stage (execution_params : json) : Py.result unit * bool :=
  match
    (piv_params <- getitem execution_params (JStr "piv_analysis") ;;
     o <- getitem piv_params (JStr "output_dir") ;;
     image_folder <- join_root project_root o ;;
     video_params <- getitem execution_params (JStr "create_video") ;;
     o' <- getitem video_params (JStr "output_dir") ;;
     output_folder <- join_root project_root o' ;;
     video_kwargs image_folder output_folder video_params)
  with
  | Py.Raise e => (Py.Raise e, false)
  | Py.Ok kwargs => call create_video_from_images_sig create_video_body kwargs
  end.

(** Section 3: the execution key. *)
Definition config_key_of (args_config : option string) (config_data : json)
  : Py.result json :=
  match args_config with
  | Some k => if (k =? "")%string
              then (d <- getitem config_data (JStr "default_execution") ;;
                    getitem d (JStr "execution_key"))
              else Py.Ok (JStr k)
  | None => d <- getitem config_data (JStr "default_execution") ;;
            getitem d (JStr "execution_key")
  end.

(** Section 4: the parameters and the execution flags. *)
Definition exec_flags_of (config_data config_key : json) : Py.result (json * json) :=
  executions <- getitem config_data (JStr "executions") ;;
  execution_params <- getitem executions config_key ;;
  d <- has_get execution_params ;;
  default_execution <- getitem config_data (JStr "default_execution") ;;
  default_flags <- getitem default_execution (JStr "execution_function") ;;
  Py.Ok (execution_params,
         match lookup "execution_function" d with
         | Some flags => flags
         | None => default_flags
         end).

(** An exception that no handler of [main] catches ends the process
    with a traceback and status 1. *)
Definition uncaught (e : Py.exn) (out : list Message) (piv video : bool) : Run :=
  stop 1 (out ++ [Traceback e]) piv video.

(** Section 6 and the end of [main]. *)
Definition main_video (execution_params exec_flags : json)
  (out : list Message) (piv : bool) : Run :=
  match get exec_flags "create_video" (JBool false) with
  | Py.Raise e => uncaught e out piv false
  | Py.Ok flag =>
      if truthy flag then
        let out := out ++ [MsgInitiatingVideo] in
        match video_stage execution_params with
        | (Py.Ok _, entered) => stop 0 (out ++ [MsgPipelineFinished]) piv entered
        | (Py.Raise Py.KeyError, entered) =>
            stop 1 (out ++ [ErrVideoMissingParameter]) piv entered
        | (Py.Raise e, entered) => stop 1 (out ++ [ErrVideoUnexpected e]) piv entered
        end
      else stop 0 (out ++ [MsgSkippingVideo; MsgPipelineFinished]) piv false
  end.

(** Section 5 onwards. *)
Definition main_piv (execution_params exec_flags : json) (out : list Message) : Run :=
  match get exec_flags "piv_analysis" (JBool false) with
  | Py.Raise e => uncaught e out false false
  | Py.Ok flag =>
      if truthy flag then
        let out := out ++ [MsgInitiatingPiv] in
        match piv_stage execution_params with
        | (Py.Ok _, entered) => main_video execution_params exec_flags out entered
        | (Py.Raise Py.KeyError, entered) =>
            stop 1 (out ++ [ErrPivMissingParameter]) entered false
        | (Py.Raise e, entered) => stop 1 (out ++ [ErrPivUnexpected e]) entered false
        end
      else main_video execution_params exec_flags (out ++ [MsgSkippingPiv]) false
  end.

(** [main] from line 51 on, [args_config] being [args.config] as
    [parse_args] (line 49) returned it.  The exits of [parse_args]
    itself, with status 0 on [--help] and 2 on a command line that it
    rejects, come before and are not part of the function below. *)
Definition main (args_config : option string) (file : ConfigFile) : Run :=
  match file with
  | FileNotFound => stop 1 [ErrConfigNotFound] false false
  | Malformed => stop 1 [ErrConfigDecode] false false
  | Parsed config_data =>
      match config_key_of args_config config_data with
      | Py.Raise Py.KeyError => stop 1 [ErrNoDefaultExecution] false false
      | Py.Raise e => uncaught e [] false false
      | Py.Ok config_key =>
          let out := [MsgUsingConfiguration config_key] in
          match exec_flags_of config_data config_key with
          | Py.Raise Py.KeyError => stop 1 (out ++ [ErrKeyNotFound config_key]) false false
          | Py.Raise e => uncaught e out false false
          | Py.Ok (execution_params, exec_flags) =>
              main_piv execution_params exec_flags out
          end
      end
  end.

End Pipeline.
End Main.

(* ================================================================== *)
(** * Part VI.  The configuration text and the stand-alone scripts  *)
(* ================================================================== *)

(** [re.sub(r'//.*\n', '\n', text)], by which [main.py] (line 56),
    [piv_analysis.py] (line 229) and [create_video.py] (line 67) take
    the comments out of [execData.jsonc] before [json.loads].

    The scan goes from left to right.  Outside a match, a [/] followed
    by a second [/] and, further on, by a newline starts a match; the
    match runs up to and including the first newline ([.] matches no
    newline), and a newline is written in its place.  Where no newline
    follows, the pattern does not match and the text stays.  The text
    is taken by bytes: in UTF-8 no byte of a longer character is a
    slash or a newline. *)
Module Jsonc.

Definition newline : ascii := "010"%char.

Fixpoint has_newline (s : string) : bool :=
  match s with
  | EmptyString => false
  | String c s' => Ascii.eqb c newline || has_newline s'
  end.

(** [in_match] tells whether the scan is inside a match. *)
Fixpoint sub_from (in_match : bool) (s : string) : string :=
  match s with
  | EmptyString => EmptyString
  | String c s' =>
      if in_match then
        if Ascii.eqb c newline then String newline (sub_from false s')
        else sub_from true s'
      else if Ascii.eqb c "/" && Py.starts_with_slash s' && has_newline s'
      then sub_from true s'
      else String c (sub_from false s')
  end.

Definition strip_comments (text : string) : string := sub_from false text.

End Jsonc.

(** [piv_analysis.py] and [create_video.py] run as scripts: the code
    under [if __name__ == '__main__'].  The configuration is read as
    in [main.py], but the execution key is looked up differently, no
    path is joined to the project root, and [exit()] is called without
    a status. *)
Module Scripts.
Import Float64 Main.

(** [d.get(k, default)] for a key that need not be a string: a list
    or a dict cannot be hashed, and no other value that is not a
    string equals a key of a JSON object. *)
Definition get_key (j k default : json) : Py.result json :=
  d <- has_get j ;;
  match k with
  | JStr s => Py.Ok (match lookup s d with Some v => v | None => default end)
  | JList _ | JDict _ => Py.Raise Py.TypeError
  | _ => Py.Ok default
  end.

Inductive Message : Type :=
| ErrConfigNotFound
| ErrConfigDecode
| ErrNoConfiguration
| MsgUsingConfiguration (config_key : json)
| ErrConfigurationNotFound (config_key : json)
| ErrNoPivSection (config_key : json)
| ErrNoOutputDir (config_key : json)
| MsgVideoScriptStarts
| MsgVideoScriptEnds
| Traceback (e : Py.exn).

(** How the process ended; [entered] tells whether the body of the
    function that the script calls was entered. *)
Record Run : Type := {
  exit_status : Z;
  console : list Message;
  entered : bool
}.

(** [exit()], after the lines printed so far: status 0. *)
Definition exit_ (out : list Message) : Run :=
  {| exit_status := 0; console := out; entered := false |}.

(** An exception that nothing catches: traceback and status 1. *)
Definition uncaught (e : Py.exn) (out : list Message) (entered : bool) : Run :=
  {| exit_status := 1; console := out ++ [Traceback e]; entered := entered |}.

(** [args.config if args.config else config_data.get("default_execution")] *)
Definition config_key_of (args_config : option string) (config_data : json)
  : Py.result json :=
  match args_config with
  | Some k => if (k =? "")%string
              then get config_data "default_execution" JNull
              else Py.Ok (JStr k)
  | None => get config_data "default_execution" JNull
  end.

(** The part that the two scripts share (piv_analysis.py lines 225 to
    250, create_video.py lines 66 to 91): the configuration file, the
    key and the parameters of the execution, once [parse_args] has
    returned.  Either the process has ended, or the key, the
    parameters and the lines printed so far. *)
Definition select_execution (args_config : option string) (file : ConfigFile)
  : Run + json * json * list Message :=
  match file with
  | FileNotFound => inl (exit_ [ErrConfigNotFound])
  | Malformed => inl (exit_ [ErrConfigDecode])
  | Parsed config_data =>
      match config_key_of args_config config_data with
      | Py.Raise e => inl (uncaught e [] false)
      | Py.Ok config_key =>
          if negb (truthy config_key) then inl (exit_ [ErrNoConfiguration])
          else
            let out := [MsgUsingConfiguration config_key] in
            match (executions <- get config_data "executions" (JDict []) ;;
                   get_key executions config_key JNull) with
            | Py.Raise e => inl (uncaught e out false)
            | Py.Ok execution_params =>
                if negb (truthy execution_params)
                then inl (exit_ (out ++ [ErrConfigurationNotFound config_key]))
                else inr (config_key, execution_params, out)
            end
      end
  end.

(** The keyword arguments of the call at piv_analysis.py lines 257 to 265. *)
Definition piv_script_kwargs (piv_params : json) : Py.result (list (string * json)) :=
  video_path <- get piv_params "video_path" JNull ;;
  output_dir <- get piv_params "output_dir" JNull ;;
  scaling_factor <- get piv_params "scaling_factor" (JFloat (of_Z 1)) ;;
  vmax <- get piv_params "vmax" JNull ;;
  frame_comparison_step <- get piv_params "frame_comparison_step" (JInt 1) ;;
  moving_average_window <- get piv_params "moving_average_window" (JInt 1) ;;
  averaging_method <- get piv_params "averaging_method" (JStr "mean") ;;
  Py.Ok [("video_path", video_path); ("output_dir", output_dir);
         ("scaling_factor", scaling_factor); ("vmax_override", vmax);
         ("frame_comparison_step", frame_comparison_step);
         ("moving_average_window", moving_average_window);
         ("averaging_method", averaging_method)]%string.

(** [piv_analysis.py] run as a script (lines 215 to 265). *)
Definition piv_script (analyze_body : list (string * json) -> Py.result unit)
  (args_config : option string) (file : ConfigFile) : Run :=
  match select_execution args_config file with
  | inl run => run
  | inr (config_key, execution_params, out) =>
      match get execution_params "piv_analysis" JNull with
      | Py.Raise e => uncaught e out false
      | Py.Ok piv_params =>
          if negb (truthy piv_params) then exit_ (out ++ [ErrNoPivSection config_key])
          else
            match piv_script_kwargs piv_params with
            | Py.Raise e => uncaught e out false
            | Py.Ok kwargs =>
                match call analyze_and_save_frames_sig analyze_body kwargs with
                | (Py.Ok _, entered) =>
                    {| exit_status := 0; console := out; entered := entered |}
                | (Py.Raise e, entered) => uncaught e out entered
                end
            end
      end
  end.

(** The keyword arguments of the call at create_video.py lines 100 to 106. *)
Definition video_script_kwargs (image_folder video_params : json)
  : Py.result (list (string * json)) :=
  output_folder <-
    get video_params "output_dir" (JStr (Py.os_path_join "output" "video")) ;;
  fps <- get video_params "fps" (JInt 30) ;;
  pattern <- get video_params "pattern" (JStr "img*.png") ;;
  name <- get video_params "name" JNull ;;
  Py.Ok [("image_folder", image_folder); ("output_folder", output_folder);
         ("fps", fps); ("image_pattern", pattern);
         ("output_filename", name)]%string.

(** [create_video.py] run as a script (lines 58 to 107). *)
Definition video_script (create_video_body : list (string * json) -> Py.result unit)
  (args_config : option string) (file : ConfigFile) : Run :=
  match select_execution args_config file with
  | inl run => run
  | inr (config_key, execution_params, out) =>
      match (piv_params <- get execution_params "piv_analysis" (JDict []) ;;
             video_params <- get execution_params "create_video" (JDict []) ;;
             image_folder <- get piv_params "output_dir" JNull ;;
             Py.Ok (video_params, image_folder)) with
      | Py.Raise e => uncaught e out false
      | Py.Ok (video_params, image_folder) =>
          if negb (truthy image_folder) then exit_ (out ++ [ErrNoOutputDir config_key])
          else
            let out := out ++ [MsgVideoScriptStarts] in
            match video_script_kwargs image_folder video_params with
            | Py.Raise e => uncaught e out false
            | Py.Ok kwargs =>
                match call create_video_from_images_sig create_video_body kwargs with
                | (Py.Ok _, entered) =>
                    {| exit_status := 0; console := out ++ [MsgVideoScriptEnds];
                       entered := entered |}
                | (Py.Raise e, entered) => uncaught e out entered
                end
            end
      end
  end.

End Scripts.

(* ================================================================== *)
(** * Part VII.  [servo_motor_drive.py]                             *)
(* ================================================================== *)

(** The MicroPython script that drives the FS90R servo.  A [float] of
    MicroPython has single or double precision, by the build; the
    format is a parameter, and arithmetic rounds to nearest, ties to
    even, as [SpecFloat] has it. *)
Module Servo.
Local Open Scope Z_scope.

Record format : Type := { prec : Z; emax : Z }.

Definition binary32 : format := {| prec := 24; emax := 128 |}.
Definition binary64 : format := {| prec := 53; emax := 1024 |}.

(** What [int(x)] raises. *)
Inductive error : Type :=
| ValueError       (* x is NaN *)
| OverflowError.   (* x is infinite *)

(** A Python number: [set_speed] is called with [+0.6] and with [0]. *)
Inductive number : Type :=
| Int (z : Z)
| Float (x : spec_float).

(** [int(x)] for a float: the integer part, towards zero. *)
Definition int_of_float (x : spec_float) : error + Z :=
  match x with
  | S754_zero _ => inr 0
  | S754_finite s m e => inr (cond_Zopp s (Z.shiftl (Zpos m) e))
  | S754_nan => inl ValueError
  | S754_infinity _ => inl OverflowError
  end.

Definition PERIOD_US : Z := 20000.
Definition CENTER_US : Z := 1500.
Definition SPAN_US : Z := 500.
Definition TRIM_US : Z := 0.
Definition DEADBAND_US : Z := 10.

Section Drive.
Variable fmt : format.

(** [float(z)] *)
Definition of_int (z : Z) : spec_float :=
  binary_normalize (prec fmt) (emax fmt) z 0 false.

Definition fmul : spec_float -> spec_float -> spec_float := SFmul (prec fmt) (emax fmt).
Definition fdiv : spec_float -> spec_float -> spec_float := SFdiv (prec fmt) (emax fmt).

(** [pulse_us_to_u16]: the pulse width, clipped to the period, as a
    share of 65535; [pulse_us / PERIOD_US] is the division of floats. *)
Definition pulse_us_to_u16 (pulse_us : Z) : error + Z :=
  let pulse_us :=
    if pulse_us <? 0 then 0
    else if pulse_us >? PERIOD_US then PERIOD_US
    else pulse_us in
  int_of_float (fmul (of_int 65535) (fdiv (of_int pulse_us) (of_int PERIOD_US))).

(** [speed > bound] and [speed < bound], for a float literal [bound]
    of integer value. *)
Definition gt (speed : number) (bound : Z) : bool :=
  match speed with
  | Int z => bound <? z
  | Float x => SFltb (of_int bound) x
  end.

Definition lt (speed : number) (bound : Z) : bool :=
  match speed with
  | Int z => z <? bound
  | Float x => SFltb x (of_int bound)
  end.

(** Lines 35 to 43 of [set_speed]: the two clips, the pulse width and
    the dead band. *)
Definition pulse_of_speed (speed : number) : error + Z :=
  let speed := if gt speed 1 then Float (of_int 1) else speed in
  let speed := if lt speed (-1) then Float (of_int (-1)) else speed in
  match
    match speed with
    | Int z => inr (z * SPAN_US)
    | Float x => int_of_float (fmul x (of_int SPAN_US))
    end
  with
  | inl e => inl e
  | inr n =>
      let pulse := CENTER_US + TRIM_US + n in
      inr (if Z.abs ((CENTER_US + TRIM_US) - pulse) <=? DEADBAND_US
           then CENTER_US + TRIM_US else pulse)
  end.

(** [set_speed]: the duty handed to [pwm.duty_u16], or the exception
    raised before the PWM is touched. *)
Definition set_speed (speed : number) : error + Z :=
  match pulse_of_speed speed with
  | inl e => inl e
  | inr pulse => pulse_us_to_u16 pulse
  end.

End Drive.
End Servo.

(* ================================================================== *)
(** * Part VIII.  A synthetic laboratory                            *)
(* ================================================================== *)

(** Concrete collaborators on which the pipeline can be run: a frame
    carries the displacement field that the estimator reports for the
    pair starting at it, validation finds nothing to repair, and the
    scaling divides every grid by the scaling factor. *)
Module Synthetic.
Import Float64 Numpy.

Definition scale (factor : float64) (g : grid) : grid :=
  map (fun c => fdiv c factor) g.

Definition collaborators : PivAnalysis.Collaborators :=
  {| PivAnalysis.Frame := grid * grid;
     PivAnalysis.Gray := grid * grid;
     PivAnalysis.Coords := grid;
     PivAnalysis.Mask := unit;
     PivAnalysis.cvtColor_BGR2GRAY := fun f => f;
     PivAnalysis.extended_search_area_piv :=
       fun frame_a _ _ _ _ _ _ => (fst frame_a, snd frame_a, []);
     PivAnalysis.get_coordinates := fun _ _ _ => ([], []);
     PivAnalysis.sig2noise_val := fun _ _ => tt;
     PivAnalysis.global_std := fun _ _ _ => tt;
     PivAnalysis.logical_or := fun _ _ => tt;
     PivAnalysis.replace_outliers := fun u v _ _ _ _ => (u, v);
     PivAnalysis.scaling_uniform :=
       fun x y u v factor => (scale factor x, scale factor y, scale factor u, scale factor v)
  |}.

(** Some binary64 constants. *)
Definition one : float64 := of_Z 1.
Definition two : float64 := of_Z 2.
Definition three : float64 := of_Z 3.
Definition four : float64 := of_Z 4.
Definition five : float64 := of_Z 5.
(** 0.1, i.e. 0x1.999999999999ap-4 *)
Definition tenth : float64 := fdiv (of_Z 1) (of_Z 10).
(** 2^600, whose square overflows *)
Definition huge : float64 := S754_finite false 4503599627370496 548.

(** A one-cell frame. *)
Definition cell (u v : float64) : grid * grid := ([u], [v]).

(** A video of the given frames, played with the given stride and
    window, unit scaling, 30 frames per second. *)
Definition args (frames : list (grid * grid)) (step window : nat) (method : string)
  : PivAnalysis.Args (C := collaborators) :=
  {| PivAnalysis.video_path :=
       PivAnalysis.Build_Video (C := collaborators) true (of_Z 30) frames;
     PivAnalysis.output_dir := "output/piv";
     PivAnalysis.scaling_factor := one;
     PivAnalysis.vmax_override := None;
     PivAnalysis.frame_comparison_step := step;
     PivAnalysis.moving_average_window := window;
     PivAnalysis.averaging_method := method |}.

Definition five_frames : list (grid * grid) :=
  [cell three four; cell one zero; cell zero two; cell one one; cell zero zero].

(** A folder of three matching files, listed out of order, the second
    of which (in sorted order) cannot be decoded; an image is its shape. *)
Definition shape (img : nat * nat * nat) : nat * nat * nat := img.

Definition disk : CreateVideo.Disk (nat * nat * nat) :=
  {| CreateVideo.glob := fun _ => ["out/img003.png"; "out/img001.png"; "out/img002.png"]%string;
     CreateVideo.imread :=
       fun f => if (f =? "out/img002.png")%string then None else Some (480, 640, 3);
     CreateVideo.now_strftime := "20250101_000000" |}.

(** A recorded pair with the given grids. *)
Definition recorded (u v : grid) (frame_index : nat)
  : PivAnalysis.FrameResult (C := collaborators) :=
  PivAnalysis.Build_FrameResult (C := collaborators) u v (u, v) frame_index.

(** A field with a NaN, an infinite and two finite vectors. *)
Definition field_with_gaps : PivAnalysis.FrameResult (C := collaborators) :=
  recorded [tenth; nan; pinf; three] [one; two; zero; four] 1.

(** A configuration file with one profile, both stages enabled. *)
Definition config : Main.json :=
  Main.JDict
    [("default_execution",
      Main.JDict
        [("execution_key", Main.JStr "test01");
         ("execution_function",
          Main.JDict [("piv_analysis", Main.JBool true);
                      ("create_video", Main.JBool true)])]);
     ("executions",
      Main.JDict
        [("test01",
          Main.JDict
            [("piv_analysis",
              Main.JDict
                [("video_path", Main.JStr "data/smoke.mp4");
                 ("output_dir", Main.JStr "output/piv");
                 ("frame_comparison_step", Main.JInt 2);
                 ("moving_average_window", Main.JInt 3);
                 ("averaging_method", Main.JStr "median")]);
             ("create_video",
              Main.JDict [("output_dir", Main.JStr "output/video");
                          ("fps", Main.JInt 10)])])])]%string.

Definition empty_disk : CreateVideo.Disk (nat * nat * nat) :=
  {| CreateVideo.glob := fun _ => [];
     CreateVideo.imread := fun _ => None;
     CreateVideo.now_strftime := "20250101_000000" |}.

(** A configuration file with one profile, [test01], which is also the
    default, with the given execution flags and sections. *)
Definition configuration (flags sections : list (string * Main.json)) : Main.json :=
  Main.JDict
    [("default_execution",
      Main.JDict [("execution_key", Main.JStr "test01");
                  ("execution_function", Main.JDict flags)]);
     ("executions", Main.JDict [("test01", Main.JDict sections)])]%string.

Definition video_only_flags : list (string * Main.json) :=
  [("piv_analysis", Main.JBool false); ("create_video", Main.JBool true)]%string.

Definition piv_section : string * Main.json :=
  ("piv_analysis",
   Main.JDict [("video_path", Main.JStr "data/smoke.mp4");
               ("output_dir", Main.JStr "output/piv")])%string.

Definition video_section : string * Main.json :=
  ("create_video", Main.JDict [("output_dir", Main.JStr "output/video")])%string.

(** A configuration file without [default_execution], whose profile
    carries its own execution flags. *)
Definition without_default : list (string * Main.json) :=
  [("executions",
    Main.JDict
      [("test01",
        Main.JDict [("execution_function", Main.JDict video_only_flags);
                    piv_section; video_section])])]%string.

(** The folder of [disk], its first file (in sorted order) unreadable. *)
Definition disk_first_broken : CreateVideo.Disk (nat * nat * nat) :=
  {| CreateVideo.glob := fun _ => ["out/img003.png"; "out/img001.png"; "out/img002.png"]%string;
     CreateVideo.imread :=
       fun f => if (f =? "out/img001.png")%string then None else Some (480, 640, 3);
     CreateVideo.now_strftime := "20250101_000000" |}.

(** The folder of [disk], listed in another order. *)
Definition disk_relisted : CreateVideo.Disk (nat * nat * nat) :=
  {| CreateVideo.glob := fun _ => ["out/img001.png"; "out/img002.png"; "out/img003.png"]%string;
     CreateVideo.imread :=
       fun f => if (f =? "out/img002.png")%string then None else Some (480, 640, 3);
     CreateVideo.now_strftime := "20250101_000000" |}.

(** 0.6, the speed of the demonstration, in a given format. *)
Definition six_tenths (fmt : Servo.format) : spec_float :=
  Servo.fdiv fmt (Servo.of_int fmt 6) (Servo.of_int fmt 10).

End Synthetic.

(* ================================================================== *)
(** * Part IX.  The vocabulary of the properties                    *)
(* ================================================================== *)

Unset Implicit Arguments.

Section Vocabulary.
Import Float64 Numpy PivAnalysis.
Context {C : Collaborators}.

(** ** What is assumed of the collaborators

    The scaling returns velocity grids of the shapes it was given, and
    the estimator followed by the outlier repair returns, for frames
    of the video, two grids of one and the same non-empty shape. *)

Definition scaling_keeps_shape (a : Args) : Prop :=
  forall x y u v,
    List.length (snd (fst (scaling_uniform x y u v (scaling_factor a)))) = List.length u /\
    List.length (snd (scaling_uniform x y u v (scaling_factor a))) = List.length v.

Definition fields_well_shaped (dt : float64) (frames : list Frame) : Prop :=
  forall fa fb xy, In fa frames -> In fb frames ->
    snd (fst (estimate_filtered dt fa fb xy)) <> [] /\
    List.length (snd (fst (estimate_filtered dt fa fb xy))) =
    List.length (snd (estimate_filtered dt fa fb xy)).

(** [dt], as computed at lines 53 to 57. *)
Definition frame_interval (a : Args) : float64 :=
  fdiv (of_nat (frame_comparison_step a))
       (if feqb (CAP_PROP_FPS (video_path a)) (of_Z 0)
        then of_Z 30 else CAP_PROP_FPS (video_path a)).

(** The assumptions on the collaborators, for one call. *)
Definition collaborators_well_shaped (a : Args) : Prop :=
  scaling_keeps_shape a /\
  fields_well_shaped (frame_interval a) (footage (video_path a)).

(** All recorded fields have [n] cells in [u] and in [v]. *)
Definition uniform_fields (n : nat) (pairs : list FrameResult) : Prop :=
  Forall (fun d => List.length (d_u d) = n /\ List.length (d_v d) = n) pairs.

(** A decision procedure for [uniform_fields]. *)
Definition uniform_fieldsb (n : nat) (pairs : list FrameResult) : bool :=
  forallb (fun d => (List.length (d_u d) =? n) && (List.length (d_v d) =? n)) pairs.

(** ** The global scale *)

(** The scaled magnitudes of one recorded pair, after [np.nan_to_num]. *)
Definition cleaned_magnitudes (a : Args) (x y : Coords) (d : FrameResult)
  : Py.result grid :=
  magnitude <- scaled_magnitude a x y (d_u d) (d_v d) ;;
  Py.Ok (nan_to_num magnitude).

(** A list that never decreases, starting no lower than [x]. *)
Fixpoint nondecreasing_from (x : float64) (l : list float64) : Prop :=
  match l with
  | [] => True
  | y :: l' => fleb x y = true /\ nondecreasing_from y l'
  end.

(** The global scale as the specification words it: in every pair's
    scaled magnitude field, a magnitude that is not finite (NaN or
    infinite) counts as zero, and the scale is the largest of the
    values so obtained over all pairs. *)
Definition finite_or_zero (m : float64) : float64 :=
  if is_finite m then m else zero.

Definition claimed_pair_max (a : Args) (x y : Coords) (d : FrameResult)
  : Py.result float64 :=
  magnitude <- scaled_magnitude a x y (d_u d) (d_v d) ;;
  nanmax (map finite_or_zero magnitude).

Fixpoint claimed_overall_max (a : Args) (x y : Coords) (pairs : list FrameResult)
  : Py.result float64 :=
  match pairs with
  | [] => Py.Ok zero
  | d :: pairs' =>
      m <- claimed_pair_max a x y d ;;
      rest <- claimed_overall_max a x y pairs' ;;
      Py.Ok (fmax m rest)
  end.

(** ** The invariant of the first loop *)

Record Inv (a : Args) (st : Pass1) : Prop := {
  inv_not_nan : is_nan (overall_max_mag st) = false;
  inv_nonneg : fleb zero (overall_max_mag st) = true;
  inv_xy : xy st = None -> frames_data st = [];
  inv_upper :
    forall x y d, xy st = Some (x, y) -> In d (frames_data st) ->
      exists mags, cleaned_magnitudes a x y d = Py.Ok mags /\ mags <> [] /\
        forall m, In m mags -> fleb m (overall_max_mag st) = true;
  inv_attained :
    (frames_data st = [] /\ overall_max_mag st = zero) \/
    (exists x y d mags m,
        xy st = Some (x, y) /\ In d (frames_data st) /\
        cleaned_magnitudes a x y d = Py.Ok mags /\ In m mags /\
        feqb (overall_max_mag st) m = true);
  inv_history : nondecreasing_from zero (running_max st);
  inv_last : last (running_max st) zero = overall_max_mag st;
  inv_history_length : List.length (running_max st) = List.length (frames_data st);
  inv_index :
    map d_frame_index (frames_data st) = seq 1 (List.length (frames_data st))
}.

(** The state in which the loop is entered. *)
Definition st0 (events : list CapEvent) (out : list Message) : Pass1 :=
  {| frames_data := []; overall_max_mag := zero; xy := None;
     cap_events := events; stdout := out; running_max := [] |}.

(** ** The images *)

(** The title of the image of a window starting at frame [frame_num]. *)
Definition title_of (a : Args) (frame_num : nat) : Title :=
  if 1 <? moving_average_window a
  then AggregatedField
         (if (averaging_method a =? "median")%string then "Median" else "Averaged")%string
         (moving_average_window a) frame_num
  else VelocityField frame_num (frame_num + frame_comparison_step a).

(** ** Aggregated values *)

(** [x] with the sign of a zero cleared: -0.0 becomes 0.0; every other
    value, NaN and the infinities included, is [x] itself. *)
Definition unsigned_zero (x : float64) : float64 :=
  match x with
  | S754_zero _ => zero
  | _ => x
  end.

(** Doubling [x] does not leave the finite range. *)
Definition doubles (x : float64) : Prop :=
  is_finite x = true -> is_finite (fadd x x) = true.

(** What aggregation makes of the cell [x] of a window of one: [x]
    itself, the sign of a zero apart; with the median, a finite [x]
    whose double overflows becomes that infinity. *)
Definition window_of_one (a : Args) (x r : float64) : Prop :=
  if (averaging_method a =? "median")%string
     && is_finite x && negb (is_finite (fadd x x))
  then r = fadd x x /\ is_inf r = true
  else r = unsigned_zero x.


End Vocabulary.

(** A synthetic frame is usable when its two grids have one non-empty shape. *)
Definition usable_frame (f : Numpy.grid * Numpy.grid) : Prop :=
  fst f <> [] /\ List.length (fst f) = List.length (snd f).

Section AssemblerVocabulary.
Import CreateVideo.
Variable Image : Type.

(** The images of a list of files that decode, in the order of the list. *)
Definition decoded (disk : Disk Image) (files : list string) : list Image :=
  flat_map (fun f => match imread disk f with Some img => [img] | None => [] end) files.

(** The files of a list that do not decode. *)
Definition undecodable (disk : Disk Image) (files : list string) : list string :=
  filter (fun f => match imread disk f with Some _ => false | None => true end) files.

(** The files a console output warns about. *)
Definition warnings (out : list Message) : list string :=
  flat_map (fun m => match m with WarnSkipped f => [f] | _ => [] end) out.

End AssemblerVocabulary.

(** ** More of the first and second pass *)

Section RunVocabulary.
Import Float64 Numpy PivAnalysis.
Context {C : Collaborators}.

(** The line that closes the first pass. *)
Definition is_analysis_complete (m : Message) : bool :=
  match m with MsgAnalysisComplete _ _ => true | _ => false end.

(** The arguments [a] with another [averaging_method]. *)
Definition with_method (a : Args) (method : string) : Args :=
  {| video_path := video_path a;
     output_dir := output_dir a;
     scaling_factor := scaling_factor a;
     vmax_override := vmax_override a;
     frame_comparison_step := frame_comparison_step a;
     moving_average_window := moving_average_window a;
     averaging_method := method |}.

(** Two states of the first pass that differ in the lines printed only. *)
Definition same_but_stdout (st st' : Pass1) : Prop :=
  frames_data st' = frames_data st /\ overall_max_mag st' = overall_max_mag st /\
  xy st' = xy st /\ cap_events st' = cap_events st /\ running_max st' = running_max st.

End RunVocabulary.

(** ** Decimal digits *)

Definition digit_value (c : ascii) : nat := nat_of_ascii c - 48.

(** The number that a string of decimal digits denotes. *)
Definition decimal_value (l : list ascii) : nat :=
  fold_left (fun v c => 10 * v + digit_value c) l 0.

(** ** The configuration text *)

Fixpoint count_newlines (s : string) : nat :=
  match s with
  | EmptyString => 0
  | String c s' => (if Ascii.eqb c Jsonc.newline then 1 else 0) + count_newlines s'
  end.

(** [//] occurs in [s]. *)
Fixpoint has_double_slash (s : string) : bool :=
  match s with
  | EmptyString => false
  | String c s' => (Ascii.eqb c "/" && Py.starts_with_slash s') || has_double_slash s'
  end.

(** ** The stand-alone scripts *)

(** The error lines that the scripts print before [exit()]. *)
Definition reports_error (m : Scripts.Message) : bool :=
  match m with
  | Scripts.ErrConfigNotFound | Scripts.ErrConfigDecode | Scripts.ErrNoConfiguration
  | Scripts.ErrConfigurationNotFound _ | Scripts.ErrNoPivSection _
  | Scripts.ErrNoOutputDir _ => true
  | _ => false
  end.

(** A run that ended before the call: with status 0 after an error
    line, or with status 1 after the traceback of an AttributeError or
    of a TypeError. *)
Definition stopped_early (run : Scripts.Run) : Prop :=
  Scripts.entered run = false /\
  ((Scripts.exit_status run = 0%Z /\
    exists out m, Scripts.console run = out ++ [m] /\ reports_error m = true) \/
   (Scripts.exit_status run = 1%Z /\
    exists out e, Scripts.console run = out ++ [Scripts.Traceback e] /\
                  (e = Py.TypeError \/ e = Py.AttributeError))).

(** ** Checking a range of integers *)

(** [test] holds of the [n] integers from [p] on. *)
Fixpoint all_from (test : Z -> bool) (p : Z) (n : nat) : bool :=
  match n with
  | O => true
  | S n' => test p && all_from test (p + 1)%Z n'
  end.

(* ================================================================== *)
(** * Part X.  Facts about binary64 and the NumPy reductions        *)
(* ================================================================== *)

Section Float64Facts.
Import Float64.
Local Open Scope Z_scope.

(** ** The order of [float64] is the order of the keys *)

Lemma compare_cont_Eq (m1 m2 : positive) :
  Pos.compare_cont Eq m1 m2 = (Z.pos m1 ?= Z.pos m2).
Proof. reflexivity. Qed.

Lemma CompOpp_compare_neg (m1 m2 : positive) :
  CompOpp (Pos.compare_cont Eq m1 m2) = (- Z.pos m1 ?= - Z.pos m2).
Proof.
  rewrite compare_cont_Eq, <- Z.compare_antisym. symmetry. apply Z.compare_opp.
Qed.

Lemma SFcompare_key (x y : float64) :
  is_nan x = false -> is_nan y = false ->
  SFcompare x y = Some (lexcmp (key x) (key y)).
Proof.
  destruct x as [sx|sx| |sx mx ex], y as [sy|sy| |sy my ey];
    try discriminate; intros _ _;
    try (destruct sx; try destruct sy; reflexivity);
    try (destruct sy; reflexivity).
  destruct sx, sy; cbn [SFcompare key lexcmp]; try reflexivity.
  change (-1 ?= -1) with Eq. cbv beta iota.
  rewrite <- CompOpp_compare_neg.
  replace (- ex ?= - ey) with (ey ?= ex) by (symmetry; apply Z.compare_opp).
  rewrite (Z.compare_antisym ex ey).
  destruct (ex ?= ey); reflexivity.
Qed.

Lemma lexcmp_le (k1 k2 : Z * Z * Z) :
  lexle k1 k2 <-> lexcmp k1 k2 <> Gt.
Proof.
  destruct k1 as [[a1 b1] c1], k2 as [[a2 b2] c2]. unfold lexle, lexcmp.
  destruct (Z.compare_spec a1 a2); destruct (Z.compare_spec b1 b2);
    destruct (Z.compare_spec c1 c2); split; intros; try lia; try discriminate;
    try congruence.
Qed.

Lemma fleb_lexle (x y : float64) :
  is_nan x = false -> is_nan y = false ->
  (fleb x y = true <-> lexle (key x) (key y)).
Proof.
  intros Hx Hy. unfold fleb, SFleb. rewrite (SFcompare_key _ _ Hx Hy), lexcmp_le.
  destruct (lexcmp (key x) (key y)); split; intros; congruence.
Qed.

Lemma lexcmp_lt (k1 k2 : Z * Z * Z) :
  lexcmp k1 k2 = Lt <-> ~ lexle k2 k1.
Proof.
  destruct k1 as [[a1 b1] c1], k2 as [[a2 b2] c2]. unfold lexle, lexcmp.
  destruct (Z.compare_spec a1 a2); destruct (Z.compare_spec b1 b2);
    destruct (Z.compare_spec c1 c2); split; intros; try lia; try discriminate;
    try reflexivity.
Qed.

Lemma lexcmp_eq (k1 k2 : Z * Z * Z) :
  lexcmp k1 k2 = Eq <-> k1 = k2.
Proof.
  destruct k1 as [[a1 b1] c1], k2 as [[a2 b2] c2]. unfold lexcmp.
  destruct (Z.compare_spec a1 a2); destruct (Z.compare_spec b1 b2);
    destruct (Z.compare_spec c1 c2); split; intros E; try discriminate;
    try congruence; try (exfalso; injection E as ? ? ?; lia).
Qed.

Lemma fltb_lexle (x y : float64) :
  is_nan x = false -> is_nan y = false ->
  (fltb x y = true <-> ~ lexle (key y) (key x)).
Proof.
  intros Hx Hy. unfold fltb, SFltb. rewrite (SFcompare_key _ _ Hx Hy), <- lexcmp_lt.
  destruct (lexcmp (key x) (key y)); split; intros; congruence.
Qed.

Lemma feqb_key (x y : float64) :
  is_nan x = false -> is_nan y = false ->
  (feqb x y = true <-> key x = key y).
Proof.
  intros Hx Hy. unfold feqb, SFeqb. rewrite (SFcompare_key _ _ Hx Hy), <- lexcmp_eq.
  destruct (lexcmp (key x) (key y)); split; intros; congruence.
Qed.

Lemma lexle_refl k : lexle k k.
Proof. destruct k as [[a b] c]. unfold lexle. lia. Qed.

Lemma lexle_trans k1 k2 k3 : lexle k1 k2 -> lexle k2 k3 -> lexle k1 k3.
Proof.
  destruct k1 as [[a1 b1] c1], k2 as [[a2 b2] c2], k3 as [[a3 b3] c3].
  unfold lexle. lia.
Qed.

Lemma lexle_total k1 k2 : lexle k1 k2 \/ lexle k2 k1.
Proof.
  destruct k1 as [[a1 b1] c1], k2 as [[a2 b2] c2]. unfold lexle. lia.
Qed.

Lemma lexle_antisym k1 k2 : lexle k1 k2 -> lexle k2 k1 -> k1 = k2.
Proof.
  destruct k1 as [[a1 b1] c1], k2 as [[a2 b2] c2]. unfold lexle.
  intros H1 H2. assert (a1 = a2 /\ b1 = b2 /\ c1 = c2) as (-> & -> & ->) by lia.
  reflexivity.
Qed.

Lemma fleb_refl (x : float64) : is_nan x = false -> fleb x x = true.
Proof. intros H. apply fleb_lexle; auto using lexle_refl. Qed.

Lemma fleb_trans (x y z : float64) :
  is_nan x = false -> is_nan y = false -> is_nan z = false ->
  fleb x y = true -> fleb y z = true -> fleb x z = true.
Proof.
  intros Hx Hy Hz H1 H2. apply fleb_lexle; auto.
  apply lexle_trans with (key y); apply fleb_lexle; auto.
Qed.

Lemma fleb_total (x y : float64) :
  is_nan x = false -> is_nan y = false -> fleb x y = true \/ fleb y x = true.
Proof.
  intros Hx Hy. destruct (lexle_total (key x) (key y)); [left|right];
    apply fleb_lexle; auto.
Qed.

Lemma fltb_false_fleb (x y : float64) :
  is_nan x = false -> is_nan y = false -> fltb x y = false -> fleb y x = true.
Proof.
  intros Hx Hy H. apply fleb_lexle; auto.
  assert (~ ~ lexle (key y) (key x)) as NN.
  { intros N. apply (fltb_lexle x y Hx Hy) in N. congruence. }
  destruct (key x) as [[a1 b1] c1], (key y) as [[a2 b2] c2]. unfold lexle in *. lia.
Qed.

Lemma fltb_true_fleb (x y : float64) :
  is_nan x = false -> is_nan y = false -> fltb x y = true -> fleb x y = true.
Proof.
  intros Hx Hy H. apply fleb_lexle; auto. apply (fltb_lexle x y Hx Hy) in H.
  destruct (lexle_total (key x) (key y)); tauto.
Qed.

Lemma fleb_antisym_feqb (x y : float64) :
  is_nan x = false -> is_nan y = false ->
  fleb x y = true -> fleb y x = true -> feqb x y = true.
Proof.
  intros Hx Hy H1 H2. apply feqb_key; auto.
  apply lexle_antisym; apply fleb_lexle; auto.
Qed.

(** ** Division by one is exact *)


Lemma shiftl_pos (m n : positive) :
  Z.shiftl (Z.pos m) (Z.pos n) = Z.pos (Pos.iter xO m n).
Proof.
  unfold Z.shiftl. revert m. induction n using Pos.peano_ind; intros m.
  - reflexivity.
  - rewrite !Pos.iter_succ. rewrite IHn. reflexivity.
Qed.

Lemma iter_xO_mul (m n : positive) :
  Z.pos (Pos.iter xO m n) = Z.pos m * 2 ^ Z.pos n.
Proof.
  rewrite <- shiftl_pos. rewrite Z.shiftl_mul_pow2 by lia. reflexivity.
Qed.

Lemma div_eucl_exact (q b : Z) : 0 < b -> Z.div_eucl (q * b) b = (q, 0).
Proof.
  intros Hb. pose proof (Z_div_mod (q * b) b ltac:(lia)) as H.
  destruct (Z.div_eucl (q * b) b) as [q' r']. destruct H as [H1 H2].
  assert (q' = q) by nia. subst q'. f_equal. lia.
Qed.

Lemma fexp_eq e : fexp prec emax e = Z.max (e - 53) (-1074).
Proof. reflexivity. Qed.

Lemma bounded_inv m e :
  bounded prec emax m e = true ->
  fexp prec emax (Z.pos (digits2_pos m) + e) = e /\ e <= 971.
Proof.
  unfold bounded, canonical_mantissa.
  intros H. apply andb_true_iff in H. destruct H as [H1 H2].
  apply Z.eqb_eq in H1. apply Z.leb_le in H2. split; [exact H1|exact H2].
Qed.

(** Rounding a canonical mantissa changes nothing. *)
Lemma round_exact_fixed s m e :
  bounded prec emax m e = true ->
  binary_round_aux prec emax s (Z.pos m) e loc_Exact = S754_finite s m e.
Proof.
  intros Hb. destruct (bounded_inv _ _ Hb) as [Hc Hle].
  unfold binary_round_aux, shr_fexp.
  change (Zdigits2 (Z.pos m)) with (Z.pos (digits2_pos m)).
  rewrite Hc, Z.sub_diag.
  cbn [shr shr_record_of_loc shr_m loc_of_shr_record round_nearest_even].
  change (Zdigits2 (Z.pos m)) with (Z.pos (digits2_pos m)).
  rewrite Hc, Z.sub_diag. cbn [shr shr_record_of_loc shr_m].
  apply Z.leb_le in Hle. change (emax - prec) with 971. rewrite Hle. reflexivity.
Qed.

(** Rounding twice a full mantissa gives it back, one exponent up. *)
Lemma round_exact_double s m e :
  bounded prec emax m (e + 1) = true -> Z.pos (digits2_pos m) = 53 ->
  binary_round_aux prec emax s (Z.pos m~0) e loc_Exact = S754_finite s m (e + 1).
Proof.
  intros Hb Hd. destruct (bounded_inv _ _ Hb) as [Hc Hle].
  rewrite fexp_eq in Hc.
  unfold binary_round_aux, shr_fexp.
  change (Zdigits2 (Z.pos m~0)) with (Z.pos (Pos.succ (digits2_pos m))).
  rewrite Pos2Z.inj_succ, fexp_eq.
  replace (Z.max (Z.succ (Z.pos (digits2_pos m)) + e - 53) (-1074) - e) with 1 by lia.
  cbn [shr shr_record_of_loc shr_m loc_of_shr_record round_nearest_even
       iter_pos shr_1 shr_r shr_s orb].
  change (Zdigits2 (Z.pos m)) with (Z.pos (digits2_pos m)).
  rewrite fexp_eq.
  replace (Z.max (Z.pos (digits2_pos m) + (e + 1) - 53) (-1074) - (e + 1)) with 0 by lia.
  cbn [shr shr_record_of_loc shr_m].
  apply Z.leb_le in Hle. change (emax - prec) with 971. rewrite Hle. reflexivity.
Qed.

Lemma of_nat_1 : of_nat 1 = fone.
Proof. reflexivity. Qed.

(** [x / 1.0 = x] for every well-formed [x], NaN and infinities included. *)
Lemma fdiv_one (x : float64) : valid x = true -> fdiv x fone = x.
Proof.
  unfold valid.
  destruct x as [s|s| |s m e]; cbn [valid_binary]; intros Hv;
    try reflexivity; try (destruct s; reflexivity).
  unfold fdiv, fone, SFdiv, SFdiv_core_binary.
  rewrite xorb_false_r.
  destruct (bounded_inv m e Hv) as [Hc Hle].
  change (Zdigits2 (Z.pos m)) with (Z.pos (digits2_pos m)).
  change (Zdigits2 4503599627370496) with 53.
  rewrite fexp_eq in *.
  destruct (Z.eq_dec (Z.pos (digits2_pos m) + e - 53) e) as [E|E];
    [destruct (Z.eq_dec e (-1074)) as [E'|E']|].
  - subst e.
    replace (Z.min (Z.max (Z.pos (digits2_pos m) + -1074 - (53 + -52) - 53) (-1074))
               (-1074 - -52)) with (-1074) by lia.
    change (-1074 - -52 - -1074) with 52.
    rewrite shiftl_pos, iter_xO_mul. change (2 ^ 52) with 4503599627370496.
    change IntDef.Z.div_eucl with Z.div_eucl.
    rewrite div_eucl_exact by lia.
    change (new_location 4503599627370496 0) with loc_Exact.
    apply round_exact_fixed, Hv.
  - replace (Z.min (Z.max (Z.pos (digits2_pos m) + e - (53 + -52) - 53) (-1074))
               (e - -52)) with (e - 1) by lia.
    replace (e - -52 - (e - 1)) with 53 by lia.
    rewrite shiftl_pos, iter_xO_mul. change (2 ^ 53) with (2 * 4503599627370496).
    rewrite Z.mul_assoc.
    change IntDef.Z.div_eucl with Z.div_eucl.
    rewrite div_eucl_exact by lia.
    change (new_location 4503599627370496 0) with loc_Exact.
    replace (Z.pos m * 2) with (Z.pos m~0) by lia.
    replace (S754_finite s m e) with (S754_finite s m (e - 1 + 1)) by (f_equal; lia).
    apply round_exact_double; [|lia].
    replace (e - 1 + 1) with e by lia. exact Hv.
  - replace (Z.min (Z.max (Z.pos (digits2_pos m) + e - (53 + -52) - 53) (-1074))
               (e - -52)) with e by lia.
    replace (e - -52 - e) with 52 by lia.
    rewrite shiftl_pos, iter_xO_mul. change (2 ^ 52) with 4503599627370496.
    change IntDef.Z.div_eucl with Z.div_eucl.
    rewrite div_eucl_exact by lia.
    change (new_location 4503599627370496 0) with loc_Exact.
    apply round_exact_fixed, Hv.
Qed.

(** ** Doubling and halving are exact, short of overflow *)

Lemma of_nat_2 : of_nat 2 = ftwo.
Proof. reflexivity. Qed.

(** Doubling: the sum of a finite value with itself. *)
Lemma fadd_self_normal s m e :
  bounded prec emax m e = true -> Z.pos (digits2_pos m) = 53 ->
  fadd (S754_finite s m e) (S754_finite s m e) =
  if e + 1 <=? 971 then S754_finite s m (e + 1) else S754_infinity s.
Proof.
  intros Hb Hd. destruct (bounded_inv _ _ Hb) as [Hc Hle]. rewrite fexp_eq in Hc.
  unfold fadd, SFadd. rewrite Z.min_id. unfold shl_align. rewrite Z.sub_diag.
  cbn [fst].
  assert (cond_Zopp s (Z.pos m) + cond_Zopp s (Z.pos m) = cond_Zopp s (Z.pos m~0)) as E
    by (destruct s; cbn [cond_Zopp]; lia).
  rewrite E.
  assert (binary_normalize prec emax (cond_Zopp s (Z.pos m~0)) e false
          = binary_round prec emax s m~0 e) as E2 by (destruct s; reflexivity).
  rewrite E2. unfold binary_round, shl_align.
  change (digits2_pos m~0) with (Pos.succ (digits2_pos m)).
  rewrite Pos2Z.inj_succ, fexp_eq.
  replace (Z.max (Z.succ (Z.pos (digits2_pos m)) + e - 53) (-1074) - e) with 1 by lia.
  unfold binary_round_aux, shr_fexp.
  change (Zdigits2 (Z.pos m~0)) with (Z.pos (Pos.succ (digits2_pos m))).
  rewrite Pos2Z.inj_succ, fexp_eq.
  replace (Z.max (Z.succ (Z.pos (digits2_pos m)) + e - 53) (-1074) - e) with 1 by lia.
  cbn [shr shr_record_of_loc shr_m loc_of_shr_record round_nearest_even
       iter_pos shr_1 shr_r shr_s orb].
  change (Zdigits2 (Z.pos m)) with (Z.pos (digits2_pos m)).
  rewrite fexp_eq.
  replace (Z.max (Z.pos (digits2_pos m) + (e + 1) - 53) (-1074) - (e + 1)) with 0 by lia.
  cbn [shr shr_record_of_loc shr_m]. reflexivity.
Qed.

Lemma fadd_self_subnormal s m e :
  bounded prec emax m e = true -> Z.pos (digits2_pos m) < 53 ->
  fadd (S754_finite s m e) (S754_finite s m e) = S754_finite s m~0 e /\
  bounded prec emax m~0 e = true /\ e = -1074.
Proof.
  intros Hb Hd. destruct (bounded_inv _ _ Hb) as [Hc Hle]. rewrite fexp_eq in Hc.
  assert (e = -1074) as He by lia.
  assert (bounded prec emax m~0 e = true) as Hb2.
  { unfold bounded, canonical_mantissa. apply andb_true_iff. split.
    - apply Z.eqb_eq. change (digits2_pos m~0) with (Pos.succ (digits2_pos m)).
      rewrite Pos2Z.inj_succ, fexp_eq. lia.
    - apply Z.leb_le. exact Hle. }
  split; [|split; assumption].
  unfold fadd, SFadd. rewrite Z.min_id. unfold shl_align. rewrite Z.sub_diag.
  cbn [fst].
  assert (cond_Zopp s (Z.pos m) + cond_Zopp s (Z.pos m) = cond_Zopp s (Z.pos m~0)) as E
    by (destruct s; cbn [cond_Zopp]; lia).
  rewrite E.
  assert (binary_normalize prec emax (cond_Zopp s (Z.pos m~0)) e false
          = binary_round prec emax s m~0 e) as E2 by (destruct s; reflexivity).
  rewrite E2. unfold binary_round, shl_align.
  destruct (bounded_inv _ _ Hb2) as [Hc2 _]. rewrite Hc2, Z.sub_diag.
  apply round_exact_fixed, Hb2.
Qed.

Lemma fdiv_two_normal s m e :
  bounded prec emax m e = true ->
  fdiv (S754_finite s m (e + 1)) ftwo = S754_finite s m e.
Proof.
  intros Hb. transitivity (fdiv (S754_finite s m e) fone); [|apply fdiv_one, Hb].
  unfold fdiv, ftwo, fone, SFdiv, SFdiv_core_binary.
  change (Zdigits2 4503599627370496) with 53.
  replace (Zdigits2 (Z.pos m) + (e + 1) - (53 + -51))
    with (Zdigits2 (Z.pos m) + e - (53 + -52)) by lia.
  replace (e + 1 - -51) with (e - -52) by lia. reflexivity.
Qed.

Lemma fdiv_two_subnormal s m e :
  bounded prec emax m e = true -> Z.pos (digits2_pos m) < 53 ->
  fdiv (S754_finite s m~0 e) ftwo = S754_finite s m e.
Proof.
  intros Hb Hd. destruct (bounded_inv _ _ Hb) as [Hc Hle]. rewrite fexp_eq in Hc.
  assert (e = -1074) as He by lia. subst e.
  unfold fdiv, ftwo, SFdiv, SFdiv_core_binary. rewrite xorb_false_r.
  change (Zdigits2 (Z.pos m~0)) with (Z.pos (Pos.succ (digits2_pos m))).
  change (Zdigits2 4503599627370496) with 53.
  rewrite Pos2Z.inj_succ, fexp_eq.
  replace (Z.min (Z.max (Z.succ (Z.pos (digits2_pos m)) + -1074 - (53 + -51) - 53) (-1074))
             (-1074 - -51)) with (-1074) by lia.
  change (-1074 - -51 - -1074) with 51.
  rewrite shiftl_pos, iter_xO_mul.
  replace (Z.pos m~0 * 2 ^ 51) with (Z.pos m * 4503599627370496) by lia.
  change IntDef.Z.div_eucl with Z.div_eucl.
  rewrite div_eucl_exact by lia.
  change (new_location 4503599627370496 0) with loc_Exact.
  apply round_exact_fixed, Hb.
Qed.

(** ** Signs: a magnitude is never negative *)

Lemma binary_round_aux_sign s m e l :
  has_sign s (binary_round_aux prec emax s m e l).
Proof.
  unfold binary_round_aux.
  destruct (shr_fexp prec emax m e l) as [mrs' e'].
  destruct (shr_fexp prec emax _ e' loc_Exact) as [mrs'' e''].
  destruct (shr_m mrs''); cbn [has_sign]; auto.
  destruct (e'' <=? emax - prec); cbn [has_sign]; auto.
Qed.

Lemma binary_round_sign s m e : has_sign s (binary_round prec emax s m e).
Proof.
  unfold binary_round. destruct (shl_align _ _ _) as [mz ez].
  apply binary_round_aux_sign.
Qed.

Lemma fmul_self_sign (x : float64) : has_sign false (fmul x x).
Proof.
  destruct x as [s|s| |s m e]; cbn; try (destruct s; reflexivity); auto.
  replace (xorb s s) with false by (destruct s; reflexivity).
  apply binary_round_aux_sign.
Qed.

Lemma fadd_sign (x y : float64) :
  has_sign false x -> has_sign false y -> has_sign false (fadd x y).
Proof.
  destruct x as [sx|sx| |sx mx ex], y as [sy|sy| |sy my ey]; cbn [has_sign];
    intros Hx Hy; subst; try exact I; try reflexivity.
  unfold fadd, SFadd. cbn [cond_Zopp].
  rewrite <- Pos2Z.inj_add. cbn [binary_normalize].
  apply binary_round_sign.
Qed.

Lemma fsqrt_sign (x : float64) : has_sign false x -> has_sign false (fsqrt x).
Proof.
  destruct x as [s|s| |s m e]; cbn [has_sign]; intros H; subst;
    try exact I; try reflexivity.
  unfold fsqrt, SFsqrt. destruct (SFsqrt_core_binary _ _ _ _) as [[mz ez] lz].
  apply binary_round_aux_sign.
Qed.

Lemma magnitude1_sign (u v : float64) : has_sign false (Numpy.magnitude1 u v).
Proof.
  unfold Numpy.magnitude1. apply fsqrt_sign, fadd_sign; apply fmul_self_sign.
Qed.

End Float64Facts.

Section NumpyFacts.
Import Float64 Numpy.

Lemma nan_to_num1_not_nan (x : float64) : is_nan (nan_to_num1 x) = false.
Proof. destruct x as [s|[|]| |s m e]; reflexivity. Qed.

Lemma nan_to_num1_finite (x : float64) : is_finite (nan_to_num1 x) = true.
Proof. destruct x as [s|[|]| |s m e]; reflexivity. Qed.

Lemma nan_to_num1_nonneg (x : float64) :
  has_sign false x -> fleb zero (nan_to_num1 x) = true.
Proof.
  destruct x as [s|s| |s m e]; cbn [has_sign]; intros H; subst; reflexivity.
Qed.

Lemma nan_to_num_not_nan (a : grid) :
  Forall (fun x => is_nan x = false) (nan_to_num a).
Proof.
  unfold nan_to_num. apply Forall_forall. intros y Hy.
  apply in_map_iff in Hy. destruct Hy as [x [<- _]]. apply nan_to_num1_not_nan.
Qed.

Lemma fmax_cases (a b : float64) : fmax a b = a \/ fmax a b = b.
Proof. unfold fmax. destruct (fleb b a || is_nan b); auto. Qed.

Lemma fmax_not_nan (a b : float64) :
  is_nan a = false -> is_nan b = false -> is_nan (fmax a b) = false.
Proof. intros Ha Hb. destruct (fmax_cases a b) as [-> | ->]; auto. Qed.

Lemma fmax_upper_l (a b : float64) :
  is_nan a = false -> is_nan b = false -> fleb a (fmax a b) = true.
Proof.
  intros Ha Hb. unfold fmax. rewrite Hb, orb_false_r.
  destruct (fleb b a) eqn:E.
  - apply fleb_refl; auto.
  - destruct (fleb_total a b Ha Hb); congruence.
Qed.

Lemma fmax_upper_r (a b : float64) :
  is_nan a = false -> is_nan b = false -> fleb b (fmax a b) = true.
Proof.
  intros Ha Hb. unfold fmax. rewrite Hb, orb_false_r.
  destruct (fleb b a) eqn:E; auto. apply fleb_refl; auto.
Qed.

(** The left fold of [fmax] over NaN-free data is its maximum. *)
Lemma fold_fmax_not_nan (xs : list float64) (x : float64) :
  is_nan x = false -> Forall (fun y => is_nan y = false) xs ->
  is_nan (fold_left fmax xs x) = false.
Proof.
  revert x. induction xs as [|y xs IH]; intros x Hx Hxs; cbn; auto.
  inversion Hxs; subst. apply IH; auto using fmax_not_nan.
Qed.

Lemma fold_fmax_in (xs : list float64) (x : float64) :
  In (fold_left fmax xs x) (x :: xs).
Proof.
  revert x. induction xs as [|y xs IH]; intros x; cbn [fold_left].
  - left; reflexivity.
  - destruct (IH (fmax x y)) as [E | E].
    + destruct (fmax_cases x y) as [E' | E'].
      * left. rewrite <- E. symmetry; exact E'.
      * right; left. rewrite <- E. symmetry; exact E'.
    + right; right; exact E.
Qed.

Lemma fold_fmax_ge_init (xs : list float64) (x : float64) :
  is_nan x = false -> Forall (fun y => is_nan y = false) xs ->
  fleb x (fold_left fmax xs x) = true.
Proof.
  revert x. induction xs as [|y xs IH]; intros x Hx Hxs; cbn.
  - apply fleb_refl; auto.
  - inversion Hxs; subst.
    apply fleb_trans with (fmax x y); auto using fmax_not_nan, fmax_upper_l.
    apply fold_fmax_not_nan; auto using fmax_not_nan.
Qed.

Lemma fold_fmax_upper (xs : list float64) (x : float64) :
  is_nan x = false -> Forall (fun y => is_nan y = false) xs ->
  forall y, In y (x :: xs) -> fleb y (fold_left fmax xs x) = true.
Proof.
  revert x. induction xs as [|z xs IH]; intros x Hx Hxs y Hy.
  - destruct Hy as [<- | []]. cbn. apply fleb_refl; auto.
  - inversion Hxs; subst. cbn [fold_left].
    assert (is_nan (fmax x z) = false) as Hm by auto using fmax_not_nan.
    destruct Hy as [<- | [<- | Hy]].
    + apply fleb_trans with (fmax x z); auto using fmax_upper_l, fold_fmax_ge_init.
      apply fold_fmax_not_nan; auto.
    + apply fleb_trans with (fmax x z); auto using fmax_upper_r, fold_fmax_ge_init.
      apply fold_fmax_not_nan; auto.
    + apply IH; auto. right; exact Hy.
Qed.

(** [np.nanmax] of a non-empty NaN-free array: a cell of the array
    that no cell exceeds. *)
Lemma nanmax_spec (a : grid) :
  a <> [] -> Forall (fun y => is_nan y = false) a ->
  exists m, nanmax a = Py.Ok m /\ In m a /\ is_nan m = false /\
            forall y, In y a -> fleb y m = true.
Proof.
  destruct a as [|x xs]; [congruence|]. intros _ H. inversion H; subst.
  exists (fold_left fmax xs x). repeat split.
  - apply fold_fmax_in.
  - apply fold_fmax_not_nan; auto.
  - apply fold_fmax_upper; auto.
Qed.

(** ** Cell-wise operations and shapes *)

Lemma map2_length (f : float64 -> float64 -> float64) (a b : grid) :
  List.length a = List.length b ->
  exists r, map2 f a b = Py.Ok r /\ List.length r = List.length a /\
            forall j, j < List.length a ->
              nth j r nan = f (nth j a nan) (nth j b nan).
Proof.
  revert b. induction a as [|x a IH]; intros [|y b] H; try discriminate.
  - exists []. repeat split; auto. intros j Hj. inversion Hj.
  - injection H as H. destruct (IH b H) as [r [E [L N]]].
    exists (f x y :: r). cbn [map2]. rewrite E. cbn. repeat split; auto.
    intros [|j] Hj; cbn; auto. apply N. cbn in Hj. lia.
Qed.

Lemma map2_ok_length (f : float64 -> float64 -> float64) (a b r : grid) :
  map2 f a b = Py.Ok r -> List.length a = List.length b /\ List.length r = List.length a.
Proof.
  revert b r. induction a as [|x a IH]; intros [|y b] r H; cbn in H; try discriminate.
  - injection H as <-. auto.
  - destruct (map2 f a b) as [r'|e] eqn:E; cbn in H; [|discriminate].
    injection H as <-. destruct (IH _ _ E) as [L1 L2]. cbn. auto.
Qed.

Lemma map2_in (f : float64 -> float64 -> float64) (a b r : grid) (m : float64) :
  map2 f a b = Py.Ok r -> In m r -> exists x y, m = f x y /\ In x a /\ In y b.
Proof.
  revert b r. induction a as [|x a IH]; intros [|y b] r H Hm; cbn in H; try discriminate.
  - injection H as <-. destruct Hm.
  - destruct (map2 f a b) as [r'|e] eqn:E; cbn in H; [|discriminate].
    injection H as <-. destruct Hm as [<- | Hm].
    + exists x, y. cbn. auto.
    + destruct (IH _ _ E Hm) as [x' [y' [-> [Hx Hy]]]]. exists x', y'. cbn. auto.
Qed.

End NumpyFacts.

(* ================================================================== *)
(** * Part XI.  The first pass                                      *)
(* ================================================================== *)

Section Pass1Facts.
Import Float64 Numpy PivAnalysis.
Context {C : Collaborators}.
Variable a : Args.
Variable dt : float64.

Lemma last_cons_default {A : Type} (y : A) (l : list A) (d d' : A) :
  last (y :: l) d = last (y :: l) d'.
Proof.
  revert y. induction l as [|z l IH]; intros y; [reflexivity|].
  change (last (z :: l) d = last (z :: l) d'). apply IH.
Qed.

Lemma nondecreasing_from_app (x z : float64) (l : list float64) :
  nondecreasing_from x l -> fleb (last l x) z = true ->
  nondecreasing_from x (l ++ [z]).
Proof.
  revert x. induction l as [|y l IH]; intros x H1 H2;
    cbn [nondecreasing_from app] in *.
  - split; [exact H2|exact I].
  - destruct H1 as [H1 H3]. split; [exact H1|]. apply IH; [exact H3|].
    destruct l as [|f l]; [exact H2|].
    rewrite (last_cons_default f l y x). exact H2.
Qed.

Lemma last_app_single {A : Type} (l : list A) (z d : A) : last (l ++ [z]) d = z.
Proof. apply last_last. Qed.

Lemma fields_well_shaped_incl (l l' : list Frame) :
  incl l' l -> fields_well_shaped dt l -> fields_well_shaped dt l'.
Proof. intros Hi H fa fb xy Ha Hb. apply H; apply Hi; assumption. Qed.

(** The coordinate grid, once known, is kept. *)
Lemma estimate_filtered_xy (fa fb : Frame) (x y : Coords) :
  fst (fst (estimate_filtered dt fa fb (Some (x, y)))) = (x, y).
Proof.
  unfold estimate_filtered.
  destruct (extended_search_area_piv _ _ _ _ _ _ _) as [[u v] s2n].
  destruct (replace_outliers _ _ _ _ _ _) as [uf vf]. reflexivity.
Qed.

Lemma scaled_magnitude_ok (x y : Coords) (u v : grid) :
  scaling_keeps_shape a -> u <> [] -> List.length u = List.length v ->
  exists mags, scaled_magnitude a x y u v = Py.Ok mags /\ mags <> [] /\
               Forall (has_sign false) mags.
Proof.
  intros Hs Hu Huv. unfold scaled_magnitude.
  specialize (Hs x y u v).
  destruct (scaling_uniform x y u v (scaling_factor a)) as [[[x' y'] u'] v'].
  cbn [fst snd] in Hs. destruct Hs as [Hu' Hv'].
  destruct (map2_length magnitude1 u' v') as [r [E [L _]]]; [congruence|].
  exists r. unfold magnitude. split; [exact E|]. split.
  - intros ->. destruct u; [congruence|]. cbn in *. lia.
  - apply Forall_forall. intros m Hm.
    destruct (map2_in _ _ _ _ _ E Hm) as [p [q [-> _]]]. apply magnitude1_sign.
Qed.

(** The largest cleaned magnitude of a well-shaped field: defined,
    not NaN, not negative, attained, and above every cell. *)
Lemma current_max_mag_ok (x y : Coords) (u v : grid) :
  scaling_keeps_shape a -> u <> [] -> List.length u = List.length v ->
  exists mags c,
    scaled_magnitude a x y u v = Py.Ok mags /\ mags <> [] /\
    current_max_mag a x y u v = Py.Ok c /\
    is_nan c = false /\ fleb zero c = true /\
    In c (nan_to_num mags) /\
    forall m, In m (nan_to_num mags) -> fleb m c = true.
Proof.
  intros Hs Hu Huv.
  destruct (scaled_magnitude_ok x y u v Hs Hu Huv) as [mags [E [Hne Hsign]]].
  destruct (nanmax_spec (nan_to_num mags)) as [c [Ec [Hin [Hnan Hup]]]].
  - destruct mags; [congruence|]. discriminate.
  - apply nan_to_num_not_nan.
  - exists mags, c. unfold current_max_mag. rewrite E. cbn [Py.bind].
    repeat split; auto.
    unfold nan_to_num in Hin. apply in_map_iff in Hin.
    destruct Hin as [m [<- Hm]]. apply nan_to_num1_nonneg.
    rewrite Forall_forall in Hsign. auto.
Qed.

(** ** The loop invariant *)

Lemma Inv_st0 events out : Inv a (st0 events out).
Proof.
  constructor; cbn; auto; try reflexivity.
  - intros x y d H. discriminate.
Qed.

Lemma Inv_read_event (ret : bool) (st : Pass1) : Inv a st -> Inv a (read_event ret st).
Proof. intros [H1 H2 H3 H4 H5 H6 H7 H8 H9]. constructor; cbn; assumption. Qed.

Lemma feqb_refl (x : float64) : is_nan x = false -> feqb x x = true.
Proof. intros H. apply feqb_key; auto. Qed.

(** One iteration keeps the invariant and appends one pair. *)
Lemma analyze_pair_Inv (fa fb : Frame) (st : Pass1) :
  scaling_keeps_shape a ->
  (forall xy, snd (fst (estimate_filtered dt fa fb xy)) <> [] /\
              List.length (snd (fst (estimate_filtered dt fa fb xy))) =
              List.length (snd (estimate_filtered dt fa fb xy))) ->
  Inv a st ->
  exists st' d,
    analyze_pair a dt fa fb (S (List.length (frames_data st))) st = (st', Py.Ok tt) /\
    Inv a st' /\
    frames_data st' = frames_data st ++ [d] /\
    d_bg d = fa /\
    cap_events st' = cap_events st /\
    fleb (overall_max_mag st) (overall_max_mag st') = true.
Proof.
  intros Hs Hf HI. unfold analyze_pair.
  specialize (Hf (xy st)).
  pose proof (fun x y => estimate_filtered_xy fa fb x y) as Hxy.
  destruct (estimate_filtered dt fa fb (xy st)) as [[[x y] u] v] eqn:EF.
  cbn [fst snd] in Hf. destruct Hf as [Hu Huv].
  destruct (current_max_mag_ok x y u v Hs Hu Huv)
    as [mags [c [Em [Hne [Ec [Hnan [Hpos [Hin Hup]]]]]]]].
  rewrite Ec.
  set (d := {| d_u := u; d_v := v; d_bg := fa;
               d_frame_index := S (List.length (frames_data st)) |}).
  set (o' := if fltb (overall_max_mag st) c then c else overall_max_mag st).
  assert (is_nan o' = false) as Ho'nan.
  { unfold o'. destruct (fltb _ _); auto. apply HI. }
  assert (fleb (overall_max_mag st) o' = true) as Hmono.
  { unfold o'. destruct (fltb _ _) eqn:E.
    - apply fltb_true_fleb; auto; apply HI.
    - apply fleb_refl; apply HI. }
  assert (fleb c o' = true) as Hc.
  { unfold o'. destruct (fltb _ _) eqn:E.
    - apply fleb_refl; auto.
    - apply fltb_false_fleb; auto; apply HI. }
  assert (cleaned_magnitudes a x y d = Py.Ok (nan_to_num mags)) as Hd.
  { unfold cleaned_magnitudes. cbn [d_u d_v d]. rewrite Em. reflexivity. }
  assert (forall x0 y0, xy st = Some (x0, y0) -> (x0, y0) = (x, y)) as Hsame.
  { intros x0 y0 E. rewrite E in EF. specialize (Hxy x0 y0). rewrite EF in Hxy.
    cbn in Hxy. congruence. }
  eexists. exists d. split; [reflexivity|]. split; [|repeat split; auto].
  constructor; cbn [frames_data overall_max_mag xy running_max].
  - exact Ho'nan.
  - apply fleb_trans with (overall_max_mag st); auto; try apply HI; reflexivity.
  - discriminate.
  - intros x1 y1 d1 E Hd1. injection E as <- <-.
    apply in_app_or in Hd1. destruct Hd1 as [Hd1 | [<- | []]].
    + assert (xy st = Some (x, y) \/ xy st = None) as [Exy | Exy].
      { destruct (xy st) as [[x0 y0]|]; [left|right; reflexivity].
        rewrite (Hsame _ _ eq_refl). reflexivity. }
      * destruct (inv_upper a _ HI _ _ _ Exy Hd1) as [mg [E1 [E2 E3]]].
        exists mg. repeat split; auto. intros m Hm.
        assert (is_nan m = false) as Hmn.
        { unfold cleaned_magnitudes in E1.
          destruct (scaled_magnitude a x y (d_u d1) (d_v d1)); [|discriminate].
          injection E1 as <-.
          pose proof (nan_to_num_not_nan a0) as F. rewrite Forall_forall in F. auto. }
        apply fleb_trans with (overall_max_mag st); auto. apply HI.
      * rewrite (inv_xy a _ HI Exy) in Hd1. destruct Hd1.
    + exists (nan_to_num mags). repeat split; auto.
      * destruct mags; [congruence|discriminate].
      * intros m Hm.
        assert (is_nan m = false) as Hmn.
        { pose proof (nan_to_num_not_nan mags) as F. rewrite Forall_forall in F. auto. }
        apply fleb_trans with c; auto.
  - right. unfold o'. destruct (fltb (overall_max_mag st) c) eqn:E.
    + exists x, y, d, (nan_to_num mags), c. repeat split; auto.
      * apply in_or_app. right. left. reflexivity.
      * apply feqb_refl; auto.
    + destruct (inv_attained a _ HI) as [[Hnil Hz] | [x0 [y0 [d0 [mg [m [E1 [E2 [E3 [E4 E5]]]]]]]]]].
      * exists x, y, d, (nan_to_num mags), c. repeat split; auto.
        -- apply in_or_app. right. left. reflexivity.
        -- apply fleb_antisym_feqb; auto; try apply HI;
             try (rewrite Hz; exact Hpos);
             try (apply fltb_false_fleb; auto; apply HI).
      * specialize (Hsame _ _ E1). injection Hsame as -> ->.
        exists x, y, d0, mg, m. repeat split; auto.
        apply in_or_app. left. exact E2.
  - apply nondecreasing_from_app; [apply HI|].
    rewrite (inv_last a _ HI). exact Hmono.
  - apply last_app_single.
  - rewrite !length_app, (inv_history_length a _ HI). reflexivity.
  - rewrite map_app, length_app, (inv_index a _ HI). cbn [map d_frame_index d List.length].
    rewrite Nat.add_1_r, seq_S. reflexivity.
Qed.

(** ** The loop *)

Lemma index_ok {A : Type} (l : list A) (i : nat) :
  i < List.length l -> exists x, Py.index l i = Py.Ok x /\ In x l /\ nth_error l i = Some x.
Proof.
  intros H. unfold Py.index. destruct (nth_error l i) as [x|] eqn:E.
  - exists x. repeat split. eapply nth_error_In; eauto.
  - apply nth_error_None in E. lia.
Qed.

Lemma pass1_loop_spec (pending : list Frame) :
  forall (frame_buffer : list Frame) (st : Pass1),
    scaling_keeps_shape a ->
    fields_well_shaped dt (frame_buffer ++ pending) ->
    List.length frame_buffer = S (frame_comparison_step a) ->
    Inv a st ->
    exists st',
      pass1_loop a dt pending frame_buffer (List.length (frames_data st)) st
        = (st', Py.Ok tt) /\
      Inv a st' /\
      List.length (frames_data st') =
        List.length (frames_data st) + S (List.length pending) /\
      map d_bg (frames_data st') =
        map d_bg (frames_data st) ++
        firstn (S (List.length pending)) (frame_buffer ++ pending) /\
      cap_events st' =
        cap_events st ++ repeat (CapRead true) (List.length pending) ++ [CapRead false].
Proof.
  induction pending as [|new_frame pending IH]; intros frame_buffer st Hs Hf Hlen HI.
  - destruct frame_buffer as [|f0 rest]; [discriminate|].
    destruct (index_ok (f0 :: rest) (frame_comparison_step a)) as [fb [Eb [Hb _]]];
      [rewrite Hlen; lia|].
    cbn [pass1_loop]. change (Py.index (f0 :: rest) 0) with (Py.Ok f0). rewrite Eb.
    destruct (analyze_pair_Inv f0 fb st Hs) as [st' [d [E [HI' [Hfd [Hbg [Hev Hmono]]]]]]]; auto.
    { intros xy0. apply Hf; apply in_or_app; left; auto. left; reflexivity. }
    rewrite E. eexists. split; [reflexivity|]. split; [apply Inv_read_event, HI'|].
    cbn [read_event frames_data cap_events]. rewrite Hfd, Hev.
    rewrite length_app, map_app. cbn [List.length map firstn app repeat].
    rewrite Hbg. repeat split; auto.
  - destruct frame_buffer as [|f0 rest]; [discriminate|].
    destruct (index_ok (f0 :: rest) (frame_comparison_step a)) as [fb [Eb [Hb _]]];
      [rewrite Hlen; lia|].
    cbn [pass1_loop]. change (Py.index (f0 :: rest) 0) with (Py.Ok f0). rewrite Eb.
    destruct (analyze_pair_Inv f0 fb st Hs) as [st' [d [E [HI' [Hfd [Hbg [Hev Hmono]]]]]]]; auto.
    { intros xy0. apply Hf; apply in_or_app; left; auto. left; reflexivity. }
    rewrite E. cbn [tl].
    assert (List.length (frames_data (read_event true st')) = S (List.length (frames_data st)))
      as Hn.
    { cbn [read_event frames_data]. rewrite Hfd, length_app. cbn. lia. }
    destruct (IH (rest ++ [new_frame]) (read_event true st') Hs) as [st'' [E2 [HI2 [L2 [B2 Ev2]]]]].
    + apply fields_well_shaped_incl with (2 := Hf).
      intros z Hz. rewrite <- app_assoc in Hz. cbn in Hz. right. exact Hz.
    + rewrite length_app. cbn in *. lia.
    + apply Inv_read_event, HI'.
    + rewrite Hn in E2. exists st''. split; [exact E2|]. split; [exact HI2|].
      rewrite L2, B2, Ev2, Hn. cbn [read_event frames_data cap_events].
      rewrite Hfd, Hev, map_app. cbn [map List.length]. rewrite Hbg.
      repeat split.
      * lia.
      * rewrite <- (app_assoc rest). rewrite <- (app_assoc (map d_bg (frames_data st))).
        reflexivity.
      * rewrite <- (app_assoc (cap_events st)). reflexivity.
Qed.

(** The initial reads take the first [n] frames, or all there are. *)
Lemma fill_buffer_spec (n : nat) :
  forall (pending frame_buffer : list Frame) (events : list CapEvent),
    fill_buffer n pending frame_buffer events =
    (skipn n pending, frame_buffer ++ firstn n pending,
     events ++ repeat (CapRead true) (Nat.min n (List.length pending))
            ++ repeat (CapRead false) (n - List.length pending)).
Proof.
  induction n as [|n IH]; intros pending frame_buffer events.
  - cbn. rewrite !app_nil_r. reflexivity.
  - destruct pending as [|f pending]; cbn [fill_buffer].
    + rewrite IH. cbn [List.length]. rewrite Nat.min_0_r, Nat.sub_0_r.
      rewrite firstn_nil, skipn_nil, <- app_assoc. reflexivity.
    + rewrite IH. cbn [skipn firstn List.length Nat.min Nat.sub repeat].
      rewrite <- !app_assoc. reflexivity.
Qed.

End Pass1Facts.

Section RunFacts.
Import Float64 Numpy PivAnalysis.
Context {C : Collaborators}.

(** Fewer than [step + 1] frames: the early exit of lines 78 to 81. *)
Lemma run_not_enough_frames (a : Args) :
  isOpened (video_path a) = true ->
  List.length (footage (video_path a)) <= frame_comparison_step a ->
  exists out,
    analyze_and_save_frames a =
    {| outcome := Py.Ok tt;
       console := out ++ [ErrNotEnoughFrames];
       capture_log :=
         (repeat (CapRead true) (List.length (footage (video_path a))) ++
          repeat (CapRead false)
            (frame_comparison_step a + 1 - List.length (footage (video_path a)))) ++
         [CapRelease];
       analyzed := []; max_mag := zero; max_mag_history := []; grid_xy := None;
       images := [] |}.
Proof.
  intros Hopen Hk. unfold analyze_and_save_frames. rewrite Hopen. cbn [negb].
  rewrite fill_buffer_spec. cbn [app].
  assert ((List.length (firstn (frame_comparison_step a + 1) (footage (video_path a)))
           <=? frame_comparison_step a) = true) as Hle.
  { apply Nat.leb_le. rewrite length_firstn. lia. }
  replace (Nat.min (frame_comparison_step a + 1) (List.length (footage (video_path a))))
    with (List.length (footage (video_path a))) by lia.
  destruct (feqb (CAP_PROP_FPS (video_path a)) (of_Z 0)); rewrite Hle;
    eexists; reflexivity.
Qed.

(** More than [step] frames: the loop runs to the end of the video. *)
Lemma run_enough_frames (a : Args) :
  isOpened (video_path a) = true ->
  collaborators_well_shaped a ->
  frame_comparison_step a < List.length (footage (video_path a)) ->
  exists st,
    Inv a st /\
    analyzed (analyze_and_save_frames a) = frames_data st /\
    max_mag (analyze_and_save_frames a) = overall_max_mag st /\
    max_mag_history (analyze_and_save_frames a) = running_max st /\
    grid_xy (analyze_and_save_frames a) = xy st /\
    List.length (frames_data st) =
      List.length (footage (video_path a)) - frame_comparison_step a /\
    map d_bg (frames_data st) =
      firstn (List.length (footage (video_path a)) - frame_comparison_step a)
             (footage (video_path a)) /\
    capture_log (analyze_and_save_frames a) =
      repeat (CapRead true) (List.length (footage (video_path a))) ++
      [CapRead false; CapRelease] /\
    (images (analyze_and_save_frames a), outcome (analyze_and_save_frames a)) =
      (fst (fst (pass2 a (frames_data st) (overall_max_mag st) (xy st))),
       snd (pass2 a (frames_data st) (overall_max_mag st) (xy st))).
Proof.
  intros Hopen [Hs Hf] Hk. unfold analyze_and_save_frames. rewrite Hopen. cbn [negb].
  rewrite fill_buffer_spec. cbn [app].
  set (s := frame_comparison_step a) in *.
  set (F := footage (video_path a)) in *.
  assert (List.length (firstn (s + 1) F) = S s) as Hlen.
  { rewrite length_firstn. lia. }
  assert ((List.length (firstn (s + 1) F) <=? s) = false) as Hle.
  { apply Nat.leb_gt. lia. }
  replace (Nat.min (s + 1) (List.length F)) with (S s) by lia.
  replace (s + 1 - List.length F) with 0 by lia. cbn [repeat]. rewrite app_nil_r.
  unfold frame_interval in Hf. fold s in Hf.
  destruct (feqb (CAP_PROP_FPS (video_path a)) (of_Z 0));
    rewrite Hle;
    match goal with
    | |- context [pass1_loop a ?dt ?p ?b 0 ?st] =>
        destruct (pass1_loop_spec a dt p b st Hs) as [st' [E [HI [L [B Ev]]]]];
          [ rewrite firstn_skipn; exact Hf | exact Hlen | apply Inv_st0 | ];
          cbn [frames_data List.length] in E; rewrite E
    end;
    exists st'; (split; [exact HI|]);
    destruct (pass2 a (frames_data st') (overall_max_mag st') (xy st'))
      as [[saved out2] res];
    cbn [analyzed max_mag max_mag_history grid_xy capture_log images outcome fst snd];
    (repeat split;
     [ rewrite L; cbn [frames_data List.length]; rewrite length_skipn; lia
     | rewrite B, firstn_skipn; cbn [frames_data map app]; rewrite length_skipn;
       f_equal; lia
     | rewrite Ev; cbn [cap_events]; rewrite length_skipn;
       replace (List.length F) with (S s + (List.length F - (s + 1))) at 2 by lia;
       rewrite repeat_app, <- !app_assoc; reflexivity ]).
Qed.

End RunFacts.

(* ================================================================== *)
(** * Part XII.  Properties of the first pass                       *)
(* ================================================================== *)

Section SyntheticFacts.
Import Float64 Numpy PivAnalysis.

Lemma synthetic_well_shaped (frames : list (grid * grid)) (step window : nat)
  (method : string) :
  Forall usable_frame frames ->
  collaborators_well_shaped (C := Synthetic.collaborators)
    (Synthetic.args frames step window method).
Proof.
  intros H. split.
  - intros x y u v. cbn. unfold Synthetic.scale. rewrite !length_map. auto.
  - intros fa fb xy Ha Hb. rewrite Forall_forall in H.
    destruct xy as [[x y]|]; cbn; apply (H fa Ha).
Qed.

Lemma five_frames_usable : Forall usable_frame Synthetic.five_frames.
Proof.
  repeat constructor; cbn; discriminate.
Qed.

End SyntheticFacts.

Section Pass1Claims.
Import Float64 Numpy PivAnalysis.

(** C3.  With stride [s] and a video of [K] decodable frames,
    [analyze_and_save_frames] analyzes exactly [K - s] pairs when
    [K > s] and none otherwise (where it prints that there are not
    enough frames); the [i]-th analyzed pair is recorded under the
    1-based index [i], with frame [i] of the video as its background.
    The collaborators are assumed to return well-shaped fields. *)
Theorem C3_pair_count {C : Collaborators} (a : Args) :
  isOpened (video_path a) = true ->
  collaborators_well_shaped a ->
  (frame_comparison_step a < List.length (footage (video_path a)) ->
     List.length (analyzed (analyze_and_save_frames a)) =
       List.length (footage (video_path a)) - frame_comparison_step a /\
     map d_frame_index (analyzed (analyze_and_save_frames a)) =
       seq 1 (List.length (footage (video_path a)) - frame_comparison_step a) /\
     map d_bg (analyzed (analyze_and_save_frames a)) =
       firstn (List.length (footage (video_path a)) - frame_comparison_step a)
              (footage (video_path a))) /\
  (List.length (footage (video_path a)) <= frame_comparison_step a ->
     analyzed (analyze_and_save_frames a) = [] /\
     In ErrNotEnoughFrames (console (analyze_and_save_frames a))).
Proof.
  intros Hopen Hc. split.
  - intros Hk.
    destruct (run_enough_frames a Hopen Hc Hk)
      as [st [HI [Ea [_ [_ [_ [L [B _]]]]]]]].
    rewrite Ea. repeat split; auto.
    rewrite (inv_index _ _ HI), L. reflexivity.
  - intros Hk. destruct (run_not_enough_frames a Hopen Hk) as [out E].
    rewrite E. cbn [analyzed console]. split; auto.
    apply in_or_app. right. left. reflexivity.
Qed.

Lemma C3_pair_count_witness :
  isOpened (video_path (Synthetic.args Synthetic.five_frames 1 1 "mean")) = true /\
  collaborators_well_shaped (Synthetic.args Synthetic.five_frames 1 1 "mean") /\
  List.length
    (analyzed (analyze_and_save_frames (Synthetic.args Synthetic.five_frames 1 1 "mean")))
  = 4.
Proof.
  split; [reflexivity|]. split; [apply synthetic_well_shaped, five_frames_usable|].
  destruct (C3_pair_count (Synthetic.args Synthetic.five_frames 1 1 "mean")
              eq_refl (synthetic_well_shaped _ 1 1 "mean" five_frames_usable))
    as [H _].
  destruct H as [L _]; [vm_compute; lia|].
  rewrite L. reflexivity.
Defined.

(** C2, as stated, fails.  One pair whose only vector is (2^600, 0):
    the square overflows, the magnitude is +infinity, which
    [np.nan_to_num] turns into the largest finite double; that value,
    not zero, becomes [overall_max_mag]. *)
Lemma C2_counterexample :
  claimed_overall_max
    (Synthetic.args [Synthetic.cell Synthetic.huge zero; Synthetic.cell zero zero]
                    1 1 "mean") [] []
    (analyzed (analyze_and_save_frames
       (Synthetic.args [Synthetic.cell Synthetic.huge zero; Synthetic.cell zero zero]
                       1 1 "mean"))) = Py.Ok zero /\
  max_mag (analyze_and_save_frames
    (Synthetic.args [Synthetic.cell Synthetic.huge zero; Synthetic.cell zero zero]
                    1 1 "mean")) = DBL_MAX /\
  feqb DBL_MAX zero = false.
Proof. vm_compute. repeat split. Qed.

(** C2, amended.  During the first pass [overall_max_mag] never
    decreases from one pair to the next, and after the last pair it is
    the maximum, over all pairs and all cells, of the scaled vector
    magnitude after [np.nan_to_num]: an upper bound of all of them that
    one of them attains.  [np.nan_to_num] replaces a NaN magnitude by
    zero and an infinite magnitude by the largest finite double. *)
Theorem C2_overall_max_mag {C : Collaborators} (a : Args) :
  isOpened (video_path a) = true ->
  collaborators_well_shaped a ->
  frame_comparison_step a < List.length (footage (video_path a)) ->
  nondecreasing_from zero (max_mag_history (analyze_and_save_frames a)) /\
  List.length (max_mag_history (analyze_and_save_frames a)) =
    List.length (analyzed (analyze_and_save_frames a)) /\
  last (max_mag_history (analyze_and_save_frames a)) zero =
    max_mag (analyze_and_save_frames a) /\
  exists x y,
    grid_xy (analyze_and_save_frames a) = Some (x, y) /\
    (forall d, In d (analyzed (analyze_and_save_frames a)) ->
       exists mags,
         cleaned_magnitudes a x y d = Py.Ok mags /\
         forall m, In m mags -> fleb m (max_mag (analyze_and_save_frames a)) = true) /\
    (exists d mags m,
       In d (analyzed (analyze_and_save_frames a)) /\
       cleaned_magnitudes a x y d = Py.Ok mags /\ In m mags /\
       feqb (max_mag (analyze_and_save_frames a)) m = true).
Proof.
  intros Hopen Hc Hk.
  destruct (run_enough_frames a Hopen Hc Hk)
    as [st [HI [Ea [Em [Eh [Ex [L _]]]]]]].
  rewrite Ea, Em, Eh, Ex.
  split; [apply (inv_history _ _ HI)|].
  split; [apply (inv_history_length _ _ HI)|].
  split; [apply (inv_last _ _ HI)|].
  destruct (inv_attained _ _ HI)
    as [[Hnil _] | [x [y [d [mags [m [E1 [E2 [E3 [E4 E5]]]]]]]]]].
  - rewrite Hnil in L. cbn in L. lia.
  - exists x, y. split; [exact E1|]. split.
    + intros d' Hd'. destruct (inv_upper _ _ HI x y d' E1 Hd') as [mg [F1 [_ F2]]].
      exists mg. split; assumption.
    + exists d, mags, m. repeat split; assumption.
Qed.

Lemma C2_overall_max_mag_witness :
  isOpened (video_path (Synthetic.args Synthetic.five_frames 1 1 "mean")) = true /\
  collaborators_well_shaped (Synthetic.args Synthetic.five_frames 1 1 "mean") /\
  frame_comparison_step (Synthetic.args Synthetic.five_frames 1 1 "mean")
    < List.length (footage (video_path (Synthetic.args Synthetic.five_frames 1 1 "mean"))) /\
  last (max_mag_history
          (analyze_and_save_frames (Synthetic.args Synthetic.five_frames 1 1 "mean")))
       zero =
  max_mag (analyze_and_save_frames (Synthetic.args Synthetic.five_frames 1 1 "mean")).
Proof.
  split; [reflexivity|]. split; [apply synthetic_well_shaped, five_frames_usable|].
  split; [vm_compute; lia|].
  destruct (C2_overall_max_mag (Synthetic.args Synthetic.five_frames 1 1 "mean")
              eq_refl (synthetic_well_shaped _ 1 1 "mean" five_frames_usable))
    as [_ [_ [H _]]]; [vm_compute; lia|exact H].
Defined.

(** C6, as stated, fails.  A video of one frame at stride 1: the call
    returns normally, as a successful call does; nothing is raised. *)
Lemma C6_counterexample :
  outcome (analyze_and_save_frames
             (Synthetic.args [Synthetic.cell Synthetic.one Synthetic.one] 1 1 "mean"))
    = Py.Ok tt /\
  ~ (exists e,
       outcome (analyze_and_save_frames
                  (Synthetic.args [Synthetic.cell Synthetic.one Synthetic.one] 1 1 "mean"))
         = Py.Raise e).
Proof.
  split; [reflexivity|]. intros [e H]. vm_compute in H. discriminate.
Qed.

(** C6, amended.  If the stream yields fewer than [s + 1] frames,
    [analyze_and_save_frames] analyzes no pair and saves no image; it
    prints that there are not enough frames as its last line,
    releases the capture, and returns normally to its caller. *)
Theorem C6_not_enough_frames {C : Collaborators} (a : Args) :
  isOpened (video_path a) = true ->
  List.length (footage (video_path a)) < frame_comparison_step a + 1 ->
  analyzed (analyze_and_save_frames a) = [] /\
  images (analyze_and_save_frames a) = [] /\
  outcome (analyze_and_save_frames a) = Py.Ok tt /\
  last (console (analyze_and_save_frames a)) MsgStarting = ErrNotEnoughFrames /\
  last (capture_log (analyze_and_save_frames a)) (CapRead true) = CapRelease.
Proof.
  intros Hopen Hk.
  destruct (run_not_enough_frames a Hopen) as [out E]; [lia|].
  rewrite E. cbn [analyzed images outcome console capture_log].
  rewrite !last_last. repeat split.
Qed.

Lemma C6_not_enough_frames_witness :
  isOpened (video_path
    (Synthetic.args [Synthetic.cell Synthetic.one Synthetic.one] 1 1 "mean")) = true /\
  List.length (footage (video_path
    (Synthetic.args [Synthetic.cell Synthetic.one Synthetic.one] 1 1 "mean"))) < 1 + 1 /\
  images (analyze_and_save_frames
    (Synthetic.args [Synthetic.cell Synthetic.one Synthetic.one] 1 1 "mean")) = [].
Proof.
  split; [reflexivity|]. split; [vm_compute; lia|].
  destruct (C6_not_enough_frames
              (Synthetic.args [Synthetic.cell Synthetic.one Synthetic.one] 1 1 "mean")
              eq_refl) as [_ [H _]]; [vm_compute; lia|exact H].
Defined.

End Pass1Claims.

(* ================================================================== *)
(** * Part XIII.  Aggregation and the second pass                   *)
(* ================================================================== *)

Section AggregationFacts.
Import Float64 Numpy.

Lemma stack_ok (g : grid) (rest : list grid) :
  Forall (fun h => List.length h = List.length g) rest ->
  stack (g :: rest) = Py.Ok (g :: rest).
Proof.
  intros H. unfold stack.
  replace (forallb (same_shape g) rest) with true; [reflexivity|].
  symmetry. apply forallb_forall. intros h Hh. rewrite Forall_forall in H.
  unfold same_shape. apply Nat.eqb_eq. symmetry. apply H, Hh.
Qed.

Lemma reduce_axis0_length (f : list float64 -> float64) (g : grid) (rest : list grid) :
  List.length (reduce_axis0 f (g :: rest)) = List.length g.
Proof. unfold reduce_axis0. rewrite length_map, length_seq. reflexivity. Qed.


(** Reducing a stack of one array, or of copies of one array, works
    cell by cell on that array. *)
Lemma map_nth_seq (h : float64 -> float64) (g : grid) :
  map (fun j => h (nth j g nan)) (seq 0 (List.length g)) = map h g.
Proof.
  induction g as [|x g IH]; [reflexivity|].
  cbn [List.length seq map nth]. f_equal.
  rewrite <- seq_shift, map_map. exact IH.
Qed.

Lemma column_repeat (g : grid) (w j : nat) :
  column (repeat g w) j = repeat (nth j g nan) w.
Proof.
  unfold column. induction w as [|w IH]; [reflexivity|].
  cbn [repeat map]. rewrite IH. reflexivity.
Qed.

Lemma reduce_axis0_repeat (f : list float64 -> float64) (g : grid) (w : nat) :
  reduce_axis0 f (repeat g (S w)) = map (fun x => f (repeat x (S w))) g.
Proof.
  unfold reduce_axis0. cbn [repeat].
  rewrite <- (map_nth_seq (fun x => f (x :: repeat x w)) g).
  apply map_ext. intros j.
  change (g :: repeat g w) with (repeat g (S w)). rewrite column_repeat. reflexivity.
Qed.

Lemma stack_repeat (g : grid) (w : nat) :
  stack (repeat g (S w)) = Py.Ok (repeat g (S w)).
Proof.
  cbn [repeat]. apply stack_ok. apply Forall_forall. intros h Hh.
  apply repeat_spec in Hh. subst. reflexivity.
Qed.

(** ** Sums *)

Lemma fadd_zero_l (x : float64) : fadd zero x = unsigned_zero x.
Proof. destruct x as [s|s| |s m e]; try reflexivity. destruct s; reflexivity. Qed.

Lemma unsigned_zero_idem (x : float64) : unsigned_zero (unsigned_zero x) = unsigned_zero x.
Proof. destruct x; reflexivity. Qed.

Lemma unsigned_zero_valid (x : float64) : valid x = true -> valid (unsigned_zero x) = true.
Proof. destruct x; intros H; try exact H; reflexivity. Qed.

(** A run of fewer than eight values is added in order, at any depth. *)
Lemma pairwise_sum_upto_short (depth : nat) (xs : list float64) :
  List.length xs < 8 -> pairwise_sum_upto depth xs = sum_in_order xs.
Proof.
  intros H. apply Nat.ltb_lt in H.
  destruct depth; cbn [pairwise_sum_upto]; rewrite H; reflexivity.
Qed.

Lemma pairwise_sum_short (xs : list float64) :
  List.length xs < 8 -> pairwise_sum xs = sum_in_order xs.
Proof. apply pairwise_sum_upto_short. Qed.

(** A deeper recursion than the length of the run changes nothing. *)
Lemma pairwise_sum_upto_enough (depth : nat) :
  forall (xs : list float64) (extra : nat),
    List.length xs <= depth ->
    pairwise_sum_upto (depth + extra) xs = pairwise_sum_upto depth xs.
Proof.
  induction depth as [|depth IH]; intros xs extra Hl.
  - destruct xs; [|cbn in Hl; lia]. rewrite !pairwise_sum_upto_short by (cbn; lia).
    reflexivity.
  - cbn [Nat.add pairwise_sum_upto].
    destruct (List.length xs <? 8) eqn:E8; [reflexivity|].
    destruct (List.length xs <=? 128) eqn:E128; [reflexivity|].
    apply Nat.leb_gt in E128.
    pose proof (Nat.Div0.div_le_upper_bound (List.length xs) 2 (List.length xs)
                  ltac:(lia)) as Hhalf.
    pose proof (Nat.Div0.mod_le (List.length xs / 2) 8) as Hmod.
    assert (64 <= List.length xs / 2) as H64
      by (apply Nat.div_le_lower_bound; lia).
    pose proof (Nat.mod_upper_bound (List.length xs / 2) 8 ltac:(lia)) as Hm8.
    assert (List.length xs / 2 < List.length xs) as Hlt
      by (apply Nat.div_lt; lia).
    rewrite !IH; [reflexivity| |].
    + rewrite length_skipn. lia.
    + rewrite length_firstn. lia.
Qed.

(** The sum of one value, and of two, from 0.0. *)
Lemma sum_one (contiguous : bool) (x : float64) :
  sum contiguous [x] = unsigned_zero x.
Proof.
  unfold sum. destruct contiguous.
  - rewrite pairwise_sum_short by (cbn; lia). unfold sum_in_order. cbn [fold_left].
    rewrite !fadd_zero_l. apply unsigned_zero_idem.
  - unfold sum_in_order. cbn [fold_left]. apply fadd_zero_l.
Qed.

Lemma sum_two (contiguous : bool) (x y : float64) :
  sum contiguous [x; y] =
    if contiguous then unsigned_zero (fadd (unsigned_zero x) y)
    else fadd (unsigned_zero x) y.
Proof.
  unfold sum. destruct contiguous.
  - rewrite pairwise_sum_short by (cbn; lia). unfold sum_in_order. cbn [fold_left].
    rewrite !fadd_zero_l. reflexivity.
  - unfold sum_in_order. cbn [fold_left]. rewrite fadd_zero_l. reflexivity.
Qed.

(** Half the sum of a value with itself is the value, unless doubling
    it overflows: then it is the infinity that the doubling gives. *)
Lemma half_of_double (contiguous : bool) (x : float64) :
  valid x = true -> is_nan x = false -> doubles x ->
  fdiv (sum contiguous [x; x]) ftwo = unsigned_zero x.
Proof.
  intros Hv Hn Hf. rewrite sum_two.
  destruct x as [s|s| |s m e]; try discriminate.
  - destruct contiguous, s; reflexivity.
  - destruct contiguous, s; reflexivity.
  - unfold valid in Hv. cbn [valid_binary] in Hv. specialize (Hf eq_refl).
    cbn [unsigned_zero].
    destruct (Z.eq_dec (Z.pos (digits2_pos m)) 53%Z) as [Hd|Hd].
    + rewrite (fadd_self_normal s m e Hv Hd) in *.
      destruct (e + 1 <=? 971)%Z; [|discriminate].
      replace (if contiguous then unsigned_zero (S754_finite s m (e + 1))
               else S754_finite s m (e + 1)) with (S754_finite s m (e + 1))
        by (destruct contiguous; reflexivity).
      apply fdiv_two_normal, Hv.
    + assert (Z.pos (digits2_pos m) < 53)%Z as Hd'.
      { destruct (bounded_inv _ _ Hv) as [Hc _]. rewrite fexp_eq in Hc. lia. }
      destruct (fadd_self_subnormal s m e Hv Hd') as [E _]. rewrite E.
      replace (if contiguous then unsigned_zero (S754_finite s m~0 e)
               else S754_finite s m~0 e) with (S754_finite s m~0 e)
        by (destruct contiguous; reflexivity).
      apply fdiv_two_subnormal; assumption.
Qed.

Lemma half_of_double_overflow (contiguous : bool) (x : float64) :
  valid x = true -> is_finite x = true -> is_finite (fadd x x) = false ->
  fdiv (sum contiguous [x; x]) ftwo = fadd x x /\ is_inf (fadd x x) = true.
Proof.
  intros Hv Hx Hf. rewrite sum_two.
  destruct x as [s|s| |s m e]; try discriminate.
  - destruct s; discriminate.
  - unfold valid in Hv. cbn [valid_binary] in Hv. cbn [unsigned_zero].
    destruct (Z.eq_dec (Z.pos (digits2_pos m)) 53%Z) as [Hd|Hd].
    + rewrite (fadd_self_normal s m e Hv Hd) in *.
      destruct (e + 1 <=? 971)%Z; [discriminate|].
      destruct contiguous, s; split; reflexivity.
    + assert (Z.pos (digits2_pos m) < 53)%Z as Hd'.
      { destruct (bounded_inv _ _ Hv) as [Hc _]. rewrite fexp_eq in Hc. lia. }
      destruct (fadd_self_subnormal s m e Hv Hd') as [E _]. rewrite E in Hf.
      discriminate.
Qed.

(** ** The mean of one cell *)



(** A window of one: the mean of a single value is the value, the
    sign of a zero apart. *)
Lemma nanmean1_single (contiguous : bool) (x : float64) :
  valid x = true -> nanmean1 contiguous [x] = unsigned_zero x.
Proof.
  intros Hv. unfold nanmean1. cbn [map filter]. rewrite sum_one.
  destruct (is_nan x) eqn:E.
  - destruct x; try discriminate. reflexivity.
  - cbn [negb List.length]. rewrite of_nat_1. apply fdiv_one, unsigned_zero_valid, Hv.
Qed.


(** ** Sums of values that no addition rounds *)


Section ClosedSums.
Variable P : float64 -> Prop.
Hypothesis P_add : forall x y, P x -> P y -> P (fadd x y).
Hypothesis P_zero : forall x, P x -> P (fadd zero x).










End ClosedSums.



(** ** A count as a [float64] *)



(** ** The mean of copies of a value that no sum rounds *)



End AggregationFacts.

Section MedianFacts.
Import Float64 Numpy.
















(** A window of one: NaN stays NaN, any other value is doubled and
    halved. *)
Lemma nanmedian_small_single (contiguous : bool) (x : float64) :
  nanmedian_small contiguous [x]
    = if is_nan x then nan else fdiv (sum contiguous [x; x]) ftwo.
Proof.
  unfold nanmedian_small. cbn [filter].
  destruct (is_nan x); [reflexivity|]. cbn [negb sort insert List.length].
  rewrite of_nat_2. reflexivity.
Qed.

End MedianFacts.

Section Pass2Facts.
Import Float64 Numpy PivAnalysis.
Context {C : Collaborators}.
Variable a : Args.

Lemma aggregate_ok (g : grid) (rest : list grid) :
  Forall (fun h => List.length h = List.length g) rest ->
  aggregate a (g :: rest) =
    Py.Ok (if (averaging_method a =? "median")%string
           then nanmedian_axis0 (g :: rest) else nanmean_axis0 (g :: rest)) /\
  (forall r, aggregate a (g :: rest) = Py.Ok r -> List.length r = List.length g).
Proof.
  intros H. unfold aggregate. rewrite (stack_ok g rest H). cbn [Py.bind].
  split; [reflexivity|]. intros r E. injection E as <-.
  destruct (averaging_method a =? "median")%string;
    unfold nanmedian_axis0, nanmean_axis0;
    [destruct (List.length (g :: rest) <? 600)|]; apply reduce_axis0_length.
Qed.

Lemma uniform_fields_maps (n : nat) (d : FrameResult) (rest : list FrameResult) :
  uniform_fields n (d :: rest) ->
  List.length (d_u d) = n /\ List.length (d_v d) = n /\
  Forall (fun h => List.length h = List.length (d_u d)) (map d_u rest) /\
  Forall (fun h => List.length h = List.length (d_v d)) (map d_v rest).
Proof.
  intros H. inversion H as [|? ? [Hu Hv] Hr]; subst. repeat split; auto.
  - apply Forall_forall. intros h Hh. apply in_map_iff in Hh.
    destruct Hh as [e [<- He]]. rewrite Forall_forall in Hr.
    destruct (Hr e He) as [E _]. congruence.
  - apply Forall_forall. intros h Hh. apply in_map_iff in Hh.
    destruct Hh as [e [<- He]]. rewrite Forall_forall in Hr.
    destruct (Hr e He) as [_ E]. congruence.
Qed.

(** A non-empty window of equally shaped fields is rendered, under
    the name and the title of its first pair's frame index and over
    that pair's background. *)
Lemma render_window_ok (x y x_scaled y_scaled : Coords) (vmax_to_use : float64)
  (unit_ : string) (n : nat) (d : FrameResult) (rest : list FrameResult) :
  scaling_keeps_shape a ->
  uniform_fields n (d :: rest) ->
  exists plot,
    render_window a x y x_scaled y_scaled vmax_to_use unit_ (d :: rest)
      = Py.Ok (image_name (d_frame_index d), plot) /\
    imshow_bg plot = d_bg d /\
    plot_title plot = title_of a (d_frame_index d) /\
    clim_vmax plot = vmax_to_use.
Proof.
  intros Hs Hu. destruct (uniform_fields_maps n d rest Hu) as [Lu [Lv [Fu Fv]]].
  unfold render_window. change (Py.index (d :: rest) 0) with (Py.Ok d).
  cbn [Py.bind map].
  destruct (aggregate_ok (d_u d) (map d_u rest) Fu) as [Eu Hlu].
  destruct (aggregate_ok (d_v d) (map d_v rest) Fv) as [Ev Hlv].
  specialize (Hlu _ Eu). specialize (Hlv _ Ev).
  rewrite Eu, Ev. cbn [Py.bind].
  match goal with
  | |- context [scaling_uniform x y ?gu ?gv (scaling_factor a)] =>
      pose proof (Hs x y gu gv) as Hk;
      destruct (scaling_uniform x y gu gv (scaling_factor a)) as [[[x' y'] us] vs]
  end.
  cbn [fst snd] in Hk. destruct Hk as [Ku Kv].
  destruct (map2_length magnitude1 us vs) as [m [Em _]]; [congruence|].
  unfold magnitude. rewrite Em. cbn [Py.bind].
  eexists. split; [reflexivity|]. cbn [imshow_bg plot_title clim_vmax].
  repeat split.
Qed.

Lemma in_firstn {A : Type} (z : A) (n : nat) (l : list A) :
  In z (firstn n l) -> In z l.
Proof.
  intros H. rewrite <- (firstn_skipn n l). apply in_or_app. left. exact H.
Qed.

Lemma slice_nonempty (pairs : list FrameResult) (i w : nat) :
  i < List.length pairs -> 1 <= w ->
  exists d rest,
    Py.slice pairs i (i + w) = d :: rest /\ nth_error pairs i = Some d /\
    incl (d :: rest) pairs.
Proof.
  intros Hi Hw. unfold Py.slice. replace (i + w - i) with w by lia.
  destruct (nth_error pairs i) as [d|] eqn:E; [|apply nth_error_None in E; lia].
  destruct (nth_error_split _ _ E) as [l1 [l2 [-> Hl1]]].
  rewrite <- Hl1. rewrite skipn_app, skipn_all, Nat.sub_diag. cbn [skipn app].
  destruct w as [|w]; [lia|]. cbn [firstn].
  exists d, (firstn w l2). repeat split.
  intros z [<- | Hz]; apply in_or_app; right; [left; reflexivity|].
  right. eapply in_firstn; eauto.
Qed.

(** The rendering loop over [i = i0 .. i0 + k - 1]: [k] images, the
    [j]-th from the window at [i0 + j]. *)
Lemma pass2_loop_spec (x y x_scaled y_scaled : Coords) (vmax_to_use : float64)
  (unit_ : string) (n : nat) (pairs : list FrameResult) (total : Z) (k : nat) :
  scaling_keeps_shape a ->
  uniform_fields n pairs ->
  1 <= moving_average_window a ->
  forall (i0 : nat) (saved : list (string * Plot)) (out : list Message),
    i0 + k <= List.length pairs ->
    exists new out',
      pass2_loop a x y x_scaled y_scaled vmax_to_use unit_ pairs total
        (seq i0 k) saved out = (saved ++ new, out', Py.Ok tt) /\
      List.length new = k /\
      forall j, j < k ->
        exists d plot,
          nth_error pairs (i0 + j) = Some d /\
          nth_error new j = Some (image_name (d_frame_index d), plot) /\
          render_window a x y x_scaled y_scaled vmax_to_use unit_
            (Py.slice pairs (i0 + j) (i0 + j + moving_average_window a))
            = Py.Ok (image_name (d_frame_index d), plot) /\
          imshow_bg plot = d_bg d /\
          plot_title plot = title_of a (d_frame_index d).
Proof.
  intros Hs Hu Hw. induction k as [|k IH]; intros i0 saved out Hk.
  - exists [], out. cbn [seq pass2_loop]. rewrite app_nil_r.
    repeat split. intros j Hj. inversion Hj.
  - cbn [seq pass2_loop].
    destruct (slice_nonempty pairs i0 (moving_average_window a)) as [d [rest [Es [Ed Hin]]]];
      [lia|exact Hw|].
    rewrite Es. change (Py.index (d :: rest) 0) with (Py.Ok d). cbn beta iota.
    assert (uniform_fields n (d :: rest)) as Hu'.
    { apply Forall_forall. intros e He. unfold uniform_fields in Hu.
      rewrite Forall_forall in Hu. apply Hu, Hin, He. }
    destruct (render_window_ok x y x_scaled y_scaled vmax_to_use unit_ n d rest Hs Hu')
      as [plot [Er [Hbg [Ht _]]]].
    rewrite Er.
    destruct (IH (S i0) (saved ++ [(image_name (d_frame_index d), plot)])
                (out ++ [MsgSaving (S i0) total (d_frame_index d)]))
      as [new [out' [E [L N]]]]; [lia|].
    rewrite E. exists ((image_name (d_frame_index d), plot) :: new), out'.
    rewrite <- app_assoc. split; [reflexivity|]. split; [cbn; lia|].
    intros [|j] Hj.
    + rewrite Nat.add_0_r. exists d, plot. rewrite Es. repeat split; auto.
    + destruct (N j) as [d' [plot' H']]; [lia|].
      replace (i0 + S j) with (S i0 + j) by lia. exists d', plot'. exact H'.
Qed.

End Pass2Facts.

Section Pass2Claims.
Import Float64 Numpy PivAnalysis.

(** C4.  For a window size [w >= 1] and [N] results of the first
    pass, the second pass saves exactly [max(N - w + 1, 0)] images;
    the image at position [i] (from 0) is rendered from the results
    [i, i + w), and it is named and titled after, and drawn over the
    background of, the [(i + 1)]-th pair, by its recorded frame
    index.  The recorded fields are assumed to be of one shape, and
    the scaling to keep shapes. *)
Theorem C4_window_images {C : Collaborators} (a : Args) (pairs : list FrameResult)
  (overall : float64) (x y : Coords) (n : nat) :
  1 <= moving_average_window a ->
  scaling_keeps_shape a ->
  uniform_fields n pairs ->
  exists saved out x_scaled y_scaled vmax_to_use unit_,
    pass2 a pairs overall (Some (x, y)) = (saved, out, Py.Ok tt) /\
    Z.of_nat (List.length saved) =
      Z.max (Z.of_nat (List.length pairs) - Z.of_nat (moving_average_window a) + 1) 0 /\
    forall i, i < List.length saved ->
      exists d plot,
        nth_error pairs i = Some d /\
        nth_error saved i = Some (image_name (d_frame_index d), plot) /\
        render_window a x y x_scaled y_scaled vmax_to_use unit_
          (Py.slice pairs i (i + moving_average_window a))
          = Py.Ok (image_name (d_frame_index d), plot) /\
        imshow_bg plot = d_bg d /\
        plot_title plot = title_of a (d_frame_index d).
Proof.
  intros Hw Hs Hu. destruct pairs as [|first rest].
  - exists [], [MsgNoFramesAnalyzed], x, y, overall, ""%string.
    cbn [pass2 List.length]. repeat split; [lia|].
    intros i Hi. inversion Hi.
  - unfold pass2.
    set (pairs := first :: rest) in *.
    set (num := (Z.of_nat (List.length pairs)
                 - Z.of_nat (moving_average_window a) + 1)%Z).
    set (unit_ := if feqb (scaling_factor a) (of_Z 1)
                  then "pixels"%string else "mm"%string).
    destruct (scaling_uniform x y (d_u first) (d_v first) (scaling_factor a))
      as [[[x_scaled y_scaled] us] vs].
    assert (forall vmax out0,
      exists new out',
        pass2_loop a x y x_scaled y_scaled vmax unit_ pairs num (Py.range num) [] out0
          = (new, out', Py.Ok tt) /\
        List.length new = Z.to_nat num /\
        forall j, j < Z.to_nat num ->
          exists d plot,
            nth_error pairs j = Some d /\
            nth_error new j = Some (image_name (d_frame_index d), plot) /\
            render_window a x y x_scaled y_scaled vmax unit_
              (Py.slice pairs j (j + moving_average_window a))
              = Py.Ok (image_name (d_frame_index d), plot) /\
            imshow_bg plot = d_bg d /\
            plot_title plot = title_of a (d_frame_index d)) as Hloop.
    { intros vmax out0. unfold Py.range.
      destruct (pass2_loop_spec a x y x_scaled y_scaled vmax unit_ n pairs num
                  (Z.to_nat num) Hs Hu Hw 0 [] out0) as [new [out' [E [L N]]]];
        [unfold num; lia|].
      exists new, out'. cbn [app] in E. split; [exact E|]. split; [exact L|].
      exact N. }
    destruct (vmax_override a) as [vmax|].
    + destruct (Hloop vmax
                  ([MsgPass2 (moving_average_window a) (averaging_method a)]
                   ++ [MsgVmaxOverride vmax])) as [new [out' [E [L N]]]].
      rewrite E. exists new. eexists. exists x_scaled, y_scaled, vmax, unit_.
      split; [reflexivity|]. split; [rewrite L; unfold num; lia|].
      intros i Hi. apply N. lia.
    + destruct (Hloop overall
                  [MsgPass2 (moving_average_window a) (averaging_method a)])
        as [new [out' [E [L N]]]].
      rewrite E. exists new. eexists. exists x_scaled, y_scaled, overall, unit_.
      split; [reflexivity|]. split; [rewrite L; unfold num; lia|].
      intros i Hi. apply N. lia.
Qed.

Lemma uniform_fieldsb_true {C : Collaborators} (n : nat) (pairs : list FrameResult) :
  uniform_fieldsb n pairs = true -> uniform_fields n pairs.
Proof.
  unfold uniform_fieldsb, uniform_fields. rewrite forallb_forall, Forall_forall.
  intros H d Hd. specialize (H d Hd). apply andb_true_iff in H.
  destruct H as [H1 H2]. apply Nat.eqb_eq in H1, H2. auto.
Qed.

Lemma synthetic_uniform_five :
  uniform_fields 1
    (analyzed (analyze_and_save_frames
                 (Synthetic.args Synthetic.five_frames 1 3 "median"))).
Proof. apply uniform_fieldsb_true. vm_compute. reflexivity. Qed.

Lemma C4_window_images_witness :
  1 <= moving_average_window (Synthetic.args Synthetic.five_frames 1 3 "median") /\
  scaling_keeps_shape (Synthetic.args Synthetic.five_frames 1 3 "median") /\
  uniform_fields 1
    (analyzed (analyze_and_save_frames
                 (Synthetic.args Synthetic.five_frames 1 3 "median"))) /\
  exists saved out,
    pass2 (Synthetic.args Synthetic.five_frames 1 3 "median")
      (analyzed (analyze_and_save_frames
                   (Synthetic.args Synthetic.five_frames 1 3 "median")))
      Synthetic.five (Some ([], [])) = (saved, out, Py.Ok tt) /\
    List.length saved = 2.
Proof.
  split; [vm_compute; lia|].
  split; [apply (synthetic_well_shaped Synthetic.five_frames 1 3 "median"
                   five_frames_usable)|].
  split; [exact synthetic_uniform_five|].
  destruct (C4_window_images (Synthetic.args Synthetic.five_frames 1 3 "median")
              (analyzed (analyze_and_save_frames
                           (Synthetic.args Synthetic.five_frames 1 3 "median")))
              Synthetic.five [] [] 1)
    as [saved [out [xs [ys [vm [un [E [L _]]]]]]]].
  - vm_compute; lia.
  - apply (synthetic_well_shaped Synthetic.five_frames 1 3 "median" five_frames_usable).
  - exact synthetic_uniform_five.
  - exists saved, out. split; [exact E|].
    apply Nat2Z.inj. rewrite L. vm_compute. reflexivity.
Defined.

End Pass2Claims.

Section AggregationClaims.
Import Float64 Numpy PivAnalysis.




End AggregationClaims.

Section RenderingFacts.
Import Float64 Numpy.
Local Open Scope Z_scope.

(** ** Rounding a non-negative mantissa never yields NaN *)

Lemma shr_1_nonneg (mrs : shr_record) : 0 <= shr_m mrs -> 0 <= shr_m (shr_1 mrs).
Proof.
  destruct mrs as [m r s]. cbn [shr_m shr_1].
  destruct m as [|p|p]; [| |lia]; intros _.
  - cbn. lia.
  - destruct p; cbn; lia.
Qed.

Lemma iter_pos_shr_1_nonneg (p : positive) :
  forall mrs, 0 <= shr_m mrs -> 0 <= shr_m (iter_pos shr_1 p mrs).
Proof.
  induction p as [p IH|p IH|]; intros mrs H; cbn [iter_pos].
  - apply IH, IH, shr_1_nonneg, H.
  - apply IH, IH, H.
  - apply shr_1_nonneg, H.
Qed.

Lemma shr_fexp_nonneg (m e : Z) (l : location) :
  0 <= m -> 0 <= shr_m (fst (shr_fexp prec emax m e l)).
Proof.
  intros H. unfold shr_fexp, shr.
  assert (shr_m (shr_record_of_loc m l) = m) as E by (destruct l as [|[| |]]; reflexivity).
  destruct (fexp prec emax (Zdigits2 m + e) - e) as [|p|p]; cbn [fst]; try (rewrite E; exact H).
  apply iter_pos_shr_1_nonneg. rewrite E. exact H.
Qed.

Lemma round_nearest_even_nonneg (m : Z) (l : location) :
  0 <= m -> 0 <= round_nearest_even m l.
Proof.
  intros H. unfold round_nearest_even.
  destruct l as [|[| |]]; try lia. destruct (Z.even m); lia.
Qed.

Lemma binary_round_aux_not_nan (s : bool) (m e : Z) (l : location) :
  0 <= m -> is_nan (binary_round_aux prec emax s m e l) = false.
Proof.
  intros H. unfold binary_round_aux.
  pose proof (shr_fexp_nonneg m e l H) as H1.
  destruct (shr_fexp prec emax m e l) as [mrs' e']. cbn [fst] in H1.
  pose proof (shr_fexp_nonneg _ e' loc_Exact
                (round_nearest_even_nonneg _ (loc_of_shr_record mrs') H1)) as H2.
  destruct (shr_fexp prec emax _ e' loc_Exact) as [mrs'' e'']. cbn [fst] in H2.
  destruct (shr_m mrs'') as [|p|p]; [reflexivity| |lia].
  destruct (e'' <=? emax - prec); reflexivity.
Qed.

Lemma fmul_self_not_nan (x : float64) : is_nan x = false -> is_nan (fmul x x) = false.
Proof.
  destruct x as [s|s| |s m e]; intros H; try discriminate; try reflexivity.
  unfold fmul, SFmul. apply binary_round_aux_not_nan. lia.
Qed.

(** ** Magnitudes of vectors with a NaN or an infinite component *)

Lemma magnitude1_nan (u v : float64) :
  is_nan u || is_nan v = true -> magnitude1 u v = nan.
Proof.
  intros H. apply orb_true_iff in H. unfold magnitude1. destruct H as [H | H].
  - destruct u; try discriminate. reflexivity.
  - destruct v; try discriminate. cbn [fmul SFmul].
    unfold fmul at 1. destruct (SFmul prec emax u u); reflexivity.
Qed.

Lemma magnitude1_inf (u v : float64) :
  is_nan u = false -> is_nan v = false -> is_inf u || is_inf v = true ->
  magnitude1 u v = pinf.
Proof.
  intros Hu Hv H. apply orb_true_iff in H. unfold magnitude1.
  pose proof (fmul_self_sign u) as Su. pose proof (fmul_self_sign v) as Sv.
  pose proof (fmul_self_not_nan u Hu) as Nu. pose proof (fmul_self_not_nan v Hv) as Nv.
  destruct H as [H | H].
  - destruct u as [s|s| |s m e]; try discriminate.
    replace (fmul (S754_infinity s) (S754_infinity s)) with pinf
      by (destruct s; reflexivity).
    destruct (fmul v v) as [s'|s'| |s' m' e']; cbn [has_sign] in Sv; subst;
      try discriminate; reflexivity.
  - destruct v as [s|s| |s m e]; try discriminate.
    replace (fmul (S754_infinity s) (S754_infinity s)) with pinf
      by (destruct s; reflexivity).
    destruct (fmul u u) as [s'|s'| |s' m' e']; cbn [has_sign] in Su; subst;
      try discriminate; reflexivity.
Qed.

Lemma fopp_finite (x : float64) : is_finite x = true -> is_finite (fopp x) = true.
Proof. destruct x; intros H; try discriminate; reflexivity. Qed.

End RenderingFacts.

Section WindowOfOne.
Import Float64 Numpy PivAnalysis.

Lemma Forall2_map_r {A B : Type} (R : A -> B -> Prop) (f : A -> B) (l : list A) :
  Forall (fun x => R x (f x)) l -> Forall2 R l (map f l).
Proof. induction 1; cbn [map]; constructor; assumption. Qed.

Lemma aggregate_single {C : Collaborators} (a : Args) (g : grid) :
  Forall (fun c => valid c = true) g ->
  exists r, aggregate a [g] = Py.Ok r /\ Forall2 (window_of_one a) g r.
Proof.
  intros Hg. unfold aggregate. change [g] with (repeat g 1).
  rewrite stack_repeat. cbn [Py.bind]. eexists. split; [reflexivity|].
  assert (nanmedian_axis0 (repeat g 1)
          = reduce_axis0 (nanmedian_small (one_cell (repeat g 1))) (repeat g 1)) as ->
    by reflexivity.
  unfold nanmean_axis0. rewrite !reduce_axis0_repeat. cbn [repeat]. unfold window_of_one.
  destruct (averaging_method a =? "median")%string; cbn [andb];
    apply Forall2_map_r; apply Forall_forall; intros x Hx;
    rewrite Forall_forall in Hg; specialize (Hg x Hx).
  - rewrite nanmedian_small_single. destruct (is_nan x) eqn:Nx.
    + destruct x; try discriminate. reflexivity.
    + destruct (is_finite x) eqn:Fx; cbn [andb].
      * destruct (is_finite (fadd x x)) eqn:Fd; cbn [negb].
        -- apply half_of_double; [exact Hg|exact Nx|intros _; exact Fd].
        -- destruct (half_of_double_overflow (one_cell [g]) x Hg Fx Fd) as [E1 E2].
           rewrite E1. split; [reflexivity|exact E2].
      * apply half_of_double; [exact Hg|exact Nx|]. intros F. congruence.
  - apply nanmean1_single, Hg.
Qed.

Lemma slice_one {A : Type} (l : list A) (i : nat) (d : A) :
  nth_error l i = Some d -> Py.slice l i (i + 1) = [d].
Proof.
  intros E. unfold Py.slice. replace (i + 1 - i) with 1 by lia.
  destruct (nth_error_split _ _ E) as [l1 [l2 [-> Hl1]]].
  rewrite <- Hl1, skipn_app, skipn_all, Nat.sub_diag. reflexivity.
Qed.

Lemma nth_nan_to_num (l : grid) (j : nat) :
  j < List.length l -> nth j (nan_to_num l) nan = nan_to_num1 (nth j l nan).
Proof.
  intros Hj. unfold nan_to_num.
  rewrite (nth_indep _ nan (nan_to_num1 nan)) by (rewrite length_map; exact Hj).
  apply map_nth.
Qed.

Lemma nth_map_fopp (l : grid) (j : nat) :
  j < List.length l -> nth j (map fopp l) nan = fopp (nth j l nan).
Proof.
  intros Hj. rewrite (nth_indep _ nan (fopp nan)) by (rewrite length_map; exact Hj).
  apply map_nth.
Qed.

(** C8, as stated, fails.  Stride 1, window 1, a first pair whose
    only vector is (+infinity, 0): the image is drawn with magnitude
    and u-component equal to the largest finite double, not zero, and
    the arrow scale handed to the renderer is infinite.  Nor is
    aggregation a no-op: the median of the single value that is the
    largest finite double is infinite, and the mean of the single
    value -0.0 is 0.0. *)
Lemma C8_counterexample :
  map (fun p => (quiver_u (snd p), quiver_c (snd p), quiver_scale (snd p)))
    (images (analyze_and_save_frames
               (Synthetic.args [Synthetic.cell pinf zero; Synthetic.cell zero zero]
                               1 1 "mean")))
    = [([DBL_MAX], [DBL_MAX], pinf)] /\
  feqb DBL_MAX zero = false /\
  aggregate (Synthetic.args [] 1 1 "median") [[DBL_MAX]] = Py.Ok [pinf] /\
  is_finite DBL_MAX = true /\
  aggregate (Synthetic.args [] 1 1 "mean") [[S754_zero true]] = Py.Ok [S754_zero false].
Proof. repeat split; vm_compute; reflexivity. Qed.

(** C8, amended.  With window size 1, for every recorded pair whose
    grids hold well-formed binary64 values of one shape (NaN and the
    infinities included), the window is that pair alone and
    aggregation returns its [u] and [v] grids cell for cell, NaN as
    NaN and an infinity as itself, with two exceptions: the sign of a
    zero is cleared, and with the median a finite value whose double
    overflows becomes the infinity of its sign.  In the image, every
    value of the arrays U, V and C handed to the renderer is finite;
    where a scaled component is NaN, that component and the magnitude
    are drawn as zero; where a scaled component is infinite and none
    is NaN, the magnitude is drawn as the largest finite double. *)
Theorem C8_window_of_one {C : Collaborators} (a : Args)
  (x y x_scaled y_scaled : Coords) (vmax_to_use : float64) (unit_ : string)
  (pairs : list FrameResult) (i : nat) (d : FrameResult) :
  moving_average_window a = 1 ->
  nth_error pairs i = Some d ->
  scaling_keeps_shape a ->
  List.length (d_u d) = List.length (d_v d) ->
  Forall (fun c => valid c = true) (d_u d) ->
  Forall (fun c => valid c = true) (d_v d) ->
  Py.slice pairs i (i + moving_average_window a) = [d] /\
  exists aggregated_u aggregated_v,
    aggregate a [d_u d] = Py.Ok aggregated_u /\
    aggregate a [d_v d] = Py.Ok aggregated_v /\
    Forall2 (window_of_one a) (d_u d) aggregated_u /\
    Forall2 (window_of_one a) (d_v d) aggregated_v /\
    exists plot us vs,
      render_window a x y x_scaled y_scaled vmax_to_use unit_
        (Py.slice pairs i (i + moving_average_window a))
        = Py.Ok (image_name (d_frame_index d), plot) /\
      us = snd (fst (scaling_uniform x y aggregated_u aggregated_v (scaling_factor a))) /\
      vs = snd (scaling_uniform x y aggregated_u aggregated_v (scaling_factor a)) /\
      quiver_u plot = nan_to_num us /\
      quiver_v plot = map fopp (nan_to_num vs) /\
      List.length (quiver_c plot) = List.length us /\
      Forall (fun c => is_finite c = true)
             (quiver_u plot ++ quiver_v plot ++ quiver_c plot) /\
      forall j, j < List.length us ->
        (is_nan (nth j us nan) || is_nan (nth j vs nan) = true ->
           nth j (quiver_c plot) nan = zero) /\
        (is_nan (nth j us nan) = true -> nth j (quiver_u plot) nan = zero) /\
        (is_nan (nth j vs nan) = true -> nth j (quiver_v plot) nan = fopp zero) /\
        (is_nan (nth j us nan) = false -> is_nan (nth j vs nan) = false ->
         is_inf (nth j us nan) || is_inf (nth j vs nan) = true ->
           nth j (quiver_c plot) nan = DBL_MAX).
Proof.
  intros Hw Hd Hs Hl Hu Hv.
  assert (Py.slice pairs i (i + moving_average_window a) = [d]) as Es
    by (rewrite Hw; apply slice_one, Hd).
  destruct (aggregate_single a (d_u d) Hu) as [au [Eu Ku']].
  destruct (aggregate_single a (d_v d) Hv) as [av [Ev Kv']].
  split; [exact Es|]. exists au, av.
  split; [exact Eu|]. split; [exact Ev|]. split; [exact Ku'|]. split; [exact Kv'|].
  pose proof (Forall2_length Ku') as Lu. pose proof (Forall2_length Kv') as Lv.
  rewrite Es. unfold render_window. change (Py.index [d] 0) with (Py.Ok d).
  cbn [Py.bind map]. rewrite Eu, Ev. cbn [Py.bind].
  pose proof (Hs x y au av) as Hk.
  destruct (scaling_uniform x y au av (scaling_factor a)) as [[[x' y'] us] vs].
  cbn [fst snd] in Hk. destruct Hk as [Ku Kv]. cbn [fst snd].
  destruct (map2_length magnitude1 us vs) as [m [Em [Lm Nm]]]; [congruence|].
  unfold magnitude. rewrite Em. cbn [Py.bind].
  eexists. exists us, vs. split; [reflexivity|].
  cbn [quiver_u quiver_v quiver_c].
  split; [reflexivity|]. split; [reflexivity|]. split; [reflexivity|].
  split; [reflexivity|].
  split; [unfold nan_to_num; rewrite length_map; exact Lm|].
  split.
  - apply Forall_forall. intros c Hc.
    apply in_app_or in Hc. destruct Hc as [Hc | Hc];
      [|apply in_app_or in Hc; destruct Hc as [Hc | Hc]].
    + unfold nan_to_num in Hc. apply in_map_iff in Hc.
      destruct Hc as [c0 [<- _]]. apply nan_to_num1_finite.
    + apply in_map_iff in Hc. destruct Hc as [c0 [<- Hc0]].
      unfold nan_to_num in Hc0. apply in_map_iff in Hc0.
      destruct Hc0 as [c1 [<- _]]. apply fopp_finite, nan_to_num1_finite.
    + unfold nan_to_num in Hc. apply in_map_iff in Hc.
      destruct Hc as [c0 [<- _]]. apply nan_to_num1_finite.
  - intros j Hj.
    assert (j < List.length vs) as Hjv by congruence.
    assert (j < List.length m) as Hjm by congruence.
    rewrite (nth_nan_to_num m j Hjm), (Nm j Hj), (nth_nan_to_num us j Hj).
    rewrite nth_map_fopp by (unfold nan_to_num; rewrite length_map; exact Hjv).
    rewrite (nth_nan_to_num vs j Hjv).
    repeat split.
    + intros H. rewrite (magnitude1_nan _ _ H). reflexivity.
    + intros H. destruct (nth j us nan); try discriminate. reflexivity.
    + intros H. destruct (nth j vs nan); try discriminate. reflexivity.
    + intros H1 H2 H3. rewrite (magnitude1_inf _ _ H1 H2 H3). reflexivity.
Qed.

End WindowOfOne.

(* ================================================================== *)
(** * Part XIV.  File names                                         *)
(* ================================================================== *)

Section FileNames.
Import PivAnalysis.

Lemma digits_aux_step (fuel n : nat) (acc : list ascii) :
  Py.digits_aux (S fuel) n acc =
  if n <? 10 then Py.digit_char (n mod 10) :: acc
  else Py.digits_aux fuel (n / 10) (Py.digit_char (n mod 10) :: acc).
Proof. reflexivity. Qed.

(** Below 1000, ['{:03d}'] is the three decimal digits. *)
Lemma format_03d (n : nat) :
  n < 1000 ->
  Py.format_0d 3 n =
  [Py.digit_char (n / 100); Py.digit_char (n / 10 mod 10); Py.digit_char (n mod 10)].
Proof.
  intros Hn. unfold Py.format_0d, Py.digits. rewrite digits_aux_step.
  destruct (n <? 10) eqn:E1.
  - apply Nat.ltb_lt in E1.
    replace (n / 100) with 0 by (symmetry; apply Nat.div_small; lia).
    replace (n / 10) with 0 by (symmetry; apply Nat.div_small; lia).
    reflexivity.
  - apply Nat.ltb_ge in E1. destruct n as [|n']; [lia|].
    rewrite digits_aux_step.
    destruct (S n' / 10 <? 10) eqn:E2.
    + apply Nat.ltb_lt in E2.
      replace (S n' / 100) with 0.
      * reflexivity.
      * symmetry. apply Nat.div_small.
        pose proof (Nat.div_mod_eq (S n') 10). pose proof (Nat.mod_upper_bound (S n') 10).
        lia.
    + apply Nat.ltb_ge in E2. destruct n' as [|n'']; [cbn in E2; lia|].
      rewrite digits_aux_step.
      assert (S (S n'') / 10 / 10 = S (S n'') / 100) as E3
        by (rewrite Nat.Div0.div_div; reflexivity).
      assert (S (S n'') / 100 < 10) as E4
        by (apply Nat.Div0.div_lt_upper_bound; lia).
      rewrite E3. replace (S (S n'') / 100 <? 10) with true
        by (symmetry; apply Nat.ltb_lt; exact E4).
      rewrite (Nat.mod_small _ _ E4). reflexivity.
Qed.

Lemma digit_char_code (d : nat) :
  d < 10 -> N_of_ascii (Py.digit_char d) = N.of_nat (48 + d).
Proof.
  intros Hd. unfold Py.digit_char, ascii_of_nat. apply N_ascii_embedding. lia.
Qed.

Lemma compare_digit_char (d1 d2 : nat) :
  d1 < 10 -> d2 < 10 ->
  Ascii.compare (Py.digit_char d1) (Py.digit_char d2) = Nat.compare d1 d2.
Proof.
  intros H1 H2. unfold Ascii.compare.
  rewrite (digit_char_code d1 H1), (digit_char_code d2 H2), <- Nat2N.inj_compare.
  destruct (Nat.compare_spec d1 d2) as [E|E|E].
  - subst. apply Nat.compare_refl.
  - apply Nat.compare_lt_iff. lia.
  - apply Nat.compare_gt_iff. lia.
Qed.

(** Three decimal digits compare as the numbers they spell. *)
Lemma compare_three_digits (a b : nat) :
  a < 1000 -> b < 1000 ->
  match Nat.compare (a / 100) (b / 100) with
  | Eq => match Nat.compare (a / 10 mod 10) (b / 10 mod 10) with
          | Eq => Nat.compare (a mod 10) (b mod 10)
          | c => c
          end
  | c => c
  end = Nat.compare a b.
Proof.
  intros Ha Hb.
  pose proof (Nat.div_mod_eq a 10) as A1. pose proof (Nat.div_mod_eq (a / 10) 10) as A2.
  pose proof (Nat.div_mod_eq b 10) as B1. pose proof (Nat.div_mod_eq (b / 10) 10) as B2.
  pose proof (Nat.mod_upper_bound a 10) as A3.
  pose proof (Nat.mod_upper_bound (a / 10) 10) as A4.
  pose proof (Nat.mod_upper_bound b 10) as B3.
  pose proof (Nat.mod_upper_bound (b / 10) 10) as B4.
  rewrite Nat.Div0.div_div in A2, B2. change (10 * 10) with 100 in A2, B2.
  symmetry.
  destruct (Nat.compare_spec (a / 100) (b / 100)) as [E|E|E];
    [destruct (Nat.compare_spec (a / 10 mod 10) (b / 10 mod 10)) as [F|F|F];
       [destruct (Nat.compare_spec (a mod 10) (b mod 10)) as [G|G|G]| |]| |];
    first [apply Nat.compare_eq_iff | apply Nat.compare_lt_iff | apply Nat.compare_gt_iff];
    lia.
Qed.

Lemma compare_ascii_refl (c : ascii) : Ascii.compare c c = Eq.
Proof. unfold Ascii.compare. apply N.compare_refl. Qed.

Lemma compare_string_refl (s : string) : String.compare s s = Eq.
Proof.
  induction s as [|c s IH]; [reflexivity|].
  cbn [String.compare]. rewrite compare_ascii_refl. exact IH.
Qed.

Lemma compare_prefix (p s1 s2 : string) :
  String.compare (p ++ s1) (p ++ s2) = String.compare s1 s2.
Proof.
  induction p as [|c p IH]; [reflexivity|].
  cbn [append String.compare]. rewrite compare_ascii_refl. exact IH.
Qed.

(** The name of an image, below 1000. *)
Lemma image_name_digits (n : nat) :
  n < 1000 ->
  image_name n =
  ("img" ++
   String (Py.digit_char (n / 100))
     (String (Py.digit_char (n / 10 mod 10))
        (String (Py.digit_char (n mod 10)) ".png")))%string.
Proof.
  intros Hn. unfold image_name. rewrite (format_03d n Hn). reflexivity.
Qed.

(** C5, as stated, fails.  Pair 1000 is named [img1000.png], which
    sorts before [img999.png]: the video assembler's [sorted] puts
    frame 1000 ahead of frame 999. *)
Lemma C5_counterexample :
  image_name 999 = "img999.png"%string /\
  image_name 1000 = "img1000.png"%string /\
  String.compare (image_name 1000) (image_name 999) = Lt /\
  Nat.compare 1000 999 = Gt /\
  Py.sorted [image_name 999; image_name 1000] = [image_name 1000; image_name 999].
Proof. repeat split; vm_compute; reflexivity. Qed.

(** C5, amended.  The name of an image carries the base frame index
    of its window in decimal, padded with zeros to the fixed width 3;
    for base frame indices below 1000 the names are ordered
    lexicographically as the indices are ordered numerically. *)
Theorem C5_file_name_order (i j : nat) :
  i < 1000 -> j < 1000 ->
  image_name i =
    ("img" ++ string_of_list_ascii
                [Py.digit_char (i / 100); Py.digit_char (i / 10 mod 10);
                 Py.digit_char (i mod 10)] ++ ".png")%string /\
  String.compare (image_name i) (image_name j) = Nat.compare i j.
Proof.
  intros Hi Hj. split; [rewrite (image_name_digits i Hi); reflexivity|].
  rewrite (image_name_digits i Hi), (image_name_digits j Hj), compare_prefix.
  cbn [String.compare].
  assert (forall n, n < 1000 -> n / 100 < 10) as D2
    by (intros n Hn; apply Nat.Div0.div_lt_upper_bound; lia).
  assert (forall n, n / 10 mod 10 < 10) as D1
    by (intros n; apply Nat.mod_upper_bound; lia).
  assert (forall n, n mod 10 < 10) as D0
    by (intros n; apply Nat.mod_upper_bound; lia).
  rewrite !compare_digit_char by auto.
  rewrite <- (compare_three_digits i j Hi Hj).
  destruct (Nat.compare (i / 100) (j / 100)); try reflexivity.
  destruct (Nat.compare (i / 10 mod 10) (j / 10 mod 10)); try reflexivity.
  destruct (Nat.compare (i mod 10) (j mod 10)); reflexivity.
Qed.

Lemma C5_file_name_order_witness :
  7 < 1000 /\ 12 < 1000 /\
  String.compare (image_name 7) (image_name 12) = Nat.compare 7 12.
Proof.
  split; [lia|]. split; [lia|].
  apply (C5_file_name_order 7 12); lia.
Defined.

End FileNames.

(* ================================================================== *)
(** * Part XV.  The video assembler                                 *)
(* ================================================================== *)

Section AssemblerFacts.
Import CreateVideo.
Variable Image : Type.
Variable shape : Image -> nat * nat * nat.

Lemma warnings_app (out1 out2 : list Message) :
  warnings (out1 ++ out2) = warnings out1 ++ warnings out2.
Proof. unfold warnings. apply flat_map_app. Qed.

Lemma write_frames_spec (disk : Disk Image) (files : list string) :
  forall (i total : nat) (events : list (WriterEvent Image)) (out : list Message),
    exists out',
      write_frames disk files i total events out =
        (events ++ map (@WriterWrite Image) (decoded Image disk files), out') /\
      warnings out' = warnings out ++ undecodable Image disk files.
Proof.
  induction files as [|f files IH]; intros i total events out.
  - exists out. cbn. rewrite !app_nil_r. split; reflexivity.
  - cbn [write_frames decoded undecodable flat_map filter].
    destruct (imread disk f) as [frame|].
    + destruct (IH (S i) total (events ++ [WriterWrite frame])
                  (out ++ [MsgProgress (i + 1) total])) as [out' [E W]].
      exists out'. rewrite E, W, warnings_app, <- !app_assoc. cbn.
      rewrite ?app_nil_r. split; reflexivity.
    + destruct (IH (S i) total events (out ++ [WarnSkipped f])) as [out' [E W]].
      exists out'. rewrite E, W, warnings_app, <- !app_assoc. cbn.
      split; reflexivity.
Qed.

Lemma sorted_is_sorted (l : list string) :
  LocallySorted (fun s1 s2 => String.leb s1 s2 = true) (Py.sorted l) /\
  Permutation l (Py.sorted l).
Proof.
  split.
  - exact (Py.StringSort.LocallySorted_sort l).
  - exact (Py.StringSort.Permuted_sort l).
Qed.

End AssemblerFacts.

Section AssemblerClaims.
Import CreateVideo.

Lemma decoded_undecodable_length (Image : Type) (disk : Disk Image) (files : list string) :
  List.length (decoded Image disk files) + List.length (undecodable Image disk files)
  = List.length files.
Proof.
  induction files as [|f files IH]; [reflexivity|].
  cbn [decoded undecodable flat_map filter]. fold (decoded Image disk files).
  fold (undecodable Image disk files).
  destruct (imread disk f); cbn [app List.length]; lia.
Qed.

(** The path on which the writer is opened. *)
Lemma create_video_writes (Image : Type) (shape : Image -> nat * nat * nat)
  (disk : Disk Image) (image_folder output_folder : string) (fps : Z)
  (image_pattern : string) (output_filename : option string)
  (first : string) (rest : list string) (frame : Image) :
  Py.sorted (glob disk (Py.os_path_join image_folder image_pattern)) = first :: rest ->
  imread disk first = Some frame ->
  exists video_name size,
    writer_log (create_video_from_images shape disk image_folder output_folder fps
                  image_pattern output_filename)
      = WriterOpen Image video_name "mp4v" fps size
        :: map (@WriterWrite Image) (decoded Image disk (first :: rest))
        ++ [WriterRelease Image] /\
    warnings (console (create_video_from_images shape disk image_folder
                         output_folder fps image_pattern output_filename))
      = undecodable Image disk (first :: rest).
Proof.
  intros E Hf. unfold create_video_from_images. rewrite E, Hf.
  destruct (shape frame) as [[height width] layers].
  match goal with
  | |- context [write_frames disk ?fs ?i ?t ?ev ?out] =>
      destruct (write_frames_spec Image disk fs i t ev out) as [out' [Ew W]];
        rewrite Ew
  end.
  eexists. eexists. cbn [writer_log console]. split.
  - rewrite <- app_assoc. reflexivity.
  - rewrite warnings_app, W. cbn. rewrite app_nil_r. reflexivity.
Qed.

(** C9.  [create_video_from_images] reads the matching files in
    lexically sorted order.  When no file matches, it creates no
    video (the writer is never opened) and prints the no-match error.
    When the first file of the sorted list decodes, it opens the
    writer, writes the decoded image of every matching file that
    decodes, one frame each and in sorted order, prints a warning for
    every file that does not decode and carries on, and releases the
    writer. *)
Theorem C9_video_assembly (Image : Type) (shape : Image -> nat * nat * nat)
  (disk : Disk Image) (image_folder output_folder : string) (fps : Z)
  (image_pattern : string) (output_filename : option string) :
  LocallySorted (fun s1 s2 => String.leb s1 s2 = true)
    (Py.sorted (glob disk (Py.os_path_join image_folder image_pattern))) /\
  Permutation (glob disk (Py.os_path_join image_folder image_pattern))
    (Py.sorted (glob disk (Py.os_path_join image_folder image_pattern))) /\
  (glob disk (Py.os_path_join image_folder image_pattern) = [] ->
     writer_log (create_video_from_images shape disk image_folder output_folder fps
                   image_pattern output_filename) = [] /\
     console (create_video_from_images shape disk image_folder output_folder fps
                image_pattern output_filename)
       = [ErrNoMatch image_folder image_pattern]) /\
  (forall first rest frame,
     Py.sorted (glob disk (Py.os_path_join image_folder image_pattern)) = first :: rest ->
     imread disk first = Some frame ->
     exists video_name size,
       writer_log (create_video_from_images shape disk image_folder output_folder fps
                     image_pattern output_filename)
         = WriterOpen Image video_name "mp4v" fps size
           :: map (@WriterWrite Image) (decoded Image disk (first :: rest))
           ++ [WriterRelease Image] /\
       warnings (console (create_video_from_images shape disk image_folder
                            output_folder fps image_pattern output_filename))
         = undecodable Image disk (first :: rest) /\
       List.length (decoded Image disk (first :: rest))
       + List.length (undecodable Image disk (first :: rest))
         = List.length (glob disk (Py.os_path_join image_folder image_pattern))).
Proof.
  destruct (sorted_is_sorted (glob disk (Py.os_path_join image_folder image_pattern)))
    as [HS HP].
  split; [exact HS|]. split; [exact HP|]. split.
  - intros E. unfold create_video_from_images. rewrite E. split; reflexivity.
  - intros first rest frame E Hf.
    destruct (create_video_writes Image shape disk image_folder output_folder fps
                image_pattern output_filename first rest frame E Hf)
      as [name [size [W1 W2]]].
    exists name, size. split; [exact W1|]. split; [exact W2|].
    rewrite decoded_undecodable_length, <- E. symmetry.
    apply Permutation_length, HP.
Qed.

Lemma C9_video_assembly_witness :
  glob Synthetic.empty_disk (Py.os_path_join "out" "img*.png") = [] /\
  console (create_video_from_images Synthetic.shape Synthetic.empty_disk
             "out" "video" 30 "img*.png" None)
    = [ErrNoMatch "out" "img*.png"] /\
  Py.sorted (glob Synthetic.disk (Py.os_path_join "out" "img*.png"))
    = ["out/img001.png"; "out/img002.png"; "out/img003.png"]%string /\
  imread Synthetic.disk "out/img001.png" = Some (480, 640, 3) /\
  warnings (console (create_video_from_images Synthetic.shape Synthetic.disk
                       "out" "video" 30 "img*.png" None))
    = ["out/img002.png"%string].
Proof.
  pose proof (C9_video_assembly _ Synthetic.shape Synthetic.empty_disk
                "out" "video" 30 "img*.png" None) as [_ [_ [H0 _]]].
  pose proof (C9_video_assembly _ Synthetic.shape Synthetic.disk
                "out" "video" 30 "img*.png" None) as [_ [_ [_ H1]]].
  split; [reflexivity|]. split; [apply H0; reflexivity|].
  split; [vm_compute; reflexivity|]. split; [reflexivity|].
  destruct (H1 "out/img001.png"%string ["out/img002.png"; "out/img003.png"]%string
              (480, 640, 3)) as [name [size [_ [W _]]]].
  - vm_compute; reflexivity.
  - reflexivity.
  - rewrite W. vm_compute. reflexivity.
Defined.

(** C10.  The capture handle of [analyze_and_save_frames] is
    released, once and after its last read, both when the function
    leaves early for want of frames and when the first pass runs to
    its end; and the writer handle of [create_video_from_images] is
    released, once, after the last frame has been written. *)
Theorem C10_handles_released :
  (forall (C : PivAnalysis.Collaborators) (a : PivAnalysis.Args),
     PivAnalysis.isOpened (PivAnalysis.video_path a) = true ->
     List.length (PivAnalysis.footage (PivAnalysis.video_path a))
       < PivAnalysis.frame_comparison_step a + 1 ->
     exists reads,
       PivAnalysis.capture_log (PivAnalysis.analyze_and_save_frames a)
         = map PivAnalysis.CapRead reads ++ [PivAnalysis.CapRelease]) /\
  (forall (C : PivAnalysis.Collaborators) (a : PivAnalysis.Args),
     PivAnalysis.isOpened (PivAnalysis.video_path a) = true ->
     collaborators_well_shaped a ->
     PivAnalysis.frame_comparison_step a
       < List.length (PivAnalysis.footage (PivAnalysis.video_path a)) ->
     exists reads,
       PivAnalysis.capture_log (PivAnalysis.analyze_and_save_frames a)
         = map PivAnalysis.CapRead reads ++ [PivAnalysis.CapRelease]) /\
  (forall (Image : Type) (shape : Image -> nat * nat * nat) (disk : Disk Image)
          (image_folder output_folder : string) (fps : Z) (image_pattern : string)
          (output_filename : option string) (first : string) (rest : list string)
          (frame : Image),
     Py.sorted (glob disk (Py.os_path_join image_folder image_pattern)) = first :: rest ->
     imread disk first = Some frame ->
     exists video_name size frames,
       writer_log (create_video_from_images shape disk image_folder output_folder fps
                     image_pattern output_filename)
         = WriterOpen Image video_name "mp4v" fps size
           :: map (@WriterWrite Image) frames ++ [WriterRelease Image]).
Proof.
  split; [|split].
  - intros C a Hopen Hk.
    destruct (run_not_enough_frames a Hopen) as [out E]; [lia|].
    rewrite E. cbn [PivAnalysis.capture_log].
    exists (repeat true (List.length (PivAnalysis.footage (PivAnalysis.video_path a)))
            ++ repeat false
                 (PivAnalysis.frame_comparison_step a + 1
                  - List.length (PivAnalysis.footage (PivAnalysis.video_path a)))).
    rewrite map_app, !map_repeat. reflexivity.
  - intros C a Hopen Hc Hk.
    destruct (run_enough_frames a Hopen Hc Hk) as [st [_ [_ [_ [_ [_ [_ [_ [E _]]]]]]]]].
    rewrite E.
    exists (repeat true (List.length (PivAnalysis.footage (PivAnalysis.video_path a)))
            ++ [false]).
    rewrite map_app, map_repeat, <- app_assoc. reflexivity.
  - intros Image shape disk image_folder output_folder fps image_pattern
           output_filename first rest frame E Hf.
    destruct (create_video_writes Image shape disk image_folder output_folder fps
                image_pattern output_filename first rest frame E Hf)
      as [name [size [W _]]].
    exists name, size, (decoded Image disk (first :: rest)). exact W.
Qed.

End AssemblerClaims.

(* ================================================================== *)
(** * Part XVI.  The orchestrating script                           *)
(* ================================================================== *)

Section MainClaims.
Import Main.
Variable project_root : string.
Variable analyze_body : list (string * json) -> Py.result unit.
Variable create_video_body : list (string * json) -> Py.result unit.

(** The keyword [piv_params] is not a parameter of
    [analyze_and_save_frames]. *)
Lemma piv_params_not_accepted : accepts analyze_and_save_frames_sig "piv_params" = false.
Proof. reflexivity. Qed.

(** Whatever the values passed, binding the keywords of the call at
    lines 101 to 110 raises TypeError, and the body is not entered. *)
Lemma piv_call_rejected (video_path output_dir piv_params : json)
  (kwargs : list (string * json)) :
  piv_kwargs video_path output_dir piv_params = Py.Ok kwargs ->
  call analyze_and_save_frames_sig analyze_body kwargs = (Py.Raise Py.TypeError, false).
Proof.
  unfold piv_kwargs, get. destruct (has_get piv_params) as [d|e]; [|discriminate].
  cbn [Py.bind]. intros E. injection E as <-. reflexivity.
Qed.

Lemma piv_stage_rejected (execution_params : json) :
  exists e, piv_stage project_root analyze_body execution_params = (Py.Raise e, false).
Proof.
  unfold piv_stage.
  destruct (getitem execution_params (JStr "piv_analysis")) as [piv_params|e];
    cbn [Py.bind]; [|eexists; reflexivity].
  destruct (getitem piv_params (JStr "video_path")) as [v|e];
    cbn [Py.bind]; [|eexists; reflexivity].
  destruct (join_root project_root v) as [video_path|e];
    cbn [Py.bind]; [|eexists; reflexivity].
  destruct (getitem piv_params (JStr "output_dir")) as [o|e];
    cbn [Py.bind]; [|eexists; reflexivity].
  destruct (join_root project_root o) as [output_dir|e];
    cbn [Py.bind]; [|eexists; reflexivity].
  destruct (piv_kwargs video_path output_dir piv_params) as [kwargs|e] eqn:E;
    [|eexists; reflexivity].
  rewrite (piv_call_rejected _ _ _ _ E). eexists; reflexivity.
Qed.

(** With a well-formed [piv_analysis] block the call is reached, and
    the exception is the TypeError of the call. *)
Lemma piv_stage_type_error (execution_params : json)
  (d : list (string * json)) (v o : string) :
  getitem execution_params (JStr "piv_analysis") = Py.Ok (JDict d) ->
  lookup "video_path" d = Some (JStr v) ->
  lookup "output_dir" d = Some (JStr o) ->
  piv_stage project_root analyze_body execution_params = (Py.Raise Py.TypeError, false).
Proof.
  intros E Hv Ho. unfold piv_stage. rewrite E. cbn [Py.bind getitem].
  rewrite Hv, Ho. cbn [Py.bind join_root].
  destruct (piv_kwargs (JStr (Py.os_path_join project_root v))
              (JStr (Py.os_path_join project_root o)) (JDict d)) as [kwargs|e] eqn:K.
  - apply (piv_call_rejected _ _ _ _ K).
  - unfold piv_kwargs, get in K. cbn [has_get Py.bind] in K. discriminate.
Qed.

(** C1.  For every configuration that reaches section 5 of [main]
    with a truthy [piv_analysis] flag, the process exits with status
    1 and the body of [analyze_and_save_frames] is never entered, so
    no frame pair is analyzed and no video is assembled: the call
    passes the keyword [piv_params], which the signature does not
    accept, and so raises TypeError whatever the values passed.  When
    the [piv_analysis] block is a dict with string paths, the call is
    reached and the generic handler reports that TypeError as the last
    line printed. *)
Theorem C1_piv_stage_always_fails (args_config : option string)
  (config_data config_key execution_params exec_flags flag : json) :
  config_key_of args_config config_data = Py.Ok config_key ->
  exec_flags_of config_data config_key = Py.Ok (execution_params, exec_flags) ->
  get exec_flags "piv_analysis" (JBool false) = Py.Ok flag ->
  truthy flag = true ->
  accepts analyze_and_save_frames_sig "piv_params" = false /\
  (forall video_path output_dir piv_params kwargs,
     piv_kwargs video_path output_dir piv_params = Py.Ok kwargs ->
     In "piv_params"%string (map fst kwargs) /\
     call analyze_and_save_frames_sig analyze_body kwargs
       = (Py.Raise Py.TypeError, false)) /\
  exit_status (main project_root analyze_body create_video_body args_config
                 (Parsed config_data)) = 1%Z /\
  piv_entered (main project_root analyze_body create_video_body args_config
                 (Parsed config_data)) = false /\
  video_entered (main project_root analyze_body create_video_body args_config
                   (Parsed config_data)) = false /\
  (forall d v o,
     getitem execution_params (JStr "piv_analysis") = Py.Ok (JDict d) ->
     lookup "video_path" d = Some (JStr v) ->
     lookup "output_dir" d = Some (JStr o) ->
     last (console (main project_root analyze_body create_video_body args_config
                      (Parsed config_data))) MsgPipelineFinished
       = ErrPivUnexpected Py.TypeError).
Proof.
  intros Hkey Hflags Hget Htruthy.
  split; [reflexivity|]. split.
  { intros video_path output_dir piv_params kwargs E.
    split; [|apply (piv_call_rejected _ _ _ _ E)].
    unfold piv_kwargs, get in E. destruct (has_get piv_params); [|discriminate].
    cbn [Py.bind] in E. injection E as <-. cbn. tauto. }
  unfold main. rewrite Hkey, Hflags. unfold main_piv. rewrite Hget, Htruthy.
  destruct (piv_stage_rejected execution_params) as [e E].
  split; [|split; [|split]].
  - rewrite E. destruct e; reflexivity.
  - rewrite E. destruct e; reflexivity.
  - rewrite E. destruct e; reflexivity.
  - intros d v o Hd Hv Ho.
    rewrite (piv_stage_type_error execution_params d v o Hd Hv Ho).
    unfold stop. cbn [console]. apply last_last.
Qed.

End MainClaims.

(* ================================================================== *)
(** * Part XVII.  The theorems at work on the synthetic laboratory  *)
(* ================================================================== *)

Section Witnesses.
Import Float64 Numpy.

Lemma C1_piv_stage_always_fails_witness :
  Main.config_key_of None Synthetic.config = Py.Ok (Main.JStr "test01") /\
  Main.truthy (Main.JBool true) = true /\
  Main.exit_status
    (Main.main "/repo" (fun _ => Py.Ok tt) (fun _ => Py.Ok tt) None
       (Main.Parsed Synthetic.config)) = 1%Z /\
  Main.piv_entered
    (Main.main "/repo" (fun _ => Py.Ok tt) (fun _ => Py.Ok tt) None
       (Main.Parsed Synthetic.config)) = false.
Proof.
  split; [reflexivity|]. split; [reflexivity|].
  destruct (Main.exec_flags_of Synthetic.config (Main.JStr "test01"))
    as [[execution_params exec_flags]|e] eqn:E; [|vm_compute in E; discriminate].
  destruct (C1_piv_stage_always_fails "/repo" (fun _ => Py.Ok tt) (fun _ => Py.Ok tt)
              None Synthetic.config (Main.JStr "test01") execution_params exec_flags
              (Main.JBool true) eq_refl E) as [_ [_ [H1 [H2 _]]]].
  - vm_compute in E. injection E as <- <-. reflexivity.
  - reflexivity.
  - split; assumption.
Defined.

Lemma C8_window_of_one_witness :
  PivAnalysis.moving_average_window (Synthetic.args [] 1 1 "mean") = 1 /\
  nth_error [Synthetic.field_with_gaps] 0 = Some Synthetic.field_with_gaps /\
  scaling_keeps_shape (Synthetic.args [] 1 1 "mean") /\
  Forall (fun c => valid c = true) (PivAnalysis.d_u Synthetic.field_with_gaps) /\
  Forall (fun c => valid c = true) (PivAnalysis.d_v Synthetic.field_with_gaps) /\
  exists aggregated_u,
    PivAnalysis.aggregate (Synthetic.args [] 1 1 "mean")
      [PivAnalysis.d_u Synthetic.field_with_gaps] = Py.Ok aggregated_u /\
    Forall2 (window_of_one (Synthetic.args [] 1 1 "mean"))
      (PivAnalysis.d_u Synthetic.field_with_gaps) aggregated_u.
Proof.
  assert (scaling_keeps_shape (Synthetic.args [] 1 1 "mean")) as Hs
    by (apply (synthetic_well_shaped [] 1 1 "mean"); constructor).
  assert (Forall (fun c => valid c = true) (PivAnalysis.d_u Synthetic.field_with_gaps))
    as Hu by (repeat constructor).
  assert (Forall (fun c => valid c = true) (PivAnalysis.d_v Synthetic.field_with_gaps))
    as Hv by (repeat constructor).
  split; [reflexivity|]. split; [reflexivity|]. split; [exact Hs|].
  split; [exact Hu|]. split; [exact Hv|].
  destruct (C8_window_of_one (Synthetic.args [] 1 1 "mean") [] [] [] []
              Synthetic.five "pixels" [Synthetic.field_with_gaps] 0
              Synthetic.field_with_gaps eq_refl eq_refl Hs eq_refl Hu Hv)
    as [_ [au [av [Eu [_ [Ku _]]]]]].
  exists au. split; [exact Eu|exact Ku].
Defined.

Lemma C10_handles_released_witness :
  (PivAnalysis.isOpened
     (PivAnalysis.video_path
        (Synthetic.args [Synthetic.cell Synthetic.one Synthetic.one] 1 1 "mean")) = true /\
   exists reads,
     PivAnalysis.capture_log
       (PivAnalysis.analyze_and_save_frames
          (Synthetic.args [Synthetic.cell Synthetic.one Synthetic.one] 1 1 "mean"))
     = map PivAnalysis.CapRead reads ++ [PivAnalysis.CapRelease]) /\
  (collaborators_well_shaped (Synthetic.args Synthetic.five_frames 1 1 "mean") /\
   exists reads,
     PivAnalysis.capture_log
       (PivAnalysis.analyze_and_save_frames
          (Synthetic.args Synthetic.five_frames 1 1 "mean"))
     = map PivAnalysis.CapRead reads ++ [PivAnalysis.CapRelease]) /\
  (CreateVideo.imread Synthetic.disk "out/img001.png" = Some (480, 640, 3) /\
   exists video_name size frames,
     CreateVideo.writer_log
       (CreateVideo.create_video_from_images Synthetic.shape Synthetic.disk
          "out" "video" 30 "img*.png" None)
     = CreateVideo.WriterOpen _ video_name "mp4v" 30 size
       :: map (@CreateVideo.WriterWrite _) frames ++ [CreateVideo.WriterRelease _]).
Proof.
  destruct C10_handles_released as [H1 [H2 H3]].
  split; [split; [reflexivity|]|split; [split|split; [reflexivity|]]].
  - apply (H1 Synthetic.collaborators
              (Synthetic.args [Synthetic.cell Synthetic.one Synthetic.one] 1 1 "mean"));
      [reflexivity|vm_compute; lia].
  - apply synthetic_well_shaped, five_frames_usable.
  - apply (H2 Synthetic.collaborators (Synthetic.args Synthetic.five_frames 1 1 "mean"));
      [reflexivity|apply synthetic_well_shaped, five_frames_usable|vm_compute; lia].
  - apply (H3 _ Synthetic.shape Synthetic.disk "out"%string "video"%string 30%Z
              "img*.png"%string None
              "out/img001.png"%string ["out/img002.png"; "out/img003.png"]%string
              (480, 640, 3));
      [vm_compute; reflexivity|reflexivity].
Defined.

(** The scenarios of the specification, run on the laboratory. *)

Example scenario_stride_1_window_1 :
  List.length
    (PivAnalysis.analyzed
       (PivAnalysis.analyze_and_save_frames
          (Synthetic.args Synthetic.five_frames 1 1 "mean"))) = 4 /\
  map fst
    (PivAnalysis.images
       (PivAnalysis.analyze_and_save_frames
          (Synthetic.args Synthetic.five_frames 1 1 "mean")))
  = ["img001.png"; "img002.png"; "img003.png"; "img004.png"]%string.
Proof. split; vm_compute; reflexivity. Qed.

Example scenario_stride_1_window_3 :
  List.length
    (PivAnalysis.analyzed
       (PivAnalysis.analyze_and_save_frames
          (Synthetic.args Synthetic.five_frames 1 3 "mean"))) = 4 /\
  map fst
    (PivAnalysis.images
       (PivAnalysis.analyze_and_save_frames
          (Synthetic.args Synthetic.five_frames 1 3 "mean")))
  = ["img001.png"; "img002.png"]%string.
Proof. split; vm_compute; reflexivity. Qed.

Example scenario_stride_2_window_2 :
  map (fun p => PivAnalysis.plot_title (snd p))
    (PivAnalysis.images
       (PivAnalysis.analyze_and_save_frames
          (Synthetic.args Synthetic.five_frames 2 2 "median")))
  = [PivAnalysis.AggregatedField "Median" 2 1;
     PivAnalysis.AggregatedField "Median" 2 2].
Proof. vm_compute. reflexivity. Qed.

Example scenario_assembler :
  CreateVideo.writer_log
    (CreateVideo.create_video_from_images Synthetic.shape Synthetic.disk
       "out" "video" 10 "img*.png" (Some "smoke.mp4"%string))
  = [CreateVideo.WriterOpen _ "video/smoke.mp4" "mp4v" 10 (640, 480);
     CreateVideo.WriterWrite (480, 640, 3);
     CreateVideo.WriterWrite (480, 640, 3);
     CreateVideo.WriterRelease _] /\
  CreateVideo.writer_log
    (CreateVideo.create_video_from_images Synthetic.shape Synthetic.empty_disk
       "out" "video" 10 "img*.png" None) = [].
Proof. split; vm_compute; reflexivity. Qed.

Example scenario_main_rejects_call :
  Main.console
    (Main.main "/repo" (fun _ => Py.Ok tt) (fun _ => Py.Ok tt) None
       (Main.Parsed Synthetic.config))
  = [Main.MsgUsingConfiguration (Main.JStr "test01"); Main.MsgInitiatingPiv;
     Main.ErrPivUnexpected Py.TypeError].
Proof. vm_compute. reflexivity. Qed.

End Witnesses.

(* ================================================================== *)
(** * Part XVIII.  The configuration text                           *)
(* ================================================================== *)

Section JsoncFacts.
Import Jsonc.

Lemma sub_from_newlines (b : bool) (s : string) :
  has_newline (sub_from b s) = true -> has_newline s = true.
Proof.
  revert b. induction s as [|c s IH]; intros b; cbn [sub_from has_newline].
  - destruct b; intros H; exact H.
  - destruct b.
    + destruct (Ascii.eqb c newline) eqn:E; [reflexivity|].
      cbn [orb]. apply IH.
    + destruct (Ascii.eqb c "/" && Py.starts_with_slash s && has_newline s) eqn:Em.
      * intros H. apply IH in H. rewrite H. apply orb_true_r.
      * cbn [has_newline]. destruct (Ascii.eqb c newline); [reflexivity|].
        cbn [orb]. apply IH.
Qed.

Lemma sub_from_slash (s : string) :
  Py.starts_with_slash (sub_from false s) = true -> Py.starts_with_slash s = true.
Proof.
  destruct s as [|c s]; cbn [sub_from]; [intros H; exact H|].
  destruct (Ascii.eqb c "/" && Py.starts_with_slash s && has_newline s) eqn:Em.
  - intros _. apply andb_prop in Em. destruct Em as [Em _].
    apply andb_prop in Em. destruct Em as [Em _]. exact Em.
  - intros H. exact H.
Qed.

Lemma sub_from_idem (b : bool) (s : string) :
  sub_from false (sub_from b s) = sub_from b s.
Proof.
  revert b. induction s as [|c s IH]; intros b; cbn [sub_from].
  - destruct b; reflexivity.
  - destruct b.
    + destruct (Ascii.eqb c newline) eqn:E; [|apply IH].
      cbn [sub_from]. change (Ascii.eqb newline "/") with false.
      cbn [andb]. rewrite IH. reflexivity.
    + destruct (Ascii.eqb c "/" && Py.starts_with_slash s && has_newline s) eqn:Em;
        [apply IH|].
      cbn [sub_from].
      destruct (Ascii.eqb c "/" && Py.starts_with_slash (sub_from false s)
                && has_newline (sub_from false s)) eqn:Em'.
      * exfalso. apply andb_prop in Em'. destruct Em' as [Em' H3].
        apply andb_prop in Em'. destruct Em' as [H1 H2].
        apply sub_from_slash in H2. apply sub_from_newlines in H3.
        rewrite H1, H2, H3 in Em. discriminate.
      * rewrite IH. reflexivity.
Qed.

Lemma sub_from_count (b : bool) (s : string) :
  count_newlines (sub_from b s) = count_newlines s.
Proof.
  revert b. induction s as [|c s IH]; intros b; cbn [sub_from count_newlines].
  - destruct b; reflexivity.
  - destruct b.
    + destruct (Ascii.eqb c newline) eqn:E.
      * cbn [count_newlines]. change (Ascii.eqb newline newline) with true.
        rewrite IH. reflexivity.
      * rewrite IH. reflexivity.
    + destruct (Ascii.eqb c "/" && Py.starts_with_slash s && has_newline s) eqn:Em.
      * apply andb_prop in Em. destruct Em as [Em _].
        apply andb_prop in Em. destruct Em as [Em _].
        apply Ascii.eqb_eq in Em. subst c.
        change (Ascii.eqb "/" newline) with false. rewrite IH. reflexivity.
      * cbn [count_newlines]. rewrite IH. reflexivity.
Qed.

(** X1.  Once the comments are stripped, no comment that a newline
    ends is left in the text: stripping a second time changes
    nothing. *)
Theorem X1_no_comment_left (text : string) :
  strip_comments (strip_comments text) = strip_comments text.
Proof. apply sub_from_idem. Qed.

(** X2.  Stripping the comments keeps the number of newlines: every
    line of the configuration keeps its line number, as the messages
    of [json.loads] report it. *)
Theorem X2_lines_kept (text : string) :
  count_newlines (strip_comments text) = count_newlines text.
Proof. apply sub_from_count. Qed.

Lemma sub_from_outside (c : ascii) (s : string) :
  sub_from false (String c s)
  = if Ascii.eqb c "/" && Py.starts_with_slash s && has_newline s
    then sub_from true s else String c (sub_from false s).
Proof. reflexivity. Qed.

Lemma sub_from_inside (c : ascii) (s : string) :
  sub_from true (String c s)
  = if Ascii.eqb c newline then String newline (sub_from false s)
    else sub_from true s.
Proof. reflexivity. Qed.

Lemma sub_from_skip (c r : string) :
  has_newline c = false ->
  sub_from true (c ++ String newline r) = String newline (sub_from false r).
Proof.
  intros H. induction c as [|a c IH]; cbn [append sub_from].
  - reflexivity.
  - cbn [has_newline] in H. apply orb_false_elim in H. destruct H as [H1 H2].
    rewrite H1. apply IH, H2.
Qed.

Lemma has_newline_app (c r : string) :
  has_newline (c ++ String newline r) = true.
Proof.
  induction c as [|a c IH]; cbn [append has_newline].
  - reflexivity.
  - rewrite IH. apply orb_true_r.
Qed.

(** X3.  What the substitution removes.  Where [//] is followed by
    [c] and a newline, and no [//] begins before it ([p] holds none
    and does not end in a slash), [//c] goes and the newline stays,
    whatever [p] is: the pattern knows nothing of JSON strings, and a
    [//] inside one, as in a URL, is cut like a comment.  The rest of
    the text is treated in the same way. *)
Theorem X3_comment_removed (p c r : string) :
  has_double_slash (p ++ "/") = false ->
  has_newline c = false ->
  strip_comments (p ++ "//" ++ c ++ String newline r)
  = (p ++ String newline (strip_comments r))%string.
Proof.
  unfold strip_comments. intros Hp Hc. induction p as [|a p IH].
  - change ("" ++ "//" ++ c ++ String newline r)%string
      with (String "/" (String "/" (c ++ String newline r))).
    rewrite sub_from_outside.
    change (Ascii.eqb "/" "/") with true.
    cbn [Py.starts_with_slash has_newline andb].
    change (Ascii.eqb "/" "/") with true.
    change (Ascii.eqb "/" newline) with false.
    rewrite has_newline_app. cbn [orb].
    rewrite sub_from_inside. change (Ascii.eqb "/" newline) with false.
    apply sub_from_skip, Hc.
  - cbn [append has_double_slash] in Hp. apply orb_false_elim in Hp.
    destruct Hp as [H1 H2].
    change (String a p ++ "//" ++ c ++ String newline r)%string
      with (String a (p ++ "//" ++ c ++ String newline r)).
    rewrite sub_from_outside.
    replace (Py.starts_with_slash (p ++ "//" ++ c ++ String newline r))
      with (Py.starts_with_slash (p ++ "/")).
    + rewrite H1. cbn [andb]. rewrite (IH H2). reflexivity.
    + destruct p; reflexivity.
Qed.

(** X4.  A text that holds no [//], and a text that holds no newline,
    come back unchanged: a comment on the last line, which no newline
    ends, is not removed. *)
Theorem X4_text_unchanged (text : string) :
  has_double_slash text = false \/ has_newline text = false ->
  strip_comments text = text.
Proof.
  unfold strip_comments. induction text as [|a s IH]; [reflexivity|].
  cbn [has_double_slash has_newline sub_from]. intros H.
  assert (Ascii.eqb a "/" && Py.starts_with_slash s && has_newline s = false) as E.
  { destruct H as [H | H]; apply orb_false_elim in H; destruct H as [H1 H2].
    - rewrite H1. reflexivity.
    - rewrite H2. apply andb_false_r. }
  rewrite E, IH; [reflexivity|].
  destruct H as [H | H]; apply orb_false_elim in H; destruct H as [H1 H2]; auto.
Qed.

End JsoncFacts.

(* ================================================================== *)
(** * Part XIX.  More of the orchestrating script                   *)
(* ================================================================== *)

Section MainFurther.
Import Main.
Variable project_root : string.
Variable analyze_body : list (string * json) -> Py.result unit.
Variable create_video_body : list (string * json) -> Py.result unit.

Lemma video_kwargs_bind (image_folder output_folder video_params : json)
  (kwargs : list (string * json)) :
  video_kwargs image_folder output_folder video_params = Py.Ok kwargs ->
  bind_kwargs create_video_from_images_sig kwargs = Py.Ok kwargs.
Proof.
  unfold video_kwargs, get. destruct (has_get video_params) as [d|e]; [|discriminate].
  cbn [Py.bind]. intros E. injection E as <-. reflexivity.
Qed.

(** X5.  The video stage of [main] on its own.  With a falsy
    [piv_analysis] flag and a truthy [create_video] flag, and string
    output directories in the two sections, the keywords of the call
    at lines 131 to 137 are those of the signature of
    [create_video_from_images]: the body is entered, with the image
    folder and the output folder joined to the project root, and the
    process exits with 0 when the body returns and with 1 when it
    raises.  The body of the PIV function is not entered. *)
Theorem X5_video_stage_alone (args_config : option string)
  (config_data config_key execution_params exec_flags piv_flag video_flag : json)
  (d dv : list (string * json)) (o o' : string) :
  config_key_of args_config config_data = Py.Ok config_key ->
  exec_flags_of config_data config_key = Py.Ok (execution_params, exec_flags) ->
  get exec_flags "piv_analysis" (JBool false) = Py.Ok piv_flag ->
  truthy piv_flag = false ->
  get exec_flags "create_video" (JBool false) = Py.Ok video_flag ->
  truthy video_flag = true ->
  getitem execution_params (JStr "piv_analysis") = Py.Ok (JDict d) ->
  lookup "output_dir" d = Some (JStr o) ->
  getitem execution_params (JStr "create_video") = Py.Ok (JDict dv) ->
  lookup "output_dir" dv = Some (JStr o') ->
  exists kwargs,
    video_kwargs (JStr (Py.os_path_join project_root o))
                 (JStr (Py.os_path_join project_root o')) (JDict dv) = Py.Ok kwargs /\
    bind_kwargs create_video_from_images_sig kwargs = Py.Ok kwargs /\
    video_stage project_root create_video_body execution_params
      = (create_video_body kwargs, true) /\
    video_entered (main project_root analyze_body create_video_body args_config
                     (Parsed config_data)) = true /\
    piv_entered (main project_root analyze_body create_video_body args_config
                   (Parsed config_data)) = false /\
    exit_status (main project_root analyze_body create_video_body args_config
                   (Parsed config_data))
      = if Py.is_ok (create_video_body kwargs) then 0%Z else 1%Z.
Proof.
  intros Hkey Hflags Hp Hpf Hv Hvf Hd Ho Hdv Ho'.
  destruct (video_kwargs (JStr (Py.os_path_join project_root o))
              (JStr (Py.os_path_join project_root o')) (JDict dv)) as [kwargs|e] eqn:K;
    [|unfold video_kwargs, get in K; cbn [has_get Py.bind] in K; discriminate].
  exists kwargs. split; [reflexivity|].
  pose proof (video_kwargs_bind _ _ _ _ K) as B.
  split; [exact B|].
  assert (video_stage project_root create_video_body execution_params
          = (create_video_body kwargs, true)) as S.
  { unfold video_stage. rewrite Hd. cbn [Py.bind getitem]. rewrite Ho.
    cbn [Py.bind join_root]. rewrite Hdv. cbn [Py.bind getitem]. rewrite Ho'.
    cbn [Py.bind join_root]. rewrite K. unfold call. rewrite B. reflexivity. }
  split; [exact S|].
  unfold main. rewrite Hkey, Hflags. unfold main_piv. rewrite Hp, Hpf.
  unfold main_video. rewrite Hv, Hvf, S.
  destruct (create_video_body kwargs) as [u|e]; [repeat split|].
  destruct e; repeat split.
Qed.

(** X6.  The video stage needs the [piv_analysis] section even when
    the PIV stage is switched off: where the section, or its
    [output_dir], is missing, [main] prints the missing-parameter
    error of the video stage and exits with 1, and no video is
    assembled. *)
Theorem X6_video_stage_needs_piv_block (args_config : option string)
  (config_data config_key execution_params exec_flags piv_flag video_flag : json) :
  config_key_of args_config config_data = Py.Ok config_key ->
  exec_flags_of config_data config_key = Py.Ok (execution_params, exec_flags) ->
  get exec_flags "piv_analysis" (JBool false) = Py.Ok piv_flag ->
  truthy piv_flag = false ->
  get exec_flags "create_video" (JBool false) = Py.Ok video_flag ->
  truthy video_flag = true ->
  (getitem execution_params (JStr "piv_analysis") = Py.Raise Py.KeyError \/
   exists d, getitem execution_params (JStr "piv_analysis") = Py.Ok (JDict d) /\
             lookup "output_dir" d = None) ->
  main project_root analyze_body create_video_body args_config (Parsed config_data)
  = stop 1 [MsgUsingConfiguration config_key; MsgSkippingPiv; MsgInitiatingVideo;
            ErrVideoMissingParameter] false false.
Proof.
  intros Hkey Hflags Hp Hpf Hv Hvf H.
  unfold main. rewrite Hkey, Hflags. unfold main_piv. rewrite Hp, Hpf.
  unfold main_video. rewrite Hv, Hvf. unfold video_stage.
  destruct H as [E | [d [E Ho]]]; rewrite E; cbn [Py.bind getitem].
  - reflexivity.
  - rewrite Ho. reflexivity.
Qed.

Lemma last_app_two {A : Type} (l : list A) (x y d : A) :
  last (l ++ [x; y]) d = y.
Proof.
  change (l ++ [x; y]) with (l ++ [x] ++ [y]). rewrite app_assoc. apply last_last.
Qed.

Lemma main_video_status (execution_params exec_flags : json) (out : list Message)
  (piv : bool) :
  let run := main_video project_root create_video_body execution_params exec_flags out piv in
  piv_entered run = piv /\
  (exit_status run = 0%Z \/ exit_status run = 1%Z) /\
  (exit_status run = 0%Z ->
     exists out', console run = out ++ out' /\
                  last (console run) MsgInitiatingPiv = MsgPipelineFinished).
Proof.
  unfold main_video.
  destruct (get exec_flags "create_video" (JBool false)) as [flag|e].
  - destruct (truthy flag).
    + destruct (video_stage project_root create_video_body execution_params)
        as [[u|e] entered].
      * cbn. split; [reflexivity|]. split; [left; reflexivity|]. intros _.
        exists [MsgInitiatingVideo; MsgPipelineFinished].
        rewrite <- app_assoc. split; [reflexivity|]. apply last_app_two.
      * destruct e; cbn; (split; [reflexivity|]);
          (split; [right; reflexivity|]); intros H; discriminate.
    + cbn. split; [reflexivity|]. split; [left; reflexivity|]. intros _.
      exists [MsgSkippingVideo; MsgPipelineFinished]. split; [reflexivity|].
      apply last_app_two.
  - cbn. split; [reflexivity|]. split; [right; reflexivity|]. intros H; discriminate.
Qed.

(** X7.  Once the command line is parsed, whether [--config] was
    given or not and whether the configuration file is missing, is not
    JSON or was parsed to any value, the body of
    [analyze_and_save_frames] is never entered from [main]; the exit
    status is 0 or 1; and it is 0 only when the PIV stage was skipped,
    the closing banner being the last thing printed. *)
Theorem X7_success_means_piv_skipped (args_config : option string) (file : ConfigFile) :
  piv_entered (main project_root analyze_body create_video_body args_config file)
    = false /\
  (exit_status (main project_root analyze_body create_video_body args_config file) = 0%Z \/
   exit_status (main project_root analyze_body create_video_body args_config file) = 1%Z) /\
  (exit_status (main project_root analyze_body create_video_body args_config file) = 0%Z ->
     In MsgSkippingPiv
        (console (main project_root analyze_body create_video_body args_config file)) /\
     last (console (main project_root analyze_body create_video_body args_config file))
          MsgInitiatingPiv = MsgPipelineFinished).
Proof.
  unfold main. destruct file as [| |config_data].
  1-2: cbn; split; [reflexivity|]; split; [right; reflexivity|]; intros H; discriminate.
  destruct (config_key_of args_config config_data) as [config_key|e].
  2: destruct e; cbn; (split; [reflexivity|]); (split; [right; reflexivity|]);
       intros H; discriminate.
  destruct (exec_flags_of config_data config_key) as [[execution_params exec_flags]|e].
  2: destruct e; cbn; (split; [reflexivity|]); (split; [right; reflexivity|]);
       intros H; discriminate.
  unfold main_piv.
  destruct (get exec_flags "piv_analysis" (JBool false)) as [flag|e].
  2: cbn; split; [reflexivity|]; split; [right; reflexivity|]; intros H; discriminate.
  destruct (truthy flag).
  - destruct (piv_stage_rejected project_root analyze_body execution_params) as [e E].
    rewrite E.
    destruct e; cbn; (split; [reflexivity|]); (split; [right; reflexivity|]);
      intros H; discriminate.
  - destruct (main_video_status execution_params exec_flags
                ([MsgUsingConfiguration config_key] ++ [MsgSkippingPiv]) false)
      as [H1 [H2 H3]].
    split; [exact H1|]. split; [exact H2|]. intros H0.
    destruct (H3 H0) as [out' [Hc Hl]]. split; [|exact Hl].
    rewrite Hc. cbn. right. left. reflexivity.
Qed.

(** X8.  The default flags are read before they are needed (line 85
    evaluates the default of [get] first).  A configuration without
    [default_execution] ends [main] with status 1 and no stage run,
    whatever the command line; with [--config k] given and a profile
    [k] that carries its own [execution_function], the error printed
    is that the key [k] was not found. *)
Theorem X8_default_execution_always_read (args_config : option string)
  (c : list (string * json)) :
  lookup "default_execution" c = None ->
  exit_status (main project_root analyze_body create_video_body args_config
                 (Parsed (JDict c))) = 1%Z /\
  piv_entered (main project_root analyze_body create_video_body args_config
                 (Parsed (JDict c))) = false /\
  video_entered (main project_root analyze_body create_video_body args_config
                   (Parsed (JDict c))) = false /\
  (forall k es e flags,
     args_config = Some k -> k <> ""%string ->
     lookup "executions" c = Some (JDict es) ->
     lookup k es = Some (JDict e) ->
     lookup "execution_function" e = Some flags ->
     console (main project_root analyze_body create_video_body args_config
                (Parsed (JDict c)))
       = [MsgUsingConfiguration (JStr k); ErrKeyNotFound (JStr k)]).
Proof.
  intros Hd.
  assert (forall config_key,
            exists e, exec_flags_of (JDict c) config_key = Py.Raise e) as Hflags.
  { intros config_key. unfold exec_flags_of.
    destruct (getitem (JDict c) (JStr "executions")) as [executions|e];
      cbn [Py.bind]; [|eexists; reflexivity].
    destruct (getitem executions config_key) as [execution_params|e];
      cbn [Py.bind]; [|eexists; reflexivity].
    destruct (has_get execution_params) as [d|e]; cbn [Py.bind]; [|eexists; reflexivity].
    cbn [getitem]. rewrite Hd. cbn [Py.bind]. eexists; reflexivity. }
  assert (forall k, k <> ""%string ->
            config_key_of (Some k) (JDict c) = Py.Ok (JStr k)) as Hsome.
  { intros k Hk. unfold config_key_of. destruct (String.eqb_spec k ""); [contradiction|].
    reflexivity. }
  assert (config_key_of None (JDict c) = Py.Raise Py.KeyError) as Hnone.
  { unfold config_key_of. cbn [getitem]. rewrite Hd. reflexivity. }
  assert (forall k, (exists config_key, config_key_of k (JDict c) = Py.Ok config_key) \/
                    config_key_of k (JDict c) = Py.Raise Py.KeyError) as Hkey.
  { intros [k|]; [|right; exact Hnone].
    unfold config_key_of. destruct (k =? "")%string.
    - right. exact Hnone.
    - left. eexists; reflexivity. }
  split; [|split; [|split]].
  1-3: unfold main; destruct (Hkey args_config) as [[config_key E] | E]; rewrite E;
       [destruct (Hflags config_key) as [e E']; rewrite E'; destruct e; reflexivity
       |reflexivity].
  intros k es e flags -> Hk Hes He Hf.
  unfold main. rewrite (Hsome k Hk). unfold exec_flags_of. cbn [getitem].
  rewrite Hes. cbn [Py.bind getitem]. rewrite He. cbn [Py.bind has_get]. rewrite Hd.
  reflexivity.
Qed.

End MainFurther.

(* ================================================================== *)
(** * Part XX.  The stand-alone scripts                             *)
(* ================================================================== *)

Section ScriptFacts.
Import Main Scripts.
Variable analyze_body : list (string * json) -> Py.result unit.
Variable create_video_body : list (string * json) -> Py.result unit.

Lemma piv_script_kwargs_bind (piv_params : json) (kwargs : list (string * json)) :
  piv_script_kwargs piv_params = Py.Ok kwargs ->
  bind_kwargs analyze_and_save_frames_sig kwargs = Py.Ok kwargs.
Proof.
  unfold piv_script_kwargs, get. destruct (has_get piv_params) as [d|e]; [|discriminate].
  cbn [Py.bind]. intros E. injection E as <-. reflexivity.
Qed.

Lemma video_script_kwargs_bind (image_folder video_params : json)
  (kwargs : list (string * json)) :
  video_script_kwargs image_folder video_params = Py.Ok kwargs ->
  bind_kwargs create_video_from_images_sig kwargs = Py.Ok kwargs.
Proof.
  unfold video_script_kwargs, get.
  destruct (has_get video_params) as [d|e]; [|discriminate].
  cbn [Py.bind]. intros E. injection E as <-. reflexivity.
Qed.

Lemma truthy_dict (d : list (string * json)) (k : string) (v : json) :
  lookup k d = Some v -> truthy (JDict d) = true.
Proof. destruct d; [discriminate|reflexivity]. Qed.

Lemma select_execution_found (k : string) (c es e : list (string * json)) :
  k <> ""%string ->
  lookup "executions" c = Some (JDict es) ->
  lookup k es = Some (JDict e) ->
  e <> [] ->
  select_execution (Some k) (Parsed (JDict c))
  = inr (JStr k, JDict e, [MsgUsingConfiguration (JStr k)]).
Proof.
  intros Hk Hes He Hne. unfold select_execution, config_key_of.
  destruct (String.eqb_spec k ""); [contradiction|].
  cbn [truthy]. destruct (String.eqb_spec k ""); [contradiction|]. cbn [negb].
  unfold get. cbn [has_get Py.bind]. rewrite Hes. unfold get_key. cbn [has_get Py.bind].
  rewrite He. destruct e; [contradiction|]. reflexivity.
Qed.

(** X9.  [piv_analysis.py] run as a script, with [--config k], a
    profile [k] and a non-empty [piv_analysis] section in it: the
    call passes the seven parameters of the signature and no other
    keyword, so that, unlike the call in [main], it is accepted and
    the body is entered; the paths are passed as the configuration
    gives them, not joined to the project root; the process exits
    with 0 when the body returns, and with a traceback and status 1
    when it raises. *)
Theorem X9_piv_script_call_accepted (k : string) (c es e p : list (string * json)) :
  k <> ""%string ->
  lookup "executions" c = Some (JDict es) ->
  lookup k es = Some (JDict e) ->
  lookup "piv_analysis" e = Some (JDict p) ->
  p <> [] ->
  exists kwargs,
    piv_script_kwargs (JDict p) = Py.Ok kwargs /\
    map fst kwargs = map fst analyze_and_save_frames_sig /\
    (forall v, lookup "video_path" p = Some v -> lookup "video_path" kwargs = Some v) /\
    (forall v, lookup "output_dir" p = Some v -> lookup "output_dir" kwargs = Some v) /\
    call analyze_and_save_frames_sig analyze_body kwargs = (analyze_body kwargs, true) /\
    piv_script analyze_body (Some k) (Parsed (JDict c))
    = match analyze_body kwargs with
      | Py.Ok _ =>
          {| exit_status := 0; console := [MsgUsingConfiguration (JStr k)];
             entered := true |}
      | Py.Raise e => uncaught e [MsgUsingConfiguration (JStr k)] true
      end.
Proof.
  intros Hk Hes He Hp Hne.
  destruct (piv_script_kwargs (JDict p)) as [kwargs|x] eqn:K;
    [|unfold piv_script_kwargs, get in K; cbn [has_get Py.bind] in K; discriminate].
  exists kwargs. pose proof (piv_script_kwargs_bind _ _ K) as B.
  assert (call analyze_and_save_frames_sig analyze_body kwargs
          = (analyze_body kwargs, true)) as Hcall.
  { unfold call. rewrite B. reflexivity. }
  split; [reflexivity|].
  pose proof K as K'.
  unfold piv_script_kwargs, get in K. cbn [has_get Py.bind] in K. injection K as K.
  split; [rewrite <- K; reflexivity|].
  split; [intros v Hv; rewrite <- K; cbn [lookup String.eqb Ascii.eqb Bool.eqb];
          rewrite Hv; reflexivity|].
  split; [intros v Hv; rewrite <- K; cbn [lookup];
          change ("output_dir" =? "video_path")%string with false;
          change ("output_dir" =? "output_dir")%string with true;
          cbn iota; rewrite Hv; reflexivity|].
  split; [exact Hcall|].
  unfold piv_script.
  rewrite (select_execution_found k c es e Hk Hes He)
    by (intros ->; discriminate).
  unfold get at 1. cbn [has_get Py.bind]. rewrite Hp.
  assert (truthy (JDict p) = true) as Ht by (destruct p; [contradiction|reflexivity]).
  rewrite Ht. cbn [negb]. rewrite K', Hcall.
  destruct (analyze_body kwargs); reflexivity.
Qed.

(** X10.  A configuration on which [main] finds its default key
    ([default_execution] is an object holding [execution_key]) stops
    both scripts when they are run without [--config]: they take the
    whole object for the key, and the lookup in [executions] raises,
    uncaught: TypeError (the key cannot be hashed) where [executions]
    is an object or is absent, AttributeError otherwise.  Neither
    function body is entered. *)
Theorem X10_scripts_reject_main_default (config_data config_key : json) :
  Main.config_key_of None config_data = Py.Ok config_key ->
  exists d e,
    getitem config_data (JStr "default_execution") = Py.Ok (JDict d) /\
    piv_script analyze_body None (Parsed config_data)
      = uncaught e [MsgUsingConfiguration (JDict d)] false /\
    video_script create_video_body None (Parsed config_data)
      = uncaught e [MsgUsingConfiguration (JDict d)] false /\
    (e = Py.TypeError \/ e = Py.AttributeError) /\
    ((exists es, get config_data "executions" (JDict []) = Py.Ok (JDict es)) ->
     e = Py.TypeError).
Proof.
  unfold Main.config_key_of. intros H.
  destruct config_data as [| | | | | |c]; try discriminate.
  cbn [getitem] in H |- *.
  destruct (lookup "default_execution" c) as [dflt|] eqn:Hd; [|discriminate].
  cbn [Py.bind] in H.
  destruct dflt as [| | | | | |d]; try discriminate.
  cbn [getitem] in H.
  destruct (lookup "execution_key" d) as [key|] eqn:Hkey; [|discriminate].
  assert (truthy (JDict d) = true) as Ht by (eapply truthy_dict; eauto).
  assert (exists e,
            (executions <- get (JDict c) "executions" (JDict []) ;;
             get_key executions (JDict d) JNull) = Py.Raise e /\
            (e = Py.TypeError \/ e = Py.AttributeError) /\
            ((exists es, get (JDict c) "executions" (JDict []) = Py.Ok (JDict es)) ->
             e = Py.TypeError)) as [e [He [Hcases Hty]]].
  { unfold get. cbn [has_get Py.bind].
    destruct (lookup "executions" c) as [ex|].
    - unfold get_key. destruct ex as [| | | | | |es]; cbn [has_get Py.bind].
      7: exists Py.TypeError; repeat split; auto.
      all: exists Py.AttributeError; split; [reflexivity|]; split; [right; reflexivity|];
        intros [es E]; discriminate.
    - exists Py.TypeError. repeat split; auto. }
  exists d, e. split; [reflexivity|].
  assert (select_execution None (Parsed (JDict c))
          = inl (uncaught e [MsgUsingConfiguration (JDict d)] false)) as S.
  { unfold select_execution, config_key_of, get at 1. cbn [has_get Py.bind].
    rewrite Hd, Ht. cbn [negb]. rewrite He. reflexivity. }
  split; [unfold piv_script; rewrite S; reflexivity|].
  split; [unfold video_script; rewrite S; reflexivity|].
  split; [exact Hcases|exact Hty].
Qed.

Lemma get_raises (j : json) (k : string) (default : json) (e : Py.exn) :
  get j k default = Py.Raise e -> e = Py.AttributeError.
Proof.
  unfold get. destruct j; cbn [has_get Py.bind]; intros H; try discriminate;
    injection H as <-; reflexivity.
Qed.

Lemma get_key_raises (j k default : json) (e : Py.exn) :
  get_key j k default = Py.Raise e -> e = Py.TypeError \/ e = Py.AttributeError.
Proof.
  unfold get_key. destruct j; cbn [has_get Py.bind]; intros H;
    try (injection H as <-; right; reflexivity).
  destruct k; try discriminate; injection H as <-; left; reflexivity.
Qed.


Lemma stopped_exit (out : list Message) (m : Message) :
  reports_error m = true -> stopped_early (exit_ (out ++ [m])).
Proof.
  intros H. split; [reflexivity|]. left. split; [reflexivity|]. exists out, m. auto.
Qed.

Lemma stopped_uncaught (out : list Message) (e : Py.exn) :
  e = Py.TypeError \/ e = Py.AttributeError -> stopped_early (uncaught e out false).
Proof.
  intros H. split; [reflexivity|]. right. split; [reflexivity|]. exists out, e. auto.
Qed.

Lemma select_execution_stops (args_config : option string) (file : ConfigFile)
  (run : Run) :
  select_execution args_config file = inl run -> stopped_early run.
Proof.
  unfold select_execution. destruct file as [| |config_data].
  - intros H. injection H as <-. apply (stopped_exit []). reflexivity.
  - intros H. injection H as <-. apply (stopped_exit []). reflexivity.
  - destruct (config_key_of args_config config_data) as [config_key|e] eqn:Ek.
    + destruct (truthy config_key); cbn [negb].
      * destruct (executions <- get config_data "executions" (JDict []) ;;
                  get_key executions config_key JNull) as [execution_params|e] eqn:Ee.
        -- destruct (truthy execution_params); cbn [negb]; [discriminate|].
           intros H. injection H as <-.
           apply (stopped_exit [MsgUsingConfiguration config_key]). reflexivity.
        -- intros H. injection H as <-. apply stopped_uncaught.
           destruct (get config_data "executions" (JDict [])) as [ex|x] eqn:Eg;
             cbn [Py.bind] in Ee.
           ++ apply (get_key_raises _ _ _ _ Ee).
           ++ injection Ee as <-. right. apply (get_raises _ _ _ _ Eg).
      * intros H. injection H as <-. apply (stopped_exit []). reflexivity.
    + intros H. injection H as <-. apply stopped_uncaught. right.
      unfold config_key_of in Ek.
      destruct args_config as [k|]; [destruct (k =? "")%string|];
        try discriminate; apply (get_raises _ _ _ _ Ek).
Qed.

(** X11.  Once the command line is parsed and the configuration file
    is found missing, found not to be JSON, or parsed: whenever one of
    the two scripts ends before its call, either it has printed an
    error line and left with status 0 ([exit()] without a status), or
    an AttributeError or a TypeError was raised by a look-up in the
    parsed configuration and nothing caught it (status 1).  Every
    problem of the configuration that the scripts report themselves
    thus ends with status 0. *)
Theorem X11_script_errors_exit_zero (args_config : option string) (file : ConfigFile) :
  (entered (piv_script analyze_body args_config file) = false ->
   stopped_early (piv_script analyze_body args_config file)) /\
  (entered (video_script create_video_body args_config file) = false ->
   stopped_early (video_script create_video_body args_config file)).
Proof.
  split.
  - unfold piv_script.
    destruct (select_execution args_config file) as [run|[[config_key execution_params] out]]
      eqn:S; [intros _; apply (select_execution_stops _ _ _ S)|].
    destruct (get execution_params "piv_analysis" JNull) as [piv_params|e] eqn:G.
    2: intros _; apply stopped_uncaught; right; apply (get_raises _ _ _ _ G).
    destruct (truthy piv_params); cbn [negb].
    2: intros _; apply stopped_exit; reflexivity.
    destruct (piv_script_kwargs piv_params) as [kwargs|e] eqn:K.
    + unfold call. rewrite (piv_script_kwargs_bind _ _ K).
      destruct (analyze_body kwargs); intros H; discriminate.
    + intros _. apply stopped_uncaught. right.
      unfold piv_script_kwargs in K.
      destruct (get piv_params "video_path" JNull) eqn:G1;
        [|cbn [Py.bind] in K; injection K as <-; apply (get_raises _ _ _ _ G1)].
      unfold get in *. destruct (has_get piv_params); cbn [Py.bind] in *; discriminate.
  - unfold video_script.
    destruct (select_execution args_config file) as [run|[[config_key execution_params] out]]
      eqn:S; [intros _; apply (select_execution_stops _ _ _ S)|].
    destruct (piv_params <- get execution_params "piv_analysis" (JDict []) ;;
              video_params <- get execution_params "create_video" (JDict []) ;;
              image_folder <- get piv_params "output_dir" JNull ;;
              Py.Ok (video_params, image_folder)) as [[video_params image_folder]|e] eqn:G.
    + destruct (truthy image_folder); cbn [negb].
      2: intros _; apply stopped_exit; reflexivity.
      destruct (video_script_kwargs image_folder video_params) as [kwargs|e] eqn:K.
      * unfold call. rewrite (video_script_kwargs_bind _ _ _ K).
        destruct (create_video_body kwargs); intros H; discriminate.
      * intros _. apply stopped_uncaught. right.
        unfold video_script_kwargs, get in K.
        destruct (has_get video_params) eqn:Hg; cbn [Py.bind] in K; [discriminate|].
        injection K as <-. destruct video_params; cbn in Hg; try discriminate;
          injection Hg as <-; reflexivity.
    + intros _. apply stopped_uncaught. right.
      destruct (get execution_params "piv_analysis" (JDict [])) as [pp|x] eqn:G1;
        cbn [Py.bind] in G; [|injection G as <-; apply (get_raises _ _ _ _ G1)].
      destruct (get execution_params "create_video" (JDict [])) as [vp|x] eqn:G2;
        cbn [Py.bind] in G; [|injection G as <-; apply (get_raises _ _ _ _ G2)].
      destruct (get pp "output_dir" JNull) as [im|x] eqn:G3;
        cbn [Py.bind] in G; [discriminate|injection G as <-; apply (get_raises _ _ _ _ G3)].
Qed.

(** X12.  [create_video.py] run as a script, with [--config k] and a
    profile [k] that has a [piv_analysis] section with a truthy
    [output_dir] and no [create_video] section: the body is entered
    with that [output_dir], as given, for image folder, and with the
    defaults [output/video], 30, [img*.png] and no file name. *)
Theorem X12_video_script_call (k : string) (c es e p : list (string * json))
  (image_folder : json) :
  k <> ""%string ->
  lookup "executions" c = Some (JDict es) ->
  lookup k es = Some (JDict e) ->
  lookup "piv_analysis" e = Some (JDict p) ->
  lookup "output_dir" p = Some image_folder ->
  truthy image_folder = true ->
  lookup "create_video" e = None ->
  let kwargs :=
    [("image_folder", image_folder); ("output_folder", JStr "output/video");
     ("fps", JInt 30); ("image_pattern", JStr "img*.png");
     ("output_filename", JNull)]%string in
  call create_video_from_images_sig create_video_body kwargs
    = (create_video_body kwargs, true) /\
  video_script create_video_body (Some k) (Parsed (JDict c))
  = match create_video_body kwargs with
    | Py.Ok _ =>
        {| exit_status := 0;
           console := [MsgUsingConfiguration (JStr k); MsgVideoScriptStarts;
                       MsgVideoScriptEnds];
           entered := true |}
    | Py.Raise x =>
        uncaught x [MsgUsingConfiguration (JStr k); MsgVideoScriptStarts] true
    end.
Proof.
  intros Hk Hes He Hp Ho Ht Hv kwargs.
  split; [reflexivity|].
  unfold video_script.
  rewrite (select_execution_found k c es e Hk Hes He) by (intros ->; discriminate).
  unfold get. cbn [has_get Py.bind]. rewrite Hp, Hv. cbn [has_get Py.bind].
  rewrite Ho, Ht. cbn [negb]. unfold video_script_kwargs, get. cbn [has_get Py.bind lookup].
  change (Py.os_path_join "output" "video") with "output/video"%string.
  fold kwargs.
  change (call create_video_from_images_sig create_video_body kwargs)
    with (create_video_body kwargs, true).
  destruct (create_video_body kwargs); reflexivity.
Qed.

End ScriptFacts.

(* ================================================================== *)
(** * Part XXI.  Every path through the analysis                    *)
(* ================================================================== *)

Section CaptureFacts.
Import Float64 Numpy PivAnalysis.
Context {C : Collaborators}.
Variable a : Args.
Variable dt : float64.

Lemma analyze_pair_log (fa fb : Frame) (i : nat) (st : Pass1) :
  cap_events (fst (analyze_pair a dt fa fb i st)) = cap_events st /\
  stdout (fst (analyze_pair a dt fa fb i st)) = stdout st ++ [MsgAnalyzing i].
Proof.
  unfold analyze_pair.
  destruct (estimate_filtered dt fa fb (xy st)) as [[[x y] u] v].
  destruct (current_max_mag a x y u v); split; reflexivity.
Qed.

Lemma pass1_loop_log (pending : list Frame) :
  forall (frame_buffer : list Frame) (i : nat) (st : Pass1),
  exists reads indices,
    cap_events (fst (pass1_loop a dt pending frame_buffer i st))
      = cap_events st ++ map CapRead reads /\
    stdout (fst (pass1_loop a dt pending frame_buffer i st))
      = stdout st ++ map MsgAnalyzing indices.
Proof.
  induction pending as [|f pending IH]; intros frame_buffer i st.
  - cbn [pass1_loop].
    destruct (Py.index frame_buffer 0) as [fa|e].
    2: exists [], []; cbn; rewrite !app_nil_r; split; reflexivity.
    destruct (Py.index frame_buffer (frame_comparison_step a)) as [fb|e].
    2: exists [], []; cbn; rewrite !app_nil_r; split; reflexivity.
    destruct (analyze_pair_log fa fb (S i) st) as [H1 H2].
    destruct (analyze_pair a dt fa fb (S i) st) as [st' [u|e]]; cbn [fst] in *.
    + exists [false], [S i]. cbn [read_event cap_events stdout map].
      rewrite H1, H2. split; reflexivity.
    + exists [], [S i]. cbn [map]. rewrite H1, H2, app_nil_r. split; reflexivity.
  - cbn [pass1_loop].
    destruct (Py.index frame_buffer 0) as [fa|e].
    2: exists [], []; cbn; rewrite !app_nil_r; split; reflexivity.
    destruct (Py.index frame_buffer (frame_comparison_step a)) as [fb|e].
    2: exists [], []; cbn; rewrite !app_nil_r; split; reflexivity.
    destruct (analyze_pair_log fa fb (S i) st) as [H1 H2].
    destruct (analyze_pair a dt fa fb (S i) st) as [st' [u|e]]; cbn [fst] in *.
    + destruct (IH (tl frame_buffer ++ [f]) (S i) (read_event true st'))
        as [reads [indices [E1 E2]]].
      exists (true :: reads), (S i :: indices).
      rewrite E1, E2. cbn [read_event cap_events stdout map].
      rewrite H1, H2, <- !app_assoc. split; reflexivity.
    + exists [], [S i]. cbn [map]. rewrite H1, H2, app_nil_r. split; reflexivity.
Qed.

Lemma existsb_analyzing (indices : list nat) :
  existsb is_analysis_complete (map MsgAnalyzing indices) = false.
Proof. induction indices; [reflexivity|exact IHindices]. Qed.

End CaptureFacts.

Section RunCases.
Import Float64 Numpy PivAnalysis.
Context {C : Collaborators}.

(** The four ways in which a call of [analyze_and_save_frames] ends:
    the video does not open; too few frames; an exception in the
    first pass; the first pass completed and the second pass run. *)
Lemma run_cases (a : Args) (P : Run -> Prop) :
  (isOpened (video_path a) = false ->
   forall out,
     P {| outcome := Py.Ok tt; console := out ++ [ErrCouldNotOpen]; capture_log := [];
          analyzed := []; max_mag := zero; max_mag_history := []; grid_xy := None;
          images := [] |}) ->
  (isOpened (video_path a) = true ->
   List.length (footage (video_path a)) <= frame_comparison_step a ->
   forall out reads,
     existsb is_analysis_complete out = false ->
     P {| outcome := Py.Ok tt; console := out ++ [ErrNotEnoughFrames];
          capture_log := map CapRead reads ++ [CapRelease];
          analyzed := []; max_mag := zero; max_mag_history := []; grid_xy := None;
          images := [] |}) ->
  (isOpened (video_path a) = true ->
   frame_comparison_step a < List.length (footage (video_path a)) ->
   forall out reads st e,
     existsb is_analysis_complete out = false ->
     pass1_loop a (frame_interval a)
       (skipn (frame_comparison_step a + 1) (footage (video_path a)))
       (firstn (frame_comparison_step a + 1) (footage (video_path a))) 0
       (st0 (map CapRead reads) out) = (st, Py.Raise e) ->
     P {| outcome := Py.Raise e; console := stdout st; capture_log := cap_events st;
          analyzed := frames_data st; max_mag := overall_max_mag st;
          max_mag_history := running_max st; grid_xy := xy st; images := [] |}) ->
  (isOpened (video_path a) = true ->
   frame_comparison_step a < List.length (footage (video_path a)) ->
   forall out reads st saved out2 res,
     existsb is_analysis_complete out = false ->
     pass1_loop a (frame_interval a)
       (skipn (frame_comparison_step a + 1) (footage (video_path a)))
       (firstn (frame_comparison_step a + 1) (footage (video_path a))) 0
       (st0 (map CapRead reads) out) = (st, Py.Ok tt) ->
     pass2 a (frames_data st) (overall_max_mag st) (xy st) = (saved, out2, res) ->
     P {| outcome := res;
          console :=
            (stdout st ++
             [MsgAnalysisComplete (List.length (frames_data st)) (overall_max_mag st)])
            ++ out2;
          capture_log := cap_events st ++ [CapRelease];
          analyzed := frames_data st; max_mag := overall_max_mag st;
          max_mag_history := running_max st; grid_xy := xy st; images := saved |}) ->
  P (analyze_and_save_frames a).
Proof.
  intros Hclosed Hshort Hraise Hdone. unfold analyze_and_save_frames.
  destruct (isOpened (video_path a)) eqn:Hopen; cbn [negb]; [|apply Hclosed; reflexivity].
  rewrite fill_buffer_spec. cbn [app].
  set (events := repeat (CapRead true) _ ++ repeat (CapRead false) _).
  assert (exists reads, events = map CapRead reads) as [reads Hev].
  { eexists (repeat true _ ++ repeat false _). unfold events.
    rewrite map_app, !map_repeat. reflexivity. }
  rewrite Hev. clear Hev events.
  unfold frame_interval, st0 in Hraise, Hdone.
  destruct (feqb (CAP_PROP_FPS (video_path a)) (of_Z 0));
    (destruct (List.length (firstn (frame_comparison_step a + 1) (footage (video_path a)))
               <=? frame_comparison_step a) eqn:Hlen;
     [ apply Nat.leb_le in Hlen; rewrite length_firstn in Hlen;
       apply Hshort; [reflexivity|lia|reflexivity]
     | apply Nat.leb_gt in Hlen; rewrite length_firstn in Hlen;
       match goal with
       | |- context [pass1_loop a ?dt ?p ?b 0 ?st] =>
           destruct (pass1_loop a dt p b 0 st) as [st' [[]|e]] eqn:E
       end;
       [ destruct (pass2 a (frames_data st') (overall_max_mag st') (xy st'))
           as [[saved out2] res] eqn:E2;
         eapply Hdone; [reflexivity | lia | | exact E | exact E2]; reflexivity
       | eapply Hraise; [reflexivity | lia | | exact E]; reflexivity ] ]).
Qed.

End RunCases.

Section CaptureClaims.
Import Float64 Numpy PivAnalysis.

(** X13.  The capture on every path of [analyze_and_save_frames],
    whatever the collaborators return: the calls on it are reads,
    followed by one release exactly when the video opened and the
    first pass came to its end (the function returned, or the line
    that closes the first pass was printed).  When the video does not
    open, and when an exception is raised in the first pass, the
    capture is not released. *)
Theorem X13_capture_released_or_leaked {C : Collaborators} (a : Args) :
  exists reads,
    capture_log (analyze_and_save_frames a)
    = map CapRead reads ++
      (if isOpened (video_path a) &&
          (Py.is_ok (outcome (analyze_and_save_frames a)) ||
           existsb is_analysis_complete (console (analyze_and_save_frames a)))
       then [CapRelease] else []).
Proof.
  apply (run_cases a).
  - intros Hopen out. rewrite Hopen. exists []. reflexivity.
  - intros Hopen _ out reads _. rewrite Hopen. exists reads. reflexivity.
  - intros Hopen _ out reads st e Hout E. rewrite Hopen.
    destruct (pass1_loop_log a (frame_interval a)
                (skipn (frame_comparison_step a + 1) (footage (video_path a)))
                (firstn (frame_comparison_step a + 1) (footage (video_path a))) 0
                (st0 (map CapRead reads) out)) as [reads' [indices [E1 E2]]].
    rewrite E in E1, E2. cbn [fst st0 cap_events stdout] in E1, E2.
    exists (reads ++ reads').
    cbn [capture_log outcome console Py.is_ok orb andb].
    rewrite E1, E2, map_app, existsb_app, Hout, existsb_analyzing, app_nil_r.
    reflexivity.
  - intros Hopen _ out reads st saved out2 res Hout E E2. rewrite Hopen.
    destruct (pass1_loop_log a (frame_interval a)
                (skipn (frame_comparison_step a + 1) (footage (video_path a)))
                (firstn (frame_comparison_step a + 1) (footage (video_path a))) 0
                (st0 (map CapRead reads) out)) as [reads' [indices [E1 _]]].
    rewrite E in E1. cbn [fst st0 cap_events] in E1.
    exists (reads ++ reads').
    cbn [capture_log outcome console andb].
    rewrite E1, map_app, !existsb_app. cbn [existsb is_analysis_complete].
    rewrite !orb_true_r. reflexivity.
Qed.

(** X26.  Every frame is read once.  When the video opens, the
    capture is read [s + 1] times if the video has at most [s] frames
    (stride [s]), each of its [K] frames once and then in vain; and,
    the collaborators being well-shaped, [K + 1] times if it has more:
    each frame once, in order, and one read that fails and ends the
    loop.  The release follows the last read. *)
Theorem X26_every_frame_read_once {C : Collaborators} (a : Args) :
  isOpened (video_path a) = true ->
  (List.length (footage (video_path a)) <= frame_comparison_step a ->
   capture_log (analyze_and_save_frames a)
   = repeat (CapRead true) (List.length (footage (video_path a))) ++
     repeat (CapRead false)
       (frame_comparison_step a + 1 - List.length (footage (video_path a))) ++
     [CapRelease]) /\
  (frame_comparison_step a < List.length (footage (video_path a)) ->
   collaborators_well_shaped a ->
   capture_log (analyze_and_save_frames a)
   = repeat (CapRead true) (List.length (footage (video_path a))) ++
     [CapRead false; CapRelease]).
Proof.
  intros Hopen. split.
  - intros Hle. destruct (run_not_enough_frames a Hopen Hle) as [out E].
    rewrite E. cbn [capture_log]. rewrite <- app_assoc. reflexivity.
  - intros Hlt Hc.
    destruct (run_enough_frames a Hopen Hc Hlt) as [st [_ [_ [_ [_ [_ [_ [_ [E _]]]]]]]]].
    exact E.
Qed.

End CaptureClaims.

Section PlotFacts.
Import Float64 Numpy PivAnalysis.
Context {C : Collaborators}.
Variable a : Args.

(** What every figure that [render_window] produces carries. *)
Lemma render_window_plot (x y x_scaled y_scaled : Coords) (vmax_to_use : float64)
  (unit_ : string) (window_data : list FrameResult) (name : string) (plot : Plot) :
  render_window a x y x_scaled y_scaled vmax_to_use unit_ window_data
    = Py.Ok (name, plot) ->
  quiver_x plot = x_scaled /\ quiver_y plot = y_scaled /\
  clim_vmin plot = of_Z 0 /\ clim_vmax plot = vmax_to_use /\
  quiver_scale plot
    = (if fltb zero vmax_to_use then fmul vmax_to_use (of_Z 20) else of_Z 30) /\
  axis_unit plot = unit_ /\
  Forall (fun c => is_finite c = true) (quiver_u plot ++ quiver_v plot) /\
  Forall (fun c => is_finite c = true /\ fleb zero c = true) (quiver_c plot).
Proof.
  unfold render_window.
  destruct (Py.index window_data 0) as [base|e]; cbn [Py.bind]; [|discriminate].
  destruct (aggregate a (map d_u window_data)) as [au|e]; cbn [Py.bind]; [|discriminate].
  destruct (aggregate a (map d_v window_data)) as [av|e]; cbn [Py.bind]; [|discriminate].
  destruct (scaling_uniform x y au av (scaling_factor a)) as [[[xs ys] us] vs].
  destruct (magnitude us vs) as [mag|e] eqn:M; cbn [Py.bind]; [|discriminate].
  intros H. injection H as <- <-.
  cbn [quiver_x quiver_y clim_vmin clim_vmax quiver_scale axis_unit quiver_u quiver_v
       quiver_c].
  repeat split.
  - apply Forall_app. split; apply Forall_forall; intros c Hc.
    + unfold nan_to_num in Hc. apply in_map_iff in Hc. destruct Hc as [z [<- _]].
      apply nan_to_num1_finite.
    + apply in_map_iff in Hc. destruct Hc as [z [<- Hz]].
      unfold nan_to_num in Hz. apply in_map_iff in Hz. destruct Hz as [w [<- _]].
      apply fopp_finite, nan_to_num1_finite.
  - apply Forall_forall. intros c Hc.
    unfold nan_to_num in Hc. apply in_map_iff in Hc. destruct Hc as [m [<- Hm]].
    split; [apply nan_to_num1_finite|].
    apply nan_to_num1_nonneg.
    destruct (map2_in _ _ _ _ _ M Hm) as [u [v [-> _]]].
    apply magnitude1_sign.
Qed.

(** The arrow scale is never NaN and never negative. *)
Lemma plot_scale_nonneg (v : float64) :
  nonneg (if fltb zero v then fmul v (of_Z 20) else of_Z 30) = true.
Proof.
  destruct (fltb zero v) eqn:E; [|reflexivity].
  destruct v as [s|s| |s m e]; try discriminate; destruct s; try discriminate;
    [reflexivity|].
  change (of_Z 20) with (S754_finite false 5629499534213120 (-48)).
  unfold fmul. cbn [SFmul xorb].
  pose proof (binary_round_aux_sign false (Z.pos (m * 5629499534213120)) (e + -48)
                loc_Exact) as Hs.
  pose proof (binary_round_aux_not_nan false (Z.pos (m * 5629499534213120)) (e + -48)
                loc_Exact ltac:(lia)) as Hn.
  destruct (binary_round_aux prec emax false (Z.pos (m * 5629499534213120)) (e + -48)
              loc_Exact) as [s'|s'| |s' m' e']; cbn [has_sign] in Hs; subst;
    try discriminate; reflexivity.
Qed.

Lemma pass2_loop_forall (P : string * Plot -> Prop)
  (x y x_scaled y_scaled : Coords) (vmax_to_use : float64) (unit_ : string)
  (frames_data : list FrameResult) (total : Z) :
  (forall window_data r,
     render_window a x y x_scaled y_scaled vmax_to_use unit_ window_data = Py.Ok r ->
     P r) ->
  forall (indices : list nat) (saved : list (string * Plot)) (out : list Message),
    Forall P saved ->
    Forall P (fst (fst (pass2_loop a x y x_scaled y_scaled vmax_to_use unit_
                          frames_data total indices saved out))).
Proof.
  intros HP. induction indices as [|i indices IH]; intros saved out Hs;
    cbn [pass2_loop]; [exact Hs|].
  destruct (Py.index (Py.slice frames_data i (i + moving_average_window a)) 0)
    as [base|e]; [|exact Hs].
  destruct (render_window a x y x_scaled y_scaled vmax_to_use unit_
              (Py.slice frames_data i (i + moving_average_window a)))
    as [[name plot]|e] eqn:R; [|exact Hs].
  apply IH. apply Forall_app. split; [exact Hs|].
  constructor; [|constructor]. apply (HP _ _ R).
Qed.

Lemma pass2_forall (P : string * Plot -> Prop)
  (frames_data : list FrameResult) (overall : float64) (xy : option (Coords * Coords)) :
  (forall x y x_scaled y_scaled window_data r,
     render_window a x y x_scaled y_scaled
       (match vmax_override a with Some v => v | None => overall end)
       (if feqb (scaling_factor a) (of_Z 1) then "pixels"%string else "mm"%string)
       window_data = Py.Ok r ->
     P r) ->
  Forall P (fst (fst (pass2 a frames_data overall xy))).
Proof.
  intros HP. unfold pass2. destruct frames_data as [|first rest]; [constructor|].
  destruct (vmax_override a) as [vmax|];
    (destruct xy as [[x y]|]; [|constructor]);
    destruct (scaling_uniform x y (d_u first) (d_v first) (scaling_factor a))
      as [[[x_scaled y_scaled] us] vs];
    match goal with
    | |- context [pass2_loop a x y x_scaled y_scaled ?v ?u ?fd ?t ?ix ?sv ?out] =>
        pose proof (pass2_loop_forall P x y x_scaled y_scaled v u fd t
                      (HP x y x_scaled y_scaled) ix sv out (Forall_nil P)) as H;
          destruct (pass2_loop a x y x_scaled y_scaled v u fd t ix sv out)
            as [[saved out'] [[]|e]]; exact H
    end.
Qed.

End PlotFacts.

Section PlotClaims.
Import Float64 Numpy PivAnalysis.

(** X14.  All the images of one run share one colour scale: the lower
    limit is 0, the upper limit is [vmax_override] when it is given
    and [overall_max_mag] otherwise, the arrow scale is twenty times
    the upper limit when that is positive and 30 otherwise, and the
    unit is pixels when the scaling factor equals 1.0 and mm
    otherwise.  This holds of every image saved, also in a run that
    ends with an exception. *)
Theorem X14_one_colour_scale {C : Collaborators} (a : Args) :
  Forall (fun img =>
            clim_vmin (snd img) = of_Z 0 /\
            clim_vmax (snd img)
              = match vmax_override a with
                | Some v => v
                | None => max_mag (analyze_and_save_frames a)
                end /\
            quiver_scale (snd img)
              = (if fltb zero (clim_vmax (snd img))
                 then fmul (clim_vmax (snd img)) (of_Z 20) else of_Z 30) /\
            axis_unit (snd img)
              = if feqb (scaling_factor a) (of_Z 1) then "pixels"%string else "mm"%string)
         (images (analyze_and_save_frames a)).
Proof.
  apply (run_cases a); cbn [images max_mag]; try (intros; constructor).
  intros _ _ out reads st saved out2 res _ _ E2.
  replace saved with (fst (fst (pass2 a (frames_data st) (overall_max_mag st) (xy st))))
    by (rewrite E2; reflexivity).
  apply pass2_forall. intros x y xs ys wd [name plot] R.
  destruct (render_window_plot a _ _ _ _ _ _ _ _ _ R) as [_ [_ [H1 [H2 [H3 [H4 _]]]]]].
  cbn [snd]. rewrite H1, H3, H2, H4. auto.
Qed.

(** X15.  Whatever the window and the method, the arrays U, V and C
    that [quiver] receives hold no NaN and no infinity: all
    components drawn are finite, and all colour values are finite and
    not negative.  The [scale] that it receives is never NaN and never
    negative; it need not be finite.  Nothing is said of the
    coordinates, which the scaling supplies. *)
Theorem X15_plotted_values_finite {C : Collaborators} (a : Args) :
  Forall (fun img =>
            Forall (fun c => is_finite c = true)
                   (quiver_u (snd img) ++ quiver_v (snd img)) /\
            Forall (fun c => is_finite c = true /\ fleb zero c = true)
                   (quiver_c (snd img)) /\
            nonneg (quiver_scale (snd img)) = true)
         (images (analyze_and_save_frames a)).
Proof.
  apply (run_cases a); cbn [images]; try (intros; constructor).
  intros _ _ out reads st saved out2 res _ _ E2.
  replace saved with (fst (fst (pass2 a (frames_data st) (overall_max_mag st) (xy st))))
    by (rewrite E2; reflexivity).
  apply pass2_forall. intros x y xs ys wd [name plot] R.
  destruct (render_window_plot a _ _ _ _ _ _ _ _ _ R) as [_ [_ [_ [_ [Hs [_ [H1 H2]]]]]]].
  cbn [snd]. rewrite Hs. split; [exact H1|]. split; [exact H2|].
  apply plot_scale_nonneg.
Qed.

End PlotClaims.

Section WindowZero.
Import Float64 Numpy PivAnalysis.
Context {C : Collaborators}.

Lemma pass2_window_zero (a : Args) (pairs : list FrameResult) (overall : float64)
  (x y : Coords) :
  moving_average_window a = 0 -> pairs <> [] ->
  fst (fst (pass2 a pairs overall (Some (x, y)))) = [] /\
  snd (pass2 a pairs overall (Some (x, y))) = Py.Raise Py.IndexError.
Proof.
  intros Hw Hp. unfold pass2. destruct pairs as [|first rest]; [contradiction|].
  rewrite Hw.
  replace (Py.range (Z.of_nat (List.length (first :: rest)) - Z.of_nat 0 + 1))
    with (0 :: seq 1 (List.length (first :: rest))).
  2: { unfold Py.range.
       replace (Z.to_nat (Z.of_nat (List.length (first :: rest)) - Z.of_nat 0 + 1))
         with (S (List.length (first :: rest))) by lia.
       reflexivity. }
  destruct (vmax_override a) as [vmax|];
    destruct (scaling_uniform x y (d_u first) (d_v first) (scaling_factor a))
      as [[[x_scaled y_scaled] us] vs];
    cbn [pass2_loop]; rewrite Hw; split; reflexivity.
Qed.

(** X16.  A window of 0.  The first pass runs to its end and the
    capture is released; in the second pass the first window is empty
    and [window_data[0]] raises IndexError before anything is saved. *)
Theorem X16_window_zero (a : Args) :
  isOpened (video_path a) = true ->
  collaborators_well_shaped a ->
  frame_comparison_step a < List.length (footage (video_path a)) ->
  moving_average_window a = 0 ->
  outcome (analyze_and_save_frames a) = Py.Raise Py.IndexError /\
  images (analyze_and_save_frames a) = [] /\
  List.length (analyzed (analyze_and_save_frames a))
    = List.length (footage (video_path a)) - frame_comparison_step a /\
  last (capture_log (analyze_and_save_frames a)) (CapRead true) = CapRelease.
Proof.
  intros Hopen Hc Hk Hw.
  destruct (run_enough_frames a Hopen Hc Hk)
    as [st [HI [Ha [_ [_ [_ [L [_ [Hcap Hp]]]]]]]]].
  assert (frames_data st <> []) as Hne.
  { intros E. rewrite E in L. cbn in L. lia. }
  destruct (xy st) as [[x y]|] eqn:Exy.
  2: { exfalso. apply Hne. apply (inv_xy a st HI Exy). }
  destruct (pass2_window_zero a (frames_data st) (overall_max_mag st) x y Hw Hne)
    as [P1 P2].
  rewrite P1, P2 in Hp. injection Hp as Hi Ho.
  split; [exact Ho|]. split; [exact Hi|]. split; [rewrite Ha; exact L|].
  rewrite Hcap.
  change [CapRead false; CapRelease] with ([CapRead false] ++ [CapRelease]).
  rewrite app_assoc. apply last_last.
Qed.

End WindowZero.

Section CoordinateFacts.
Import Float64 Numpy PivAnalysis.
Context {C : Collaborators}.
Variable a : Args.
Variable dt : float64.

Lemma analyze_pair_xy (fa fb : Frame) (i : nat) (st : Pass1) :
  xy (fst (analyze_pair a dt fa fb i st))
  = Some (match xy st with
          | Some c => c
          | None => get_coordinates (cvtColor_BGR2GRAY fa) searchsize overlap
          end).
Proof.
  unfold analyze_pair, estimate_filtered.
  destruct (extended_search_area_piv (cvtColor_BGR2GRAY fa) (cvtColor_BGR2GRAY fb)
              winsize overlap dt searchsize "peak2peak") as [[u v] sig2noise].
  destruct (xy st) as [[x y]|].
  - destruct (replace_outliers u v _ "localmean" 5 3) as [uf vf].
    destruct (current_max_mag a x y uf vf); reflexivity.
  - destruct (get_coordinates (cvtColor_BGR2GRAY fa) searchsize overlap) as [x y].
    destruct (replace_outliers u v _ "localmean" 5 3) as [uf vf].
    destruct (current_max_mag a x y uf vf); reflexivity.
Qed.

Lemma pass1_loop_xy_kept (pending : list Frame) :
  forall (frame_buffer : list Frame) (i : nat) (st : Pass1) (c : Coords * Coords),
    xy st = Some c ->
    xy (fst (pass1_loop a dt pending frame_buffer i st)) = Some c.
Proof.
  induction pending as [|f pending IH]; intros frame_buffer i st c Hc; cbn [pass1_loop];
    (destruct (Py.index frame_buffer 0) as [fa|e]; [|exact Hc]);
    (destruct (Py.index frame_buffer (frame_comparison_step a)) as [fb|e]; [|exact Hc]);
    pose proof (analyze_pair_xy fa fb (S i) st) as H; rewrite Hc in H;
    destruct (analyze_pair a dt fa fb (S i) st) as [st' [[]|e]]; cbn [fst] in *;
    try exact H.
  apply IH. exact H.
Qed.

Lemma pass1_loop_xy_first (pending : list Frame) (f0 : Frame) (rest : list Frame)
  (i : nat) (st : Pass1) :
  xy st = None ->
  frame_comparison_step a < List.length (f0 :: rest) ->
  xy (fst (pass1_loop a dt pending (f0 :: rest) i st))
  = Some (get_coordinates (cvtColor_BGR2GRAY f0) searchsize overlap).
Proof.
  intros Hn Hlen.
  destruct (index_ok (f0 :: rest) (frame_comparison_step a) Hlen) as [fb [Eb _]].
  pose proof (analyze_pair_xy f0 fb (S i) st) as H. rewrite Hn in H.
  destruct pending as [|f pending]; cbn [pass1_loop];
    change (Py.index (f0 :: rest) 0) with (Py.Ok f0); rewrite Eb;
    destruct (analyze_pair a dt f0 fb (S i) st) as [st' [[]|e]]; cbn [fst] in *;
    try exact H.
  apply pass1_loop_xy_kept. exact H.
Qed.

End CoordinateFacts.

Section CoordinateClaims.
Import Float64 Numpy PivAnalysis.

(** X19.  The coordinate grid is computed once, from the first frame
    of the video, and kept: it is the grid at the end of the call,
    also when the call ends with an exception, and every image is
    drawn at that grid, scaled together with the field of the first
    pair. *)
Theorem X19_coordinates_from_first_frame {C : Collaborators} (a : Args)
  (f0 : Frame) (rest : list Frame) :
  isOpened (video_path a) = true ->
  footage (video_path a) = f0 :: rest ->
  frame_comparison_step a < List.length (footage (video_path a)) ->
  grid_xy (analyze_and_save_frames a)
    = Some (get_coordinates (cvtColor_BGR2GRAY f0) searchsize overlap) /\
  Forall (fun img =>
            forall first,
              hd_error (analyzed (analyze_and_save_frames a)) = Some first ->
              (quiver_x (snd img), quiver_y (snd img))
              = fst (fst (scaling_uniform
                            (fst (get_coordinates (cvtColor_BGR2GRAY f0) searchsize overlap))
                            (snd (get_coordinates (cvtColor_BGR2GRAY f0) searchsize overlap))
                            (d_u first) (d_v first) (scaling_factor a))))
         (images (analyze_and_save_frames a)).
Proof.
  intros Hopen Hf Hk.
  assert (forall pending i st,
            xy st = None ->
            xy (fst (pass1_loop a (frame_interval a) pending
                       (firstn (frame_comparison_step a + 1) (footage (video_path a)))
                       i st))
            = Some (get_coordinates (cvtColor_BGR2GRAY f0) searchsize overlap)) as Hxy.
  { intros pending i st Hn. rewrite Hf. rewrite Nat.add_1_r. cbn [firstn].
    apply pass1_loop_xy_first; [exact Hn|].
    cbn [List.length]. rewrite length_firstn. rewrite Hf in Hk. cbn [List.length] in Hk.
    lia. }
  apply (run_cases a); cbn [grid_xy images analyzed].
  - intros E. rewrite Hopen in E. discriminate.
  - intros _ Hle. lia.
  - intros _ _ out reads st e _ E. split; [|constructor].
    specialize (Hxy (skipn (frame_comparison_step a + 1) (footage (video_path a))) 0
                    (st0 (map CapRead reads) out) eq_refl).
    rewrite E in Hxy. exact Hxy.
  - intros _ _ out reads st saved out2 res _ E E2.
    specialize (Hxy (skipn (frame_comparison_step a + 1) (footage (video_path a))) 0
                    (st0 (map CapRead reads) out) eq_refl).
    rewrite E in Hxy. cbn [fst] in Hxy. split; [exact Hxy|].
    rewrite Hxy in E2.
    destruct (get_coordinates (cvtColor_BGR2GRAY f0) searchsize overlap) as [x y] eqn:G.
    cbn [fst snd].
    unfold pass2 in E2. destruct (frames_data st) as [|first more].
    { injection E2 as <- _ _. constructor. }
    destruct (scaling_uniform x y (d_u first) (d_v first) (scaling_factor a))
      as [[[x_scaled y_scaled] us] vs] eqn:S.
    assert (forall vmax out0,
              Forall (fun img =>
                        forall first0,
                          hd_error (first :: more) = Some first0 ->
                          (quiver_x (snd img), quiver_y (snd img))
                          = fst (fst (scaling_uniform x y (d_u first0) (d_v first0)
                                        (scaling_factor a))))
                (fst (fst (pass2_loop a x y x_scaled y_scaled vmax
                             (if feqb (scaling_factor a) (of_Z 1)
                              then "pixels"%string else "mm"%string)
                             (first :: more)
                             (Z.of_nat (List.length (first :: more))
                              - Z.of_nat (moving_average_window a) + 1)
                             (Py.range (Z.of_nat (List.length (first :: more))
                                        - Z.of_nat (moving_average_window a) + 1))
                             [] out0)))) as Hloop.
    { intros vmax out0. apply pass2_loop_forall; [|constructor].
      intros wd [name plot] R.
      destruct (render_window_plot a _ _ _ _ _ _ _ _ _ R) as [H1 [H2 _]].
      intros first0 Hh. injection Hh as <-. cbn [snd]. rewrite S, H1, H2.
      reflexivity. }
    destruct (vmax_override a) as [vmax|];
      match type of E2 with
      | context [pass2_loop a x y x_scaled y_scaled ?v ?u ?fd ?t ?ix ?sv ?o] =>
          pose proof (Hloop v o) as H;
            destruct (pass2_loop a x y x_scaled y_scaled v u fd t ix sv o)
              as [[saved' out'] [[]|e]]; injection E2 as <- _ _; exact H
      end.
Qed.

End CoordinateClaims.

Section MethodFacts.
Import Float64 Numpy PivAnalysis.
Context {C : Collaborators}.
Variable a : Args.
Variable method : string.
Hypothesis Ha : averaging_method a <> "median"%string.
Hypothesis Hm : method <> "median"%string.


Lemma analyze_pair_method (dt : float64) (fa fb : Frame) (i : nat) (st st' : Pass1) :
  same_but_stdout st st' ->
  same_but_stdout (fst (analyze_pair a dt fa fb i st))
                  (fst (analyze_pair (with_method a method) dt fa fb i st')) /\
  snd (analyze_pair (with_method a method) dt fa fb i st')
  = snd (analyze_pair a dt fa fb i st).
Proof.
  intros [H1 [H2 [H3 [H4 H5]]]]. unfold analyze_pair. rewrite H1, H2, H3, H4, H5.
  destruct (estimate_filtered dt fa fb (xy st)) as [[[x y] u] v].
  change (current_max_mag (with_method a method) x y u v)
    with (current_max_mag a x y u v).
  destruct (current_max_mag a x y u v); (split; [repeat split|reflexivity]).
Qed.

Lemma pass1_loop_method (dt : float64) (pending : list Frame) :
  forall (frame_buffer : list Frame) (i : nat) (st st' : Pass1),
    same_but_stdout st st' ->
    same_but_stdout (fst (pass1_loop a dt pending frame_buffer i st))
                    (fst (pass1_loop (with_method a method) dt pending frame_buffer i st'))
    /\
    snd (pass1_loop (with_method a method) dt pending frame_buffer i st')
    = snd (pass1_loop a dt pending frame_buffer i st).
Proof.
  induction pending as [|f pending IH]; intros frame_buffer i st st' R; cbn [pass1_loop];
    change (frame_comparison_step (with_method a method))
      with (frame_comparison_step a);
    (destruct (Py.index frame_buffer 0) as [fa|e]; [|split; [exact R|reflexivity]]);
    (destruct (Py.index frame_buffer (frame_comparison_step a)) as [fb|e];
     [|split; [exact R|reflexivity]]);
    destruct (analyze_pair_method dt fa fb (S i) st st' R) as [R' E];
    destruct (analyze_pair a dt fa fb (S i) st) as [st1 r1];
    destruct (analyze_pair (with_method a method) dt fa fb (S i) st') as [st1' r1'];
    cbn [fst snd] in R', E; subst r1'; destruct r1 as [[]|e];
    try (split; [exact R'|reflexivity]).
  - split; [|reflexivity]. destruct R' as [H1 [H2 [H3 [H4 H5]]]].
    unfold same_but_stdout. cbn [read_event frames_data overall_max_mag xy cap_events
                                 running_max fst].
    rewrite H4. repeat split; assumption.
  - apply IH. destruct R' as [H1 [H2 [H3 [H4 H5]]]].
    unfold same_but_stdout. cbn [read_event frames_data overall_max_mag xy cap_events
                                 running_max].
    rewrite H4. repeat split; assumption.
Qed.

Lemma aggregate_method (arrays : list grid) :
  aggregate (with_method a method) arrays = aggregate a arrays.
Proof.
  unfold aggregate. cbn [with_method averaging_method].
  destruct (String.eqb_spec method "median"); [contradiction|].
  destruct (String.eqb_spec (averaging_method a) "median"); [contradiction|].
  reflexivity.
Qed.

Lemma render_window_method (x y x_scaled y_scaled : Coords) (vmax_to_use : float64)
  (unit_ : string) (window_data : list FrameResult) :
  render_window (with_method a method) x y x_scaled y_scaled vmax_to_use unit_ window_data
  = render_window a x y x_scaled y_scaled vmax_to_use unit_ window_data.
Proof.
  unfold render_window. rewrite !aggregate_method.
  cbn [with_method averaging_method moving_average_window scaling_factor
       frame_comparison_step].
  destruct (String.eqb_spec method "median"); [contradiction|].
  destruct (String.eqb_spec (averaging_method a) "median"); [contradiction|].
  reflexivity.
Qed.

Lemma pass2_loop_method (x y x_scaled y_scaled : Coords) (vmax_to_use : float64)
  (unit_ : string) (pairs : list FrameResult) (total : Z) (indices : list nat) :
  forall (saved : list (string * Plot)) (out out' : list Message),
    fst (fst (pass2_loop (with_method a method) x y x_scaled y_scaled vmax_to_use unit_
                pairs total indices saved out'))
    = fst (fst (pass2_loop a x y x_scaled y_scaled vmax_to_use unit_
                  pairs total indices saved out)) /\
    snd (pass2_loop (with_method a method) x y x_scaled y_scaled vmax_to_use unit_
           pairs total indices saved out')
    = snd (pass2_loop a x y x_scaled y_scaled vmax_to_use unit_
             pairs total indices saved out).
Proof.
  induction indices as [|i indices IH]; intros saved out out'; cbn [pass2_loop];
    [split; reflexivity|].
  change (moving_average_window (with_method a method)) with (moving_average_window a).
  destruct (Py.index (Py.slice pairs i (i + moving_average_window a)) 0) as [base|e];
    [|split; reflexivity].
  rewrite render_window_method.
  destruct (render_window a x y x_scaled y_scaled vmax_to_use unit_
              (Py.slice pairs i (i + moving_average_window a))) as [[name plot]|e];
    [apply IH|split; reflexivity].
Qed.

Lemma pass2_method (pairs : list FrameResult) (overall : float64)
  (xy : option (Coords * Coords)) :
  fst (fst (pass2 (with_method a method) pairs overall xy))
  = fst (fst (pass2 a pairs overall xy)) /\
  snd (pass2 (with_method a method) pairs overall xy) = snd (pass2 a pairs overall xy).
Proof.
  unfold pass2. destruct pairs as [|first rest]; [split; reflexivity|].
  cbn [with_method vmax_override scaling_factor moving_average_window averaging_method].
  destruct (vmax_override a) as [vmax|];
    (destruct xy as [[x y]|]; [|split; reflexivity]);
    destruct (scaling_uniform x y (d_u first) (d_v first) (scaling_factor a))
      as [[[x_scaled y_scaled] us] vs];
    match goal with
    | |- context [pass2_loop a x y x_scaled y_scaled ?v ?u ?fd ?t ?ix ?sv ?o] =>
        match goal with
        | |- context [pass2_loop (with_method a method) x y x_scaled y_scaled
                        v u fd t ix sv ?o'] =>
            destruct (pass2_loop_method x y x_scaled y_scaled v u fd t ix sv o o')
              as [E1 E2];
              change (pass2_loop
                        {| video_path := video_path a; output_dir := output_dir a;
                           scaling_factor := scaling_factor a;
                           vmax_override := vmax_override a;
                           frame_comparison_step := frame_comparison_step a;
                           moving_average_window := moving_average_window a;
                           averaging_method := method |})
                with (pass2_loop (with_method a method));
              destruct (pass2_loop (with_method a method) x y x_scaled y_scaled
                          v u fd t ix sv o') as [[s1 o1] r1];
              destruct (pass2_loop a x y x_scaled y_scaled v u fd t ix sv o)
                as [[s2 o2] r2];
              cbn [fst snd] in E1, E2; subst; destruct r2 as [[]|e]; split; reflexivity
        end
    end.
Qed.

End MethodFacts.

Section MethodClaims.
Import Float64 Numpy PivAnalysis.

(** X17.  Every method name other than ['median'] means the mean.
    Two calls that differ in [averaging_method] only, neither name
    being ['median'], save the same images under the same names, end
    in the same way, and analyze and read the same. *)
Theorem X17_unknown_method_is_mean {C : Collaborators} (a : Args) (method : string) :
  averaging_method a <> "median"%string ->
  method <> "median"%string ->
  images (analyze_and_save_frames (with_method a method))
    = images (analyze_and_save_frames a) /\
  outcome (analyze_and_save_frames (with_method a method))
    = outcome (analyze_and_save_frames a) /\
  analyzed (analyze_and_save_frames (with_method a method))
    = analyzed (analyze_and_save_frames a) /\
  max_mag (analyze_and_save_frames (with_method a method))
    = max_mag (analyze_and_save_frames a) /\
  capture_log (analyze_and_save_frames (with_method a method))
    = capture_log (analyze_and_save_frames a).
Proof.
  intros Ha Hm.
  remember (with_method a method) as a' eqn:Ea'.
  assert (video_path a' = video_path a) as E1 by (subst a'; reflexivity).
  assert (frame_comparison_step a' = frame_comparison_step a) as E2
    by (subst a'; reflexivity).
  unfold analyze_and_save_frames. rewrite E1, E2.
  destruct (isOpened (video_path a)); cbn [negb]; [|repeat split].
  rewrite fill_buffer_spec. cbn [app].
  destruct (feqb (CAP_PROP_FPS (video_path a)) (of_Z 0));
    (destruct (List.length (firstn (frame_comparison_step a + 1) (footage (video_path a)))
               <=? frame_comparison_step a); [repeat split|]);
    match goal with
    | |- context [pass1_loop a' ?dt ?p ?b 0 ?st'] =>
        match goal with
        | |- context [pass1_loop a dt p b 0 ?st] =>
            destruct (pass1_loop_method a method dt p b 0 st st')
              as [[H1 [H2 [H3 [H4 H5]]]] E]; [repeat split|];
              rewrite <- Ea' in H1, H2, H3, H4, H5, E;
              destruct (pass1_loop a' dt p b 0 st') as [st1' r'];
              destruct (pass1_loop a dt p b 0 st) as [st1 r]
        end
    end;
    cbn [fst snd] in H1, H2, H3, H4, H5, E; subst r';
    (destruct r as [[]|e];
     [|cbn [images outcome analyzed max_mag capture_log]; rewrite H1, H2, H4;
       repeat split]);
    rewrite H1, H2, H3;
    destruct (pass2_method a method Ha Hm (frames_data st1) (overall_max_mag st1) (xy st1))
      as [P1 P2];
    rewrite <- Ea' in P1, P2;
    destruct (pass2 a' (frames_data st1) (overall_max_mag st1) (xy st1))
      as [[saved' out2'] res'];
    destruct (pass2 a (frames_data st1) (overall_max_mag st1) (xy st1))
      as [[saved out2] res];
    cbn [fst snd] in P1, P2; subst;
    cbn [images outcome analyzed max_mag capture_log]; rewrite H4; repeat split.
Qed.

End MethodClaims.

Section NameFacts.
Import PivAnalysis.

Lemma fold_decimal (l : list ascii) (v : nat) :
  fold_left (fun v c => 10 * v + digit_value c) l v
  = v * 10 ^ List.length l + decimal_value l.
Proof.
  unfold decimal_value. revert v. induction l as [|c l IH]; intros v.
  - cbn. lia.
  - cbn [fold_left List.length]. rewrite IH, (IH (10 * 0 + digit_value c)).
    rewrite Nat.pow_succ_r'. lia.
Qed.

Lemma digit_value_char (d : nat) : d < 10 -> digit_value (Py.digit_char d) = d.
Proof.
  intros H. unfold digit_value, Py.digit_char. rewrite nat_ascii_embedding; lia.
Qed.

Lemma digits_aux_value (fuel : nat) :
  forall (n : nat) (acc : list ascii),
    n < fuel ->
    decimal_value (Py.digits_aux fuel n acc)
    = n * 10 ^ List.length acc + decimal_value acc.
Proof.
  induction fuel as [|fuel IH]; intros n acc Hn; [lia|].
  rewrite digits_aux_step.
  pose proof (Nat.mod_upper_bound n 10 ltac:(lia)) as Hm.
  pose proof (Nat.div_mod_eq n 10) as Hd.
  destruct (n <? 10) eqn:E.
  - apply Nat.ltb_lt in E. rewrite Nat.mod_small by exact E.
    unfold decimal_value at 1. cbn [fold_left]. rewrite fold_decimal.
    rewrite digit_value_char by exact E. lia.
  - apply Nat.ltb_ge in E. rewrite IH by lia.
    cbn [List.length]. unfold decimal_value at 1. cbn [fold_left].
    rewrite fold_decimal, digit_value_char by exact Hm.
    rewrite Nat.pow_succ_r'. nia.
Qed.

Lemma decimal_value_zeros (k : nat) (l : list ascii) :
  decimal_value (repeat "0"%char k ++ l) = decimal_value l.
Proof.
  induction k as [|k IH]; [reflexivity|].
  cbn [repeat app]. unfold decimal_value in *. cbn [fold_left]. exact IH.
Qed.

(** Reading back the digits that ['{:0Wd}'] writes gives the number. *)
Lemma format_0d_value (width n : nat) : decimal_value (Py.format_0d width n) = n.
Proof.
  unfold Py.format_0d. rewrite decimal_value_zeros. unfold Py.digits.
  rewrite digits_aux_value by lia. cbn. lia.
Qed.

Lemma list_ascii_of_string_app (s1 s2 : string) :
  list_ascii_of_string (s1 ++ s2) = list_ascii_of_string s1 ++ list_ascii_of_string s2.
Proof.
  induction s1 as [|c s1 IH]; [reflexivity|]. cbn. rewrite IH. reflexivity.
Qed.

Lemma image_name_inj (i j : nat) : image_name i = image_name j -> i = j.
Proof.
  unfold image_name. intros H.
  apply (f_equal list_ascii_of_string) in H.
  rewrite !list_ascii_of_string_app, !list_ascii_of_string_of_list_ascii in H.
  apply app_inv_head, app_inv_tail in H.
  rewrite <- (format_0d_value 3 i), <- (format_0d_value 3 j), H. reflexivity.
Qed.

End NameFacts.

Section NameLoopFacts.
Import Float64 Numpy PivAnalysis.
Context {C : Collaborators}.
Variable a : Args.

Lemma analyze_pair_frames (dt : float64) (fa fb : Frame) (i : nat) (st : Pass1) :
  exists u v,
    frames_data (fst (analyze_pair a dt fa fb i st))
    = frames_data st ++ [ {| d_u := u; d_v := v; d_bg := fa; d_frame_index := i |} ].
Proof.
  unfold analyze_pair.
  destruct (estimate_filtered dt fa fb (xy st)) as [[[x y] u] v].
  exists u, v. destruct (current_max_mag a x y u v); reflexivity.
Qed.

Lemma pass1_loop_indices (dt : float64) (pending : list Frame) :
  forall (frame_buffer : list Frame) (st : Pass1),
    map d_frame_index (frames_data st) = seq 1 (List.length (frames_data st)) ->
    map d_frame_index
      (frames_data (fst (pass1_loop a dt pending frame_buffer
                           (List.length (frames_data st)) st)))
    = seq 1 (List.length
               (frames_data (fst (pass1_loop a dt pending frame_buffer
                                    (List.length (frames_data st)) st)))).
Proof.
  induction pending as [|f pending IH]; intros frame_buffer st Hst; cbn [pass1_loop];
    (destruct (Py.index frame_buffer 0) as [fa|e]; [|exact Hst]);
    (destruct (Py.index frame_buffer (frame_comparison_step a)) as [fb|e]; [|exact Hst]);
    destruct (analyze_pair_frames dt fa fb (S (List.length (frames_data st))) st)
      as [u [v E]];
    destruct (analyze_pair a dt fa fb (S (List.length (frames_data st))) st)
      as [st' [[]|e]]; cbn [fst] in *;
    assert (map d_frame_index (frames_data st') = seq 1 (List.length (frames_data st')))
      as Hst'
      by (rewrite E, map_app, length_app, Hst; cbn [map List.length d_frame_index];
          rewrite Nat.add_1_r, seq_S; reflexivity);
    try exact Hst'.
  assert (S (List.length (frames_data st)) = List.length (frames_data st')) as L
    by (rewrite E, length_app; cbn; lia).
  rewrite L. apply (IH _ (read_event true st')). exact Hst'.
Qed.

Lemma render_window_name (x y x_scaled y_scaled : Coords) (vmax_to_use : float64)
  (unit_ : string) (window_data : list FrameResult) (base : FrameResult)
  (name : string) (plot : Plot) :
  Py.index window_data 0 = Py.Ok base ->
  render_window a x y x_scaled y_scaled vmax_to_use unit_ window_data
    = Py.Ok (name, plot) ->
  name = image_name (d_frame_index base).
Proof.
  unfold render_window. intros ->. cbn [Py.bind].
  destruct (aggregate a (map d_u window_data)) as [au|e]; cbn [Py.bind]; [|discriminate].
  destruct (aggregate a (map d_v window_data)) as [av|e]; cbn [Py.bind]; [|discriminate].
  destruct (scaling_uniform x y au av (scaling_factor a)) as [[[xs ys] us] vs].
  destruct (magnitude us vs) as [mag|e]; cbn [Py.bind]; [|discriminate].
  intros H. injection H as <- _. reflexivity.
Qed.

Lemma slice_base (pairs : list FrameResult) (i j : nat) (base : FrameResult) :
  Py.index (Py.slice pairs i j) 0 = Py.Ok base -> nth_error pairs i = Some base.
Proof.
  unfold Py.index, Py.slice.
  destruct (nth_error (firstn (j - i) (skipn i pairs)) 0) as [b|] eqn:E; [|discriminate].
  intros H. injection H as ->.
  destruct (j - i) as [|k]; [discriminate|].
  rewrite <- (Nat.add_0_r i), <- nth_error_skipn.
  destruct (skipn i pairs) as [|d rest]; [discriminate|].
  cbn in E |- *. exact E.
Qed.

Lemma pass2_loop_names (x y x_scaled y_scaled : Coords) (vmax_to_use : float64)
  (unit_ : string) (pairs : list FrameResult) (total : Z) :
  map d_frame_index pairs = seq 1 (List.length pairs) ->
  forall (k i0 : nat) (saved : list (string * Plot)) (out : list Message),
  exists k',
    map fst (fst (fst (pass2_loop a x y x_scaled y_scaled vmax_to_use unit_ pairs total
                         (seq i0 k) saved out)))
    = map fst saved ++ map image_name (seq (S i0) k').
Proof.
  intros Hp. induction k as [|k IH]; intros i0 saved out; cbn [seq pass2_loop].
  - exists 0. cbn. rewrite app_nil_r. reflexivity.
  - destruct (Py.index (Py.slice pairs i0 (i0 + moving_average_window a)) 0)
      as [base|e] eqn:B.
    2: exists 0; cbn; rewrite app_nil_r; reflexivity.
    destruct (render_window a x y x_scaled y_scaled vmax_to_use unit_
                (Py.slice pairs i0 (i0 + moving_average_window a)))
      as [[name plot]|e] eqn:R.
    2: exists 0; cbn; rewrite app_nil_r; reflexivity.
    destruct (IH (S i0) (saved ++ [(name, plot)])
                (out ++ [MsgSaving (S i0) total (d_frame_index base)])) as [k' E].
    exists (S k'). rewrite E, map_app, <- app_assoc. cbn [map fst seq app].
    rewrite (render_window_name _ _ _ _ _ _ _ _ _ _ B R).
    apply slice_base in B.
    apply (map_nth_error d_frame_index) in B. rewrite Hp in B.
    assert (i0 < List.length pairs) as Hi.
    { assert (nth_error (seq 1 (List.length pairs)) i0 <> None) as Hn
        by (rewrite B; discriminate).
      apply nth_error_Some in Hn. rewrite length_seq in Hn. exact Hn. }
    rewrite nth_error_seq in B.
    apply Nat.ltb_lt in Hi. rewrite Hi in B. injection B as <-. reflexivity.
Qed.

Lemma pass2_names (pairs : list FrameResult) (overall : float64)
  (xy : option (Coords * Coords)) :
  map d_frame_index pairs = seq 1 (List.length pairs) ->
  exists k,
    map fst (fst (fst (pass2 a pairs overall xy))) = map image_name (seq 1 k).
Proof.
  intros Hp. unfold pass2. destruct pairs as [|first rest]; [exists 0; reflexivity|].
  destruct (vmax_override a) as [vmax|];
    (destruct xy as [[x y]|]; [|exists 0; reflexivity]);
    destruct (scaling_uniform x y (d_u first) (d_v first) (scaling_factor a))
      as [[[x_scaled y_scaled] us] vs];
    unfold Py.range;
    match goal with
    | |- context [pass2_loop a x y x_scaled y_scaled ?v ?u ?fd ?t (seq 0 ?k) ?sv ?out] =>
        destruct (pass2_loop_names x y x_scaled y_scaled v u fd t Hp k 0 sv out)
          as [k' E];
          destruct (pass2_loop a x y x_scaled y_scaled v u fd t (seq 0 k) sv out)
            as [[saved out'] [[]|e]]; exists k'; exact E
    end.
Qed.

End NameLoopFacts.

Section NameClaims.
Import Float64 Numpy PivAnalysis.

(** X18.  In every run, the [k]-th image saved is named after frame
    [k], and no two images share a name, so that none overwrites
    another: ['{:03d}'] never truncates, and the names of different
    frame numbers differ, also from 1000 on. *)
Theorem X18_image_names_distinct {C : Collaborators} (a : Args) :
  map fst (images (analyze_and_save_frames a))
    = map image_name (seq 1 (List.length (images (analyze_and_save_frames a)))) /\
  NoDup (map fst (images (analyze_and_save_frames a))) /\
  (forall i j, image_name i = image_name j -> i = j).
Proof.
  assert (exists k, map fst (images (analyze_and_save_frames a))
                    = map image_name (seq 1 k)) as [k E].
  { apply (run_cases a); cbn [images]; try (intros; exists 0; reflexivity).
    intros _ _ out reads st saved out2 res _ E1 E2.
    replace saved with (fst (fst (pass2 a (frames_data st) (overall_max_mag st) (xy st))))
      by (rewrite E2; reflexivity).
    apply pass2_names.
    pose proof (pass1_loop_indices a (frame_interval a)
                  (skipn (frame_comparison_step a + 1) (footage (video_path a)))
                  (firstn (frame_comparison_step a + 1) (footage (video_path a)))
                  (st0 (map CapRead reads) out) eq_refl) as H.
    change (List.length (frames_data (st0 (map CapRead reads) out))) with 0 in H.
    rewrite E1 in H. exact H. }
  assert (List.length (images (analyze_and_save_frames a)) = k) as L.
  { rewrite <- (length_map fst), E, length_map, length_seq. reflexivity. }
  rewrite L. split; [exact E|]. split; [|exact image_name_inj].
  rewrite E. apply Finite.Injective_map_NoDup; [|apply seq_NoDup].
  intros i j. apply image_name_inj.
Qed.

End NameClaims.

(* ================================================================== *)
(** * Part XXII.  More of the assembler                             *)
(* ================================================================== *)

Section StringOrderFacts.

Lemma ascii_compare_lt_trans (x y z : ascii) :
  Ascii.compare x y = Lt -> Ascii.compare y z = Lt -> Ascii.compare x z = Lt.
Proof.
  unfold Ascii.compare. rewrite !N.compare_lt_iff. lia.
Qed.

Lemma string_leb_compare (s1 s2 : string) :
  String.leb s1 s2 = true <-> String.compare s1 s2 <> Gt.
Proof.
  unfold String.leb. destruct (String.compare s1 s2); split; intros H;
    try reflexivity; try discriminate; contradiction.
Qed.

Lemma string_leb_trans (s1 s2 s3 : string) :
  String.leb s1 s2 = true -> String.leb s2 s3 = true -> String.leb s1 s3 = true.
Proof.
  rewrite !string_leb_compare. revert s2 s3.
  induction s1 as [|x s1 IH]; intros [|y s2] [|z s3]; cbn [String.compare];
    try discriminate; try (intros H1 H2; contradiction); try (intros; discriminate).
  destruct (Ascii.compare x y) eqn:Exy; [| |intros H; contradiction].
  - apply Ascii.compare_eq_iff in Exy. subst y.
    destruct (Ascii.compare x z); [apply IH|intros; discriminate|
                                   intros _ H; contradiction].
  - intros _. destruct (Ascii.compare y z) eqn:Eyz; [| |intros H; contradiction].
    + apply Ascii.compare_eq_iff in Eyz. subst z. rewrite Exy. intros; discriminate.
    + rewrite (ascii_compare_lt_trans x y z Exy Eyz). intros; discriminate.
Qed.

(** A list has one sorted arrangement only. *)
Lemma sorted_unique (l1 : list string) :
  forall l2,
    Permutation l1 l2 ->
    LocallySorted (fun s1 s2 => String.leb s1 s2 = true) l1 ->
    LocallySorted (fun s1 s2 => String.leb s1 s2 = true) l2 ->
    l1 = l2.
Proof.
  assert (forall l, LocallySorted (fun s1 s2 => String.leb s1 s2 = true) l ->
                    StronglySorted (fun s1 s2 => String.leb s1 s2 = true) l) as Strong.
  { intros l H. apply Sorted_StronglySorted.
    - intros x y z. apply string_leb_trans.
    - apply Sorted_LocallySorted_iff. exact H. }
  induction l1 as [|a l1 IH]; intros l2 HP H1 H2.
  - apply Permutation_nil in HP. subst. reflexivity.
  - destruct l2 as [|b l2]; [apply Permutation_sym, Permutation_nil in HP; discriminate|].
    pose proof (Strong _ H1) as S1. pose proof (Strong _ H2) as S2.
    apply StronglySorted_inv in S1. destruct S1 as [S1 F1].
    apply StronglySorted_inv in S2. destruct S2 as [S2 F2].
    rewrite Forall_forall in F1, F2.
    assert (a = b) as E.
    { assert (In a (b :: l2)) as Ia by (eapply Permutation_in; [exact HP|left; reflexivity]).
      assert (In b (a :: l1)) as Ib
        by (eapply Permutation_in; [apply Permutation_sym; exact HP|left; reflexivity]).
      destruct Ia as [Ia | Ia]; [symmetry; exact Ia|].
      destruct Ib as [Ib | Ib]; [exact Ib|].
      apply String.leb_antisym; [apply F1, Ib|apply F2, Ia]. }
    subst b. f_equal. apply IH.
    + apply Permutation_cons_inv in HP. exact HP.
    + inversion H1; subst; [constructor|assumption].
    + inversion H2; subst; [constructor|assumption].
Qed.

Lemma sorted_permutation (l1 l2 : list string) :
  Permutation l1 l2 -> Py.sorted l1 = Py.sorted l2.
Proof.
  intros HP.
  destruct (sorted_is_sorted l1) as [S1 P1]. destruct (sorted_is_sorted l2) as [S2 P2].
  apply sorted_unique; [|exact S1|exact S2].
  eapply Permutation_trans; [apply Permutation_sym; exact P1|].
  eapply Permutation_trans; [exact HP|exact P2].
Qed.

End StringOrderFacts.

Section AssemblerFurther.
Import CreateVideo.
Variable Image : Type.
Variable shape : Image -> nat * nat * nat.

Lemma write_frames_ext (disk disk' : Disk Image) (files : list string) :
  (forall f, imread disk' f = imread disk f) ->
  forall i total events out,
    write_frames disk' files i total events out
    = write_frames disk files i total events out.
Proof.
  intros H. induction files as [|f files IH]; intros i total events out;
    cbn [write_frames]; [reflexivity|].
  rewrite H. destruct (imread disk f); apply IH.
Qed.

(** X20.  When the first file in sorted order does not decode, no
    video is made at all: the writer is never opened and no file is
    skipped with a warning, whatever the other files hold; the error
    about the first image is the last line printed. *)
Theorem X20_first_image_decides (disk : Disk Image)
  (image_folder output_folder : string) (fps : Z) (image_pattern : string)
  (output_filename : option string) (first : string) (rest : list string) :
  Py.sorted (glob disk (Py.os_path_join image_folder image_pattern)) = first :: rest ->
  imread disk first = None ->
  writer_log (create_video_from_images shape disk image_folder output_folder fps
                image_pattern output_filename) = [] /\
  console (create_video_from_images shape disk image_folder output_folder fps
             image_pattern output_filename)
    = [MsgLoading (S (List.length rest)); ErrFirstImage first] /\
  warnings (console (create_video_from_images shape disk image_folder output_folder fps
                       image_pattern output_filename)) = [].
Proof.
  intros E Hf. unfold create_video_from_images. rewrite E, Hf.
  repeat split.
Qed.

(** X21.  The order in which [glob] lists the files does not matter:
    two folders that hold the same files, listed in different orders,
    give the same calls on the writer and the same lines printed. *)
Theorem X21_glob_order_irrelevant (disk disk' : Disk Image)
  (image_folder output_folder : string) (fps : Z) (image_pattern : string)
  (output_filename : option string) :
  Permutation (glob disk (Py.os_path_join image_folder image_pattern))
              (glob disk' (Py.os_path_join image_folder image_pattern)) ->
  (forall f, imread disk' f = imread disk f) ->
  now_strftime disk' = now_strftime disk ->
  create_video_from_images shape disk' image_folder output_folder fps image_pattern
    output_filename
  = create_video_from_images shape disk image_folder output_folder fps image_pattern
      output_filename.
Proof.
  intros HP Hread Hnow. unfold create_video_from_images.
  rewrite <- (sorted_permutation _ _ HP), Hnow.
  destruct (Py.sorted (glob disk (Py.os_path_join image_folder image_pattern)))
    as [|first rest]; [reflexivity|].
  rewrite Hread. destruct (imread disk first) as [frame|]; [|reflexivity].
  destruct (shape frame) as [[height width] layers].
  rewrite (write_frames_ext disk disk' _ Hread). reflexivity.
Qed.

End AssemblerFurther.

Section FrameOrder.
Import PivAnalysis.

Lemma image_name_compare (i j : nat) :
  i < 1000 -> j < 1000 ->
  String.compare (image_name i) (image_name j) = Nat.compare i j.
Proof.
  intros Hi Hj.
  rewrite (image_name_digits i Hi), (image_name_digits j Hj), compare_prefix.
  cbn [String.compare].
  assert (forall n, n < 1000 -> n / 100 < 10) as D2
    by (intros n Hn; apply Nat.Div0.div_lt_upper_bound; lia).
  assert (forall n, n / 10 mod 10 < 10) as D1
    by (intros n; apply Nat.mod_upper_bound; lia).
  assert (forall n, n mod 10 < 10) as D0
    by (intros n; apply Nat.mod_upper_bound; lia).
  rewrite !compare_digit_char by auto.
  rewrite <- (compare_three_digits i j Hi Hj).
  destruct (Nat.compare (i / 100) (j / 100)); try reflexivity.
  destruct (Nat.compare (i / 10 mod 10) (j / 10 mod 10)); try reflexivity.
  destruct (Nat.compare (i mod 10) (j mod 10)); reflexivity.
Qed.

(** X22.  The two stages composed.  When the folder holds the images
    of frame numbers below 1000, under the names that the PIV stage
    gives them, the assembler reads them in the order of their frame
    numbers, however [glob] lists them. *)
Theorem X22_frames_assembled_in_order (folder : string) (frames : list nat) :
  Forall (fun n => n < 1000) frames ->
  exists ordered,
    Permutation frames ordered /\
    LocallySorted le ordered /\
    Py.sorted (map (fun n => folder ++ image_name n)%string frames)
    = map (fun n => folder ++ image_name n)%string ordered.
Proof.
  intros Hf.
  destruct (sorted_is_sorted (map (fun n => folder ++ image_name n)%string frames))
    as [HS HP].
  apply Permutation_sym, Permutation_map_inv in HP.
  destruct HP as [ordered [E HP]]. exists ordered.
  split; [exact HP|]. split; [|exact E].
  assert (Forall (fun n => n < 1000) ordered) as Ho.
  { apply Forall_forall. intros n Hn. rewrite Forall_forall in Hf. apply Hf.
    eapply Permutation_in; [apply Permutation_sym; exact HP|exact Hn]. }
  rewrite E in HS. clear E HP Hf.
  induction ordered as [|n ordered IH]; [constructor|].
  destruct ordered as [|m ordered]; [constructor|].
  inversion HS as [| |? ? ? HS' Hle]; subst.
  inversion Ho as [|? ? Hn Ho']; subst. inversion Ho' as [|? ? Hm _]; subst.
  constructor; [apply IH; assumption|].
  apply string_leb_compare in Hle.
  rewrite compare_prefix, (image_name_compare n m Hn Hm) in Hle.
  destruct (Nat.compare_spec n m); [lia|lia|contradiction].
Qed.

End FrameOrder.

(* ================================================================== *)
(** * Part XXIII.  The servo drive                                  *)
(* ================================================================== *)

Section RoundingBound.
Local Open Scope Z_scope.
Variables prec emax : Z.

Lemma shr_1_half (mrs : shr_record) :
  0 <= shr_m mrs -> shr_m (shr_1 mrs) = shr_m mrs / 2.
Proof.
  destruct mrs as [m r s]. cbn [shr_m shr_1].
  destruct m as [|p|p]; [reflexivity| |lia]. intros _.
  rewrite <- Z.div2_div. destruct p; reflexivity.
Qed.


Lemma pow2_xO (p : positive) : 2 ^ Zpos p~0 = 2 ^ Zpos p * 2 ^ Zpos p.
Proof. change (Zpos p~0) with (2 * Zpos p). apply Z.pow_twice_r. Qed.

Lemma pow2_xI (p : positive) : 2 ^ Zpos p~1 = 2 * (2 ^ Zpos p * 2 ^ Zpos p).
Proof.
  change (Zpos p~1) with (2 * Zpos p + 1).
  rewrite Z.pow_add_r, Z.pow_twice_r, Z.pow_1_r by lia. ring.
Qed.

Lemma iter_pos_shr_1_div (p : positive) :
  forall mrs, 0 <= shr_m mrs ->
    shr_m (iter_pos shr_1 p mrs) = shr_m mrs / 2 ^ Zpos p.
Proof.
  induction p as [p IH|p IH|]; intros mrs H; cbn [iter_pos];
    try (assert (0 < 2 ^ Zpos p) as Hp by (apply Z.pow_pos_nonneg; lia)).
  - rewrite IH by (apply iter_pos_shr_1_nonneg, shr_1_nonneg, H).
    rewrite IH by (apply shr_1_nonneg, H).
    rewrite shr_1_half by exact H.
    rewrite !Z.div_div by lia.
    f_equal. rewrite pow2_xI. ring.
  - rewrite IH by (apply iter_pos_shr_1_nonneg, H).
    rewrite IH by exact H.
    rewrite Z.div_div by lia.
    f_equal. rewrite pow2_xO. ring.
  - rewrite shr_1_half by exact H. reflexivity.
Qed.

(** [shr_fexp] shifts a non-negative mantissa right by some [k >= 0]. *)
Lemma shr_fexp_floor (m e : Z) :
  0 <= m ->
  exists k,
    0 <= k /\
    snd (shr_fexp prec emax m e loc_Exact) = e + k /\
    shr_m (fst (shr_fexp prec emax m e loc_Exact)) = m / 2 ^ k /\
    (k = 0 -> fst (shr_fexp prec emax m e loc_Exact) = Build_shr_record m false false) /\
    (0 < k -> e + k = fexp prec emax (Zdigits2 m + e)).
Proof.
  intros H. unfold shr_fexp, shr. cbn [shr_record_of_loc].
  destruct (fexp prec emax (Zdigits2 m + e) - e) as [|p|p] eqn:E.
  - exists 0. cbn [fst snd shr_m]. rewrite Z.div_1_r, Z.add_0_r. repeat split; lia.
  - exists (Zpos p). cbn [fst snd].
    rewrite iter_pos_shr_1_div by exact H. cbn [shr_m]. repeat split; lia.
  - exists 0. cbn [fst snd shr_m]. rewrite Z.div_1_r, Z.add_0_r. repeat split; lia.
Qed.

Lemma round_nearest_even_le (m : Z) (l : location) :
  m <= round_nearest_even m l <= m + 1.
Proof.
  unfold round_nearest_even. destruct l as [|[| |]]; try lia.
  destruct (Z.even m); lia.
Qed.

(** Rounding a value of at most [N], with digits to spare below the
    unit, and taking the integer part gives at most [N]. *)
Lemma round_trunc_le (s : bool) (M : positive) (E N : Z) :
  E < 0 -> 0 <= N -> N < 2 ^ (emax - prec) -> 0 <= emax - prec ->
  fexp prec emax (Zdigits2 (Zpos M) + E) <= -1 ->
  Zpos M <= N * 2 ^ (- E) ->
  exists n,
    Servo.int_of_float (binary_round_aux prec emax s (Zpos M) E loc_Exact)
      = inr (cond_Zopp s n) /\
    0 <= n <= N.
Proof.
  intros HE HN HNmax Hep Hfexp HM. unfold binary_round_aux.
  destruct (shr_fexp_floor (Zpos M) E ltac:(lia)) as [k [Hk [He' [Hm' [Hk0 Hkpos]]]]].
  destruct (shr_fexp prec emax (Zpos M) E loc_Exact) as [mrs' e'].
  cbn [fst snd] in He', Hm', Hk0.
  set (mr := round_nearest_even (shr_m mrs') (loc_of_shr_record mrs')).
  assert (0 < - e') as Ha.
  { destruct (Z.eq_dec k 0) as [K|K]; [lia|]. specialize (Hkpos ltac:(lia)). lia. }
  assert (0 <= mr <= N * 2 ^ (- e') + 1) as Hmr.
  { destruct (Z.eq_dec k 0) as [K|K].
    - subst mr. rewrite (Hk0 K). cbn [shr_m loc_of_shr_record round_nearest_even].
      subst e'. rewrite K, Z.add_0_r. lia.
    - pose proof (round_nearest_even_le (shr_m mrs') (loc_of_shr_record mrs')) as Hr.
      fold mr in Hr. rewrite Hm' in Hr.
      assert (0 <= Zpos M / 2 ^ k) by (apply Z.div_pos; [lia|apply Z.pow_pos_nonneg; lia]).
      assert (Zpos M / 2 ^ k <= N * 2 ^ (- e')).
      { replace (- E) with (- e' + k) in HM by lia.
        rewrite Z.pow_add_r, Z.mul_assoc in HM by lia.
        apply Z.div_le_upper_bound; [apply Z.pow_pos_nonneg; lia|].
        rewrite Z.mul_comm. exact HM. }
      lia. }
  destruct (shr_fexp_floor mr e' ltac:(lia)) as [k2 [Hk2 [He'' [Hm'' _]]]].
  fold mr. destruct (shr_fexp prec emax mr e' loc_Exact) as [mrs'' e''].
  cbn [fst snd] in He'', Hm''.
  assert (0 < 2 ^ (- e')) as Hpa by (apply Z.pow_pos_nonneg; lia).
  assert (2 <= 2 ^ (- e')) as Hpa2.
  { replace (- e') with (1 + (- e' - 1)) by lia. rewrite Z.pow_add_r by lia.
    assert (0 < 2 ^ (- e' - 1)) by (apply Z.pow_pos_nonneg; lia). lia. }
  assert (mr / 2 ^ (- e') <= N) as Hq.
  { eapply Z.le_trans; [apply (Z.div_le_mono _ (N * 2 ^ (- e') + 1)); lia|].
    rewrite Z.div_add_l, Z.div_small by lia. lia. }
  assert (0 < 2 ^ k2) as Hpk by (apply Z.pow_pos_nonneg; lia).
  assert (0 <= shr_m mrs'') as Hnn by (rewrite Hm''; apply Z.div_pos; lia).
  destruct (shr_m mrs'') as [|m|m] eqn:Em; [| |lia].
  - exists 0. cbn [Servo.int_of_float]. destruct s; cbn; split; [reflexivity|lia|reflexivity|lia].
  - assert (0 <= Z.shiftl (Zpos m) e'' <= N /\ (0 <= e'' -> 2 ^ e'' <= N)) as [HT Hbig].
    { destruct (Z_lt_le_dec e'' 0) as [Hneg|Hpos].
      - split; [|lia].
        rewrite Z.shiftl_div_pow2 by lia.
        assert (0 < 2 ^ (- e'')) by (apply Z.pow_pos_nonneg; lia).
        split; [apply Z.div_pos; lia|].
        rewrite Hm'', Z.div_div by lia.
        rewrite <- Z.pow_add_r by lia. replace (k2 + - e'') with (- e') by lia.
        exact Hq.
      - assert (0 < 2 ^ e'') by (apply Z.pow_pos_nonneg; lia).
        assert (Zpos m * 2 ^ e'' <= N).
        { eapply Z.le_trans; [|exact Hq].
          apply Z.div_le_lower_bound; [lia|].
          pose proof (Z.mul_div_le mr (2 ^ k2) Hpk) as Hd. rewrite <- Hm'' in Hd.
          replace k2 with (- e' + e'') in Hd by lia.
          rewrite Z.pow_add_r in Hd by lia. nia. }
        split; [rewrite Z.shiftl_mul_pow2 by lia; nia|]. intros _. nia. }
    destruct (e'' <=? emax - prec) eqn:Ele.
    + exists (Z.shiftl (Zpos m) e''). cbn [Servo.int_of_float]. split; [reflexivity|exact HT].
    + exfalso. apply Z.leb_gt in Ele.
      assert (2 ^ (emax - prec) <= 2 ^ e'') by (apply Z.pow_le_mono_r; lia).
      specialize (Hbig ltac:(lia)). lia.
Qed.

End RoundingBound.

Section FormatFacts.
Local Open Scope Z_scope.
Variables prec emax : Z.
Hypothesis Hprec : 10 <= prec.
Hypothesis Hemax : prec + 9 <= emax.

Lemma digits2_size (p : positive) : digits2_pos p = Pos.size p.
Proof. induction p as [p IH|p IH|]; cbn; [rewrite IH|rewrite IH|]; reflexivity. Qed.

Lemma digits_le (M : positive) (n : Z) :
  0 <= n -> Zpos M < 2 ^ n -> Zdigits2 (Zpos M) <= n.
Proof.
  intros Hn HM. cbn [Zdigits2]. rewrite digits2_size.
  pose proof (Pos.size_le M) as H.
  apply Pos2Z.pos_le_pos in H. rewrite Pos2Z.inj_pow in H.
  change (Zpos M~0) with (2 * Zpos M) in H. change (Zpos 2) with 2 in H.
  assert (2 ^ Zpos (Pos.size M) < 2 ^ (n + 1)) as Hlt
    by (rewrite Z.pow_add_r, Z.pow_1_r by lia; lia).
  apply Z.pow_lt_mono_r_iff in Hlt; lia.
Qed.

Lemma bounded_mantissa (m : positive) (e : Z) :
  bounded prec emax m e = true -> Zpos m < 2 ^ prec.
Proof.
  unfold bounded, canonical_mantissa, fexp. intros H.
  apply andb_prop in H. destruct H as [H _]. apply Z.eqb_eq in H.
  rewrite digits2_size in H.
  pose proof (Pos.size_gt m) as Hg.
  apply Pos2Z.pos_lt_pos in Hg. rewrite Pos2Z.inj_pow in Hg. change (Zpos 2) with 2 in Hg.
  assert (2 ^ Zpos (Pos.size m) <= 2 ^ prec) by (apply Z.pow_le_mono_r; lia).
  lia.
Qed.

Lemma not_above (mc m : positive) (ec e : Z) :
  SFltb (S754_finite false mc ec) (S754_finite false m e) = false ->
  e < ec \/ (e = ec /\ Zpos m <= Zpos mc).
Proof.
  unfold SFltb. cbn [SFcompare].
  destruct (Z.compare_spec ec e) as [->|H|H]; [|discriminate|lia].
  change (Pos.compare_cont Eq mc m) with (Pos.compare mc m).
  destruct (Pos.compare_spec mc m) as [->|H|H]; [lia|discriminate|lia].
Qed.

Lemma not_below (mc m : positive) (ec e : Z) :
  SFltb (S754_finite true m e) (S754_finite true mc ec) = false ->
  e < ec \/ (e = ec /\ Zpos m <= Zpos mc).
Proof.
  unfold SFltb. cbn [SFcompare].
  destruct (Z.compare_spec e ec) as [->|H|H]; [|lia|discriminate].
  change (Pos.compare_cont Eq m mc) with (Pos.compare m mc).
  destruct (Pos.compare_spec m mc) as [->|H|H]; cbn [CompOpp]; [lia|lia|discriminate].
Qed.

(** A float of magnitude at most [2^-j], times 500, has an integer
    part of magnitude at most [N], where [500 <= N * 2^j]. *)
Lemma mul_span_le (s : bool) (m : positive) (e : Z) (m500 : positive)
  (e500 j N : Z) :
  Zpos m500 = 500 * 2 ^ (prec - 9) -> e500 = 9 - prec ->
  0 <= j -> 500 <= N * 2 ^ j -> N <= 500 ->
  Zpos m < 2 ^ prec ->
  e < 1 - prec - j \/ (e = 1 - prec - j /\ Zpos m <= 2 ^ (prec - 1)) ->
  exists n,
    Servo.int_of_float
      (SFmul prec emax (S754_finite s m e) (S754_finite false m500 e500))
    = inr (cond_Zopp s n) /\
    0 <= n <= N.
Proof.
  intros Hm500 He500 Hj HN HN500 Hm Hle. cbn [SFmul].
  replace (xorb s false) with s by (destruct s; reflexivity).
  assert (0 <= N) as HN0.
  { assert (0 < 2 ^ j) by (apply Z.pow_pos_nonneg; lia). nia. }
  assert (Zpos m <= 2 ^ (- j - e)) as Hmx.
  { destruct Hle as [Hlt | [-> Hle]].
    - assert (2 ^ prec <= 2 ^ (- j - e)) by (apply Z.pow_le_mono_r; lia). lia.
    - replace (- j - (1 - prec - j)) with (prec - 1) by lia. exact Hle. }
  assert (e + e500 < 0) as HE by lia.
  assert (Zpos (m * m500) <= N * 2 ^ (- (e + e500))) as HM.
  { rewrite Pos2Z.inj_mul, Hm500.
    replace (- (e + e500)) with ((- j - e) + j + (prec - 9)) by lia.
    rewrite !Z.pow_add_r by lia.
    assert (0 < 2 ^ (prec - 9)) by (apply Z.pow_pos_nonneg; lia).
    assert (0 < 2 ^ (- j - e)) by (apply Z.pow_pos_nonneg; lia).
    assert (0 < 2 ^ j) by (apply Z.pow_pos_nonneg; lia).
    assert (Zpos m * 500 <= 2 ^ (- j - e) * (N * 2 ^ j)) by nia.
    nia. }
  apply round_trunc_le; try lia.
  - assert (2 ^ 9 <= 2 ^ (emax - prec)) by (apply Z.pow_le_mono_r; lia).
    change (2 ^ 9) with 512 in *. lia.
  - assert (Zdigits2 (Zpos (m * m500)) <= 9 - (e + e500)) as Hd.
    { apply digits_le; [lia|].
      replace (9 - (e + e500)) with (9 + - (e + e500)) by lia.
      rewrite Z.pow_add_r by lia. change (2 ^ 9) with 512.
      assert (0 < 2 ^ (- (e + e500))) by (apply Z.pow_pos_nonneg; lia). nia. }
    unfold fexp, emin. lia.
Qed.

End FormatFacts.

Section ServoFacts.
Import Servo.
Local Open Scope Z_scope.

Lemma all_from_spec (test : Z -> bool) (n : nat) :
  forall p, all_from test p n = true ->
  forall q, p <= q < p + Z.of_nat n -> test q = true.
Proof.
  induction n as [|n IH]; intros p H q Hq; [lia|].
  cbn [all_from] in H. apply andb_prop in H. destruct H as [H1 H2].
  destruct (Z.eq_dec q p) as [->|Hne]; [exact H1|].
  apply (IH (p + 1) H2). lia.
Qed.

(** The conversion, pulse width by pulse width, against the integer
    quotient. *)
Lemma duty64_table :
  all_from (fun p => match pulse_us_to_u16 binary64 p with
                     | inr d => d =? 65535 * p / 20000
                     | inl _ => false
                     end) 0 (Z.to_nat 20001) = true.
Proof. vm_compute. reflexivity. Qed.

Lemma duty32_table :
  all_from (fun p => match pulse_us_to_u16 binary32 p with
                     | inr d => (d =? 65535 * p / 20000) || (d =? 65535 * p / 20000 + 1)
                     | inl _ => false
                     end) 0 (Z.to_nat 20001) = true.
Proof. vm_compute. reflexivity. Qed.

Lemma pulse_us_to_u16_clip (fmt : format) (p : Z) :
  pulse_us_to_u16 fmt p = pulse_us_to_u16 fmt (Z.max 0 (Z.min p 20000)) /\
  0 <= Z.max 0 (Z.min p 20000) <= 20000.
Proof.
  split; [|lia]. unfold pulse_us_to_u16, PERIOD_US.
  destruct (Z.ltb_spec p 0) as [H|H].
  - replace (Z.max 0 (Z.min p 20000)) with 0 by lia. reflexivity.
  - destruct (Z.gtb_spec p 20000) as [H'|H'].
    + replace (Z.max 0 (Z.min p 20000)) with 20000 by lia. reflexivity.
    + replace (Z.max 0 (Z.min p 20000)) with p by lia.
      destruct (Z.ltb_spec p 0); [lia|]. destruct (Z.gtb_spec p 20000); [lia|].
      reflexivity.
Qed.

Lemma duty64_exact (p : Z) :
  0 <= p <= 20000 -> pulse_us_to_u16 binary64 p = inr (65535 * p / 20000).
Proof.
  intros Hp. pose proof (all_from_spec _ _ _ duty64_table p ltac:(lia)) as H.
  cbn beta in H. destruct (pulse_us_to_u16 binary64 p) as [e|d]; [discriminate|].
  apply Z.eqb_eq in H. subst d. reflexivity.
Qed.

Lemma duty32_close (p : Z) :
  0 <= p <= 20000 ->
  pulse_us_to_u16 binary32 p = inr (65535 * p / 20000) \/
  pulse_us_to_u16 binary32 p = inr (65535 * p / 20000 + 1).
Proof.
  intros Hp. pose proof (all_from_spec _ _ _ duty32_table p ltac:(lia)) as H.
  cbn beta in H. destruct (pulse_us_to_u16 binary32 p) as [e|d]; [discriminate|].
  apply orb_prop in H. destruct H as [H|H]; apply Z.eqb_eq in H; subst d; auto.
Qed.

Lemma quotient_step (p q : Z) :
  p < q -> 65535 * p / 20000 + 3 <= 65535 * q / 20000.
Proof.
  intros H. rewrite <- Z.div_add by lia. apply Z.div_le_mono; lia.
Qed.

End ServoFacts.

Section ServoClaims.
Import Servo.
Local Open Scope Z_scope.

(** X23.  [pulse_us_to_u16], for every integer pulse width, never
    raises.  In double precision it is the integer quotient of 65535
    times the clipped pulse width by 20000; in single precision it is
    that quotient or one more.  In both it is 0 at and below 0, 65535
    at and above the period, between 0 and 65535, and strictly
    increasing on the pulse widths from 0 to the period. *)
Theorem X23_duty_conversion (p : Z) :
  pulse_us_to_u16 binary64 p = inr (65535 * Z.max 0 (Z.min p 20000) / 20000) /\
  (pulse_us_to_u16 binary32 p = inr (65535 * Z.max 0 (Z.min p 20000) / 20000) \/
   pulse_us_to_u16 binary32 p = inr (65535 * Z.max 0 (Z.min p 20000) / 20000 + 1)) /\
  (forall fmt, fmt = binary32 \/ fmt = binary64 ->
     exists d, pulse_us_to_u16 fmt p = inr d /\ 0 <= d <= 65535 /\
               (p <= 0 -> d = 0) /\ (20000 <= p -> d = 65535) /\
               forall p', p < p' -> p' <= 20000 -> 0 < p' ->
                 exists d', pulse_us_to_u16 fmt p' = inr d' /\ d < d').
Proof.
  destruct (pulse_us_to_u16_clip binary64 p) as [E64 Hc].
  destruct (pulse_us_to_u16_clip binary32 p) as [E32 _].
  set (c := Z.max 0 (Z.min p 20000)) in *.
  split; [rewrite E64; apply duty64_exact, Hc|].
  split; [rewrite E32; apply duty32_close, Hc|].
  assert (0 <= 65535 * c / 20000 <= 65535) as Hq.
  { split; [apply Z.div_pos; lia|]. apply Z.div_le_upper_bound; lia. }
  intros fmt [-> | ->].
  - assert (pulse_us_to_u16 binary32 0 = inr 0) as H0 by (vm_compute; reflexivity).
    assert (pulse_us_to_u16 binary32 20000 = inr 65535) as H1
      by (vm_compute; reflexivity).
    assert (exists d, pulse_us_to_u16 binary32 c = inr d /\
                      65535 * c / 20000 <= d <= 65535 * c / 20000 + 1) as [d [E Hd]].
    { destruct (duty32_close c Hc) as [E | E]; rewrite E; eexists;
        (split; [reflexivity|lia]). }
    exists d. rewrite E32. split; [exact E|].
    assert (c < 20000 -> 65535 * c / 20000 + 3 <= 65535) as Hq3.
    { intros Hlt. eapply Z.le_trans; [apply (quotient_step c 20000); lia|].
      reflexivity. }
    split.
    { destruct (Z.eq_dec c 20000) as [Ec|Ec].
      - rewrite Ec, H1 in E. injection E as <-. lia.
      - specialize (Hq3 ltac:(lia)). lia. }
    split; [intros Hp; replace c with 0 in E by lia; rewrite H0 in E;
            injection E as <-; reflexivity|].
    split; [intros Hp; replace c with 20000 in E by lia; rewrite H1 in E;
            injection E as <-; reflexivity|].
    intros p' H2 H3 H4.
    pose proof (quotient_step c p' ltac:(lia)) as Hs.
    destruct (duty32_close p' ltac:(lia)) as [D | D]; rewrite D;
      eexists; (split; [reflexivity|lia]).
  - exists (65535 * c / 20000). rewrite E64, (duty64_exact c Hc).
    split; [reflexivity|]. split; [exact Hq|].
    split; [intros Hp; replace c with 0 by lia; reflexivity|].
    split; [intros Hp; replace c with 20000 by lia; reflexivity|].
    intros p' H1 H2 H3. exists (65535 * p' / 20000).
    rewrite (duty64_exact p' ltac:(lia)). split; [reflexivity|].
    pose proof (quotient_step c p' ltac:(lia)). lia.
Qed.

End ServoClaims.

Section SpeedFacts.
Import Servo.
Local Open Scope Z_scope.
Variable fmt : format.
Hypothesis Hfmt : fmt = binary32 \/ fmt = binary64.

Lemma format_constants :
  10 <= prec fmt /\ prec fmt + 9 <= emax fmt /\
  exists m1 m500,
    of_int fmt 1 = S754_finite false m1 (1 - prec fmt) /\
    of_int fmt (-1) = S754_finite true m1 (1 - prec fmt) /\
    fdiv fmt (of_int fmt 1) (of_int fmt 64) = S754_finite false m1 (- 5 - prec fmt) /\
    fdiv fmt (of_int fmt (-1)) (of_int fmt 64) = S754_finite true m1 (- 5 - prec fmt) /\
    Zpos m1 = 2 ^ (prec fmt - 1) /\
    of_int fmt SPAN_US = S754_finite false m500 (9 - prec fmt) /\
    Zpos m500 = 500 * 2 ^ (prec fmt - 9).
Proof.
  destruct Hfmt as [-> | ->]; cbn [prec emax binary32 binary64];
    (split; [lia|]); (split; [lia|]); eexists; eexists;
    repeat split; vm_compute; reflexivity.
Qed.

Lemma saturated_products :
  int_of_float (fmul fmt (of_int fmt 1) (of_int fmt SPAN_US)) = inr 500 /\
  int_of_float (fmul fmt (of_int fmt (-1)) (of_int fmt SPAN_US)) = inr (-500) /\
  SFltb (of_int fmt 1) (of_int fmt (-1)) = false /\
  pulse_us_to_u16 fmt 1000 = inr 3276 /\
  pulse_us_to_u16 fmt 1500 = inr 4915 /\
  pulse_us_to_u16 fmt 2000 = inr 6553.
Proof. destruct Hfmt as [-> | ->]; repeat split; vm_compute; reflexivity. Qed.

Lemma duty_range (p : Z) :
  1000 <= p <= 2000 ->
  exists d, pulse_us_to_u16 fmt p = inr d /\ 3276 <= d <= 6553.
Proof.
  intros Hp. destruct (Z.eq_dec p 2000) as [->|Hne].
  - exists 6553. split; [apply saturated_products|lia].
  - assert (3276 <= 65535 * p / 20000 <= 6550) as Hq.
    { split; [apply Z.div_le_lower_bound; lia|].
      assert (65535 * p / 20000 < 6551) by (apply Z.div_lt_upper_bound; lia). lia. }
    destruct Hfmt as [-> | ->].
    + destruct (duty32_close p ltac:(lia)) as [E | E]; rewrite E; eexists;
        (split; [reflexivity|lia]).
    + rewrite (duty64_exact p ltac:(lia)). eexists. split; [reflexivity|lia].
Qed.

(** The integer part of [speed * SPAN_US] after the two clips, for a
    float speed of magnitude at most [2^-j]. *)
Lemma span_bounded (s : bool) (m : positive) (e j N : Z) :
  valid_binary (prec fmt) (emax fmt) (S754_finite s m e) = true ->
  0 <= j -> 500 <= N * 2 ^ j -> N <= 500 ->
  (forall m1, Zpos m1 = 2 ^ (prec fmt - 1) ->
     SFltb (S754_finite false m1 (1 - prec fmt - j)) (S754_finite s m e) = false /\
     SFltb (S754_finite s m e) (S754_finite true m1 (1 - prec fmt - j)) = false) ->
  exists n,
    int_of_float (fmul fmt (S754_finite s m e) (of_int fmt SPAN_US)) = inr n /\
    - N <= n <= N.
Proof.
  intros Hv Hj HN HN500 Hcmp.
  destruct format_constants as [Hp [He [m1 [m500 [_ [_ [_ [_ [Hm1 [E500 Hm500]]]]]]]]]].
  destruct (Hcmp m1 Hm1) as [Hhi Hlo]. rewrite E500. unfold fmul.
  pose proof (bounded_mantissa (prec fmt) (emax fmt) Hp m e Hv) as Hm.
  assert (e < 1 - prec fmt - j \/ (e = 1 - prec fmt - j /\ Zpos m <= 2 ^ (prec fmt - 1)))
    as Hle.
  { rewrite <- Hm1. destruct s.
    - apply (not_below m1 m _ _ Hlo).
    - apply (not_above m1 m _ _ Hhi). }
  destruct (mul_span_le (prec fmt) (emax fmt) Hp He s m e m500 (9 - prec fmt) j N
              Hm500 eq_refl Hj HN HN500 Hm Hle) as [n [E Hn]].
  rewrite E. exists (cond_Zopp s n). split; [reflexivity|].
  destruct s; cbn [cond_Zopp]; lia.
Qed.

Lemma ltb_one_scaled (m1 : positive) (x : spec_float) (j : Z) :
  0 <= j ->
  SFltb (S754_finite false m1 (1 - prec fmt - j)) x = false ->
  x <> S754_nan ->
  SFltb (S754_finite false m1 (1 - prec fmt)) x = false.
Proof.
  intros Hj H Hn. destruct x as [s|s| |s m e]; try (destruct s; cbn in *; congruence).
  - contradiction.
  - destruct s; [reflexivity|].
    apply not_above in H. unfold SFltb. cbn [SFcompare].
    destruct (Z.compare_spec (1 - prec fmt) e) as [E|E|E]; [|lia|reflexivity].
    assert (j = 0) by lia. subst j.
    destruct H as [H|[_ H]]; [lia|].
    change (Pos.compare_cont Eq m1 m) with (Pos.compare m1 m).
    destruct (Pos.compare_spec m1 m); [reflexivity|lia|reflexivity].
Qed.

Lemma ltb_minus_one_scaled (m1 : positive) (x : spec_float) (j : Z) :
  0 <= j ->
  SFltb x (S754_finite true m1 (1 - prec fmt - j)) = false ->
  x <> S754_nan ->
  SFltb x (S754_finite true m1 (1 - prec fmt)) = false.
Proof.
  intros Hj H Hn. destruct x as [s|s| |s m e]; try (destruct s; cbn in *; congruence).
  - contradiction.
  - destruct s; [|reflexivity].
    apply not_below in H. unfold SFltb. cbn [SFcompare].
    destruct (Z.compare_spec e (1 - prec fmt)) as [E|E|E]; [|reflexivity|lia].
    assert (j = 0) by lia. subst j.
    destruct H as [H|[_ H]]; [lia|].
    change (Pos.compare_cont Eq m m1) with (Pos.compare m m1).
    destruct (Pos.compare_spec m m1); cbn [CompOpp]; [reflexivity|reflexivity|lia].
Qed.

(** The pulse of a float speed that neither clip changes. *)
Lemma pulse_unclipped (x : spec_float) (j N : Z) :
  valid_binary (prec fmt) (emax fmt) x = true ->
  x <> S754_nan ->
  0 <= j -> 500 <= N * 2 ^ j -> N <= 500 ->
  (forall m1, Zpos m1 = 2 ^ (prec fmt - 1) ->
     SFltb (S754_finite false m1 (1 - prec fmt - j)) x = false /\
     SFltb x (S754_finite true m1 (1 - prec fmt - j)) = false) ->
  exists n,
    - N <= n <= N /\
    pulse_of_speed fmt (Float x)
    = inr (if Z.abs (CENTER_US + TRIM_US - (CENTER_US + TRIM_US + n)) <=? DEADBAND_US
           then CENTER_US + TRIM_US else CENTER_US + TRIM_US + n).
Proof.
  intros Hv Hn Hj HN HN500 Hcmp.
  destruct format_constants as [Hp [He [m1 [m500 [E1 [Em1 [_ [_ [Hm1 [E500 Hm500]]]]]]]]]].
  destruct (Hcmp m1 Hm1) as [Hhi Hlo].
  assert (0 <= N) as HN0.
  { assert (0 < 2 ^ j) by (apply Z.pow_pos_nonneg; lia). nia. }
  unfold pulse_of_speed, gt, lt. rewrite E1.
  rewrite (ltb_one_scaled m1 x j Hj Hhi Hn). rewrite Em1.
  rewrite (ltb_minus_one_scaled m1 x j Hj Hlo Hn).
  destruct x as [s|s| |s m e].
  - exists 0. split; [lia|]. rewrite E500. reflexivity.
  - destruct s; cbn in Hhi, Hlo; discriminate.
  - contradiction.
  - destruct (span_bounded s m e j N Hv Hj HN HN500 Hcmp) as [n [E Hb]].
    exists n. split; [exact Hb|]. rewrite E. reflexivity.
Qed.

End SpeedFacts.

Section SpeedClaims.
Import Servo.
Local Open Scope Z_scope.

Lemma deadband_cases (n : Z) :
  - 500 <= n <= 500 ->
  let pulse :=
    if Z.abs (CENTER_US + TRIM_US - (CENTER_US + TRIM_US + n)) <=? DEADBAND_US
    then CENTER_US + TRIM_US else CENTER_US + TRIM_US + n in
  1000 <= pulse <= 2000 /\ (pulse = 1500 \/ 10 < Z.abs (pulse - 1500)) /\
  (Z.abs n <= 10 -> pulse = 1500).
Proof.
  intros Hn. unfold CENTER_US, TRIM_US, DEADBAND_US. cbn zeta.
  destruct (Z.leb_spec (Z.abs (1500 + 0 - (1500 + 0 + n))) 10); lia.
Qed.

(** X24.  [set_speed] keeps the servo in its range.  For a NaN it
    raises ValueError before the PWM is touched.  For every other
    speed, an integer or a well-formed float, the infinities included,
    the pulse is between 1000 and 2000 microseconds, it is the neutral
    1500 or more than 10 microseconds away from it, and the duty
    written is between 3276 and 6553.  In single and in double
    precision. *)
Theorem X24_set_speed_range (fmt : format) (speed : number) :
  fmt = binary32 \/ fmt = binary64 ->
  match speed with
  | Float x => valid_binary (prec fmt) (emax fmt) x = true
  | Int _ => True
  end ->
  (speed = Float S754_nan -> set_speed fmt speed = inl ValueError) /\
  (speed <> Float S754_nan ->
   exists pulse duty,
     pulse_of_speed fmt speed = inr pulse /\
     1000 <= pulse <= 2000 /\
     (pulse = 1500 \/ 10 < Z.abs (pulse - 1500)) /\
     set_speed fmt speed = inr duty /\
     3276 <= duty <= 6553).
Proof.
  intros Hfmt Hv.
  destruct (format_constants fmt Hfmt)
    as [Hp [He [m1 [m500 [E1 [Em1 [_ [_ [Hm1 [E500 Hm500]]]]]]]]]].
  destruct (saturated_products fmt Hfmt) as [Shi [Slo [Sone _]]].
  split.
  { intros ->. unfold set_speed, pulse_of_speed, gt, lt. rewrite E1, Em1, E500.
    reflexivity. }
  intros Hnan.
  assert (exists n, - 500 <= n <= 500 /\
            pulse_of_speed fmt speed
            = inr (if Z.abs (CENTER_US + TRIM_US - (CENTER_US + TRIM_US + n))
                      <=? DEADBAND_US
                   then CENTER_US + TRIM_US else CENTER_US + TRIM_US + n))
    as [n [Hn E]].
  { destruct speed as [z|x].
    - unfold pulse_of_speed, gt, lt.
      destruct (Z.ltb_spec 1 z) as [H|H].
      + rewrite Sone, Shi. exists 500. split; [lia|reflexivity].
      + destruct (Z.ltb_spec z (-1)) as [H'|H'].
        * rewrite Slo. exists (-500). split; [lia|reflexivity].
        * exists (z * SPAN_US). unfold SPAN_US. split; [lia|reflexivity].
    - assert (x <> S754_nan) as Hx by congruence.
      destruct (SFltb (of_int fmt 1) x) eqn:Egt.
      + unfold pulse_of_speed, gt, lt. rewrite Egt, Sone, Shi.
        exists 500. split; [lia|reflexivity].
      + destruct (SFltb x (of_int fmt (-1))) eqn:Elt.
        * unfold pulse_of_speed, gt, lt. rewrite Egt, Elt, Slo.
          exists (-500). split; [lia|reflexivity].
        * apply (pulse_unclipped fmt Hfmt x 0 500 Hv Hx); try lia.
          intros m1' Hm1'. assert (m1' = m1) as -> by lia.
          rewrite Z.sub_0_r, <- E1, <- Em1. split; assumption. }
  destruct (deadband_cases n Hn) as [Hr [Hd _]].
  destruct (duty_range fmt Hfmt _ Hr) as [duty [D Hduty]].
  eexists. exists duty. split; [exact E|]. split; [exact Hr|]. split; [exact Hd|].
  unfold set_speed. rewrite E. split; [exact D|exact Hduty].
Qed.

(** X25.  Saturation and the neutral zone.  A speed above 1.0 is sent
    as the pulse of 2000 microseconds (duty 6553), a speed below -1.0
    as that of 1000 (duty 3276); speed 0, and every float speed of
    magnitude at most 1/64, is sent as the neutral pulse of 1500
    (duty 4915).  In single and in double precision. *)
Theorem X25_saturation_and_neutral (fmt : format) :
  fmt = binary32 \/ fmt = binary64 ->
  (forall speed,
     gt fmt speed 1 = true ->
     pulse_of_speed fmt speed = inr 2000 /\ set_speed fmt speed = inr 6553) /\
  (forall speed,
     gt fmt speed 1 = false -> lt fmt speed (-1) = true ->
     pulse_of_speed fmt speed = inr 1000 /\ set_speed fmt speed = inr 3276) /\
  (pulse_of_speed fmt (Int 0) = inr 1500 /\ set_speed fmt (Int 0) = inr 4915) /\
  (forall x,
     valid_binary (prec fmt) (emax fmt) x = true ->
     x <> S754_nan ->
     SFltb (fdiv fmt (of_int fmt 1) (of_int fmt 64)) x = false ->
     SFltb x (fdiv fmt (of_int fmt (-1)) (of_int fmt 64)) = false ->
     pulse_of_speed fmt (Float x) = inr 1500 /\ set_speed fmt (Float x) = inr 4915).
Proof.
  intros Hfmt.
  destruct (format_constants fmt Hfmt)
    as [Hp [He [m1 [m500 [E1 [Em1 [E64 [Em64 [Hm1 [E500 Hm500]]]]]]]]]].
  destruct (saturated_products fmt Hfmt) as [Shi [Slo [Sone [D1000 [D1500 D2000]]]]].
  split; [|split; [|split]].
  - intros speed Hgt.
    assert (pulse_of_speed fmt speed = inr 2000) as E.
    { unfold pulse_of_speed. rewrite Hgt. cbn [lt]. rewrite Sone, Shi. reflexivity. }
    split; [exact E|]. unfold set_speed. rewrite E. exact D2000.
  - intros speed Hgt Hlt.
    assert (pulse_of_speed fmt speed = inr 1000) as E.
    { unfold pulse_of_speed. rewrite Hgt, Hlt, Slo. reflexivity. }
    split; [exact E|]. unfold set_speed. rewrite E. exact D1000.
  - split; [reflexivity|]. unfold set_speed.
    change (pulse_of_speed fmt (Int 0)) with (@inr error Z 1500). exact D1500.
  - intros x Hv Hx Hhi Hlo. rewrite E64 in Hhi. rewrite Em64 in Hlo.
    destruct (pulse_unclipped fmt Hfmt x 6 8 Hv Hx) as [n [Hn E]]; try lia.
    { intros m1' Hm1'. assert (m1' = m1) as -> by lia.
      replace (1 - prec fmt - 6) with (- 5 - prec fmt) by lia. split; assumption. }
    destruct (deadband_cases n ltac:(lia)) as [_ [_ Hd]].
    rewrite (Hd ltac:(lia)) in E.
    split; [exact E|]. unfold set_speed. rewrite E. exact D1500.
Qed.

End SpeedClaims.

(* ================================================================== *)
(** * Part XXIV.  The further theorems at work                      *)
(* ================================================================== *)

Section FurtherWitnesses.
Import Float64 Numpy.

Lemma X3_comment_removed_witness :
  has_double_slash ("see http:" ++ "/") = false /\
  Jsonc.has_newline "example.org" = false /\
  Jsonc.strip_comments
    ("see http:" ++ "//" ++ "example.org" ++ String Jsonc.newline "next")
  = ("see http:" ++ String Jsonc.newline "next")%string.
Proof.
  split; [reflexivity|]. split; [reflexivity|].
  exact (X3_comment_removed "see http:" "example.org" "next" eq_refl eq_refl).
Defined.

Lemma X4_text_unchanged_witness :
  Jsonc.has_newline "{} // the end" = false /\
  Jsonc.strip_comments "{} // the end" = "{} // the end"%string.
Proof.
  split; [reflexivity|].
  exact (X4_text_unchanged "{} // the end" (or_intror eq_refl)).
Defined.

Lemma X5_video_stage_alone_witness :
  Main.exit_status
    (Main.main "/repo" (fun _ => Py.Ok tt) (fun _ => Py.Ok tt) None
       (Main.Parsed (Synthetic.configuration Synthetic.video_only_flags
                       [Synthetic.piv_section; Synthetic.video_section]))) = 0%Z /\
  Main.video_entered
    (Main.main "/repo" (fun _ => Py.Ok tt) (fun _ => Py.Ok tt) None
       (Main.Parsed (Synthetic.configuration Synthetic.video_only_flags
                       [Synthetic.piv_section; Synthetic.video_section]))) = true.
Proof.
  edestruct (X5_video_stage_alone "/repo" (fun _ => Py.Ok tt) (fun _ => Py.Ok tt) None
               (Synthetic.configuration Synthetic.video_only_flags
                  [Synthetic.piv_section; Synthetic.video_section]))
    as [kwargs [_ [_ [_ [H1 [_ H2]]]]]];
    [reflexivity | reflexivity | reflexivity | reflexivity | reflexivity | reflexivity
    | reflexivity | reflexivity | reflexivity | reflexivity | ].
  split; [exact H2|exact H1].
Defined.

Lemma X6_video_stage_needs_piv_block_witness :
  Main.exit_status
    (Main.main "/repo" (fun _ => Py.Ok tt) (fun _ => Py.Ok tt) None
       (Main.Parsed (Synthetic.configuration Synthetic.video_only_flags
                       [Synthetic.video_section]))) = 1%Z.
Proof.
  erewrite (X6_video_stage_needs_piv_block "/repo" (fun _ => Py.Ok tt)
              (fun _ => Py.Ok tt) None
              (Synthetic.configuration Synthetic.video_only_flags
                 [Synthetic.video_section]));
    [reflexivity | reflexivity | reflexivity | reflexivity | reflexivity | reflexivity
    | reflexivity | left; reflexivity].
Defined.

Lemma X8_default_execution_always_read_witness :
  Main.lookup "default_execution" Synthetic.without_default = None /\
  Main.console
    (Main.main "/repo" (fun _ => Py.Ok tt) (fun _ => Py.Ok tt) (Some "test01"%string)
       (Main.Parsed (Main.JDict Synthetic.without_default)))
  = [Main.MsgUsingConfiguration (Main.JStr "test01");
     Main.ErrKeyNotFound (Main.JStr "test01")].
Proof.
  split; [reflexivity|].
  destruct (X8_default_execution_always_read "/repo" (fun _ => Py.Ok tt)
              (fun _ => Py.Ok tt) (Some "test01"%string) Synthetic.without_default
              eq_refl) as [_ [_ [_ H]]].
  eapply H; [reflexivity | discriminate | reflexivity | reflexivity | reflexivity].
Defined.

Lemma X9_piv_script_call_accepted_witness :
  Scripts.entered
    (Scripts.piv_script (fun _ => Py.Ok tt) (Some "test01"%string)
       (Main.Parsed Synthetic.config)) = true /\
  Main.piv_entered
    (Main.main "/repo" (fun _ => Py.Ok tt) (fun _ => Py.Ok tt) (Some "test01"%string)
       (Main.Parsed Synthetic.config)) = false.
Proof.
  split; [|reflexivity]. unfold Synthetic.config.
  match goal with
  | |- context [Main.Parsed (Main.JDict ?c)] =>
      edestruct (X9_piv_script_call_accepted (fun _ => Py.Ok tt) "test01" c)
        as [kwargs [_ [_ [_ [_ [_ H]]]]]];
        [discriminate | reflexivity | reflexivity | reflexivity | discriminate | ]
  end.
  rewrite H. reflexivity.
Defined.

Lemma X10_scripts_reject_main_default_witness :
  Main.config_key_of None Synthetic.config = Py.Ok (Main.JStr "test01") /\
  Scripts.exit_status
    (Scripts.piv_script (fun _ => Py.Ok tt) None (Main.Parsed Synthetic.config)) = 1%Z /\
  Scripts.entered
    (Scripts.video_script (fun _ => Py.Ok tt) None (Main.Parsed Synthetic.config))
  = false.
Proof.
  split; [reflexivity|].
  destruct (X10_scripts_reject_main_default (fun _ => Py.Ok tt) (fun _ => Py.Ok tt)
              Synthetic.config (Main.JStr "test01") eq_refl)
    as [d [e [_ [H1 [H2 _]]]]].
  rewrite H1, H2. split; reflexivity.
Defined.

Lemma X12_video_script_call_witness :
  Scripts.console
    (Scripts.video_script (fun _ => Py.Ok tt) (Some "test01"%string)
       (Main.Parsed (Synthetic.configuration [] [Synthetic.piv_section])))
  = [Scripts.MsgUsingConfiguration (Main.JStr "test01");
     Scripts.MsgVideoScriptStarts; Scripts.MsgVideoScriptEnds].
Proof.
  unfold Synthetic.configuration.
  match goal with
  | |- context [Main.Parsed (Main.JDict ?c)] =>
      edestruct (X12_video_script_call (fun _ => Py.Ok tt) "test01" c)
        as [_ H];
        [discriminate | reflexivity | reflexivity | reflexivity | reflexivity
        | reflexivity | reflexivity | ]
  end.
  rewrite H. reflexivity.
Defined.

Lemma X26_every_frame_read_once_witness :
  PivAnalysis.capture_log
    (PivAnalysis.analyze_and_save_frames (Synthetic.args Synthetic.five_frames 1 1 "mean"))
  = repeat (PivAnalysis.CapRead true) 5
    ++ [PivAnalysis.CapRead false; PivAnalysis.CapRelease].
Proof.
  destruct (X26_every_frame_read_once (Synthetic.args Synthetic.five_frames 1 1 "mean")
              eq_refl) as [_ H].
  apply H; [vm_compute; lia|].
  apply synthetic_well_shaped, five_frames_usable.
Defined.

Lemma X16_window_zero_witness :
  PivAnalysis.moving_average_window (Synthetic.args Synthetic.five_frames 1 0 "mean") = 0 /\
  PivAnalysis.outcome
    (PivAnalysis.analyze_and_save_frames (Synthetic.args Synthetic.five_frames 1 0 "mean"))
  = Py.Raise Py.IndexError.
Proof.
  split; [reflexivity|].
  destruct (X16_window_zero (Synthetic.args Synthetic.five_frames 1 0 "mean") eq_refl
              (synthetic_well_shaped _ 1 0 "mean" five_frames_usable))
    as [H _]; [vm_compute; lia | reflexivity | exact H].
Defined.

Lemma X17_unknown_method_is_mean_witness :
  PivAnalysis.images
    (PivAnalysis.analyze_and_save_frames
       (with_method (Synthetic.args Synthetic.five_frames 1 2 "mean") "Median"))
  = PivAnalysis.images
      (PivAnalysis.analyze_and_save_frames
         (Synthetic.args Synthetic.five_frames 1 2 "mean")).
Proof.
  destruct (X17_unknown_method_is_mean
              (Synthetic.args Synthetic.five_frames 1 2 "mean") "Median")
    as [H _]; [discriminate | discriminate | exact H].
Defined.

Lemma X19_coordinates_from_first_frame_witness :
  PivAnalysis.grid_xy
    (PivAnalysis.analyze_and_save_frames (Synthetic.args Synthetic.five_frames 1 1 "mean"))
  = Some ([], []).
Proof.
  destruct (X19_coordinates_from_first_frame
              (Synthetic.args Synthetic.five_frames 1 1 "mean")
              (Synthetic.cell Synthetic.three Synthetic.four)
              (tl Synthetic.five_frames) eq_refl eq_refl)
    as [H _]; [vm_compute; lia | exact H].
Defined.

Lemma X20_first_image_decides_witness :
  CreateVideo.imread Synthetic.disk_first_broken "out/img001.png" = None /\
  CreateVideo.writer_log
    (CreateVideo.create_video_from_images Synthetic.shape Synthetic.disk_first_broken
       "out" "video" 30 "img*.png" None) = [].
Proof.
  split; [reflexivity|].
  destruct (X20_first_image_decides (nat * nat * nat) Synthetic.shape
              Synthetic.disk_first_broken "out" "video" 30 "img*.png" None
              "out/img001.png" ["out/img002.png"; "out/img003.png"]%string)
    as [H _]; [vm_compute; reflexivity | reflexivity | exact H].
Defined.

Lemma X21_glob_order_irrelevant_witness :
  CreateVideo.create_video_from_images Synthetic.shape Synthetic.disk_relisted
    "out" "video" 30 "img*.png" None
  = CreateVideo.create_video_from_images Synthetic.shape Synthetic.disk
      "out" "video" 30 "img*.png" None.
Proof.
  apply (X21_glob_order_irrelevant (nat * nat * nat) Synthetic.shape
           Synthetic.disk Synthetic.disk_relisted).
  - eapply perm_trans; [apply perm_swap|]. apply perm_skip, perm_swap.
  - reflexivity.
  - reflexivity.
Defined.

Lemma X22_frames_assembled_in_order_witness :
  exists ordered,
    Permutation [3; 1; 2] ordered /\
    LocallySorted le ordered /\
    Py.sorted (map (fun n => "out/" ++ PivAnalysis.image_name n)%string [3; 1; 2])
    = map (fun n => "out/" ++ PivAnalysis.image_name n)%string ordered.
Proof.
  apply (X22_frames_assembled_in_order "out/" [3; 1; 2]).
  repeat constructor; lia.
Defined.

Lemma X24_set_speed_range_witness :
  valid_binary 24 128 (Synthetic.six_tenths Servo.binary32) = true /\
  exists pulse duty,
    Servo.pulse_of_speed Servo.binary32 (Servo.Float (Synthetic.six_tenths Servo.binary32))
      = inr pulse /\
    (1000 <= pulse <= 2000)%Z /\
    (pulse = 1500%Z \/ (10 < Z.abs (pulse - 1500))%Z) /\
    Servo.set_speed Servo.binary32 (Servo.Float (Synthetic.six_tenths Servo.binary32))
      = inr duty /\
    (3276 <= duty <= 6553)%Z.
Proof.
  split; [reflexivity|].
  destruct (X24_set_speed_range Servo.binary32
              (Servo.Float (Synthetic.six_tenths Servo.binary32))
              (or_introl eq_refl) eq_refl) as [_ H].
  apply H. intros E. vm_compute in E. discriminate.
Defined.

Lemma X25_saturation_and_neutral_witness :
  Servo.set_speed Servo.binary64 (Servo.Int 0) = inr 4915%Z /\
  Servo.set_speed Servo.binary64 (Servo.Float (S754_infinity false)) = inr 6553%Z.
Proof.
  destruct (X25_saturation_and_neutral Servo.binary64 (or_intror eq_refl))
    as [Hhi [_ [[_ H0] _]]].
  split; [exact H0|]. apply Hhi. reflexivity.
Defined.

End FurtherWitnesses.
